(** * halftime_bot: a shallow embedding of [halftime_bot.py]

    The bot polls a scoreboard, posts the day's schedule once and posts one
    halftime alert per game.  The embedding follows the Python file function
    by function:

    - Python values coming out of [r.json()] are the inductive type [pyval];
      subscripts, [.get], iteration, truthiness and [==] are the dynamic
      operations of Python, each raising the exception Python raises;
    - the three module variables [alerted_games], [last_day] and
      [posted_schedule_for_day] form the record [State];
    - everything outside the process (the two clocks, the two HTTP calls,
      the [datetime] library functions) is the record [World]: the k-th call
      of an operation gets the k-th answer of the world;
    - a function that can raise and that mutates the module variables is a
      computation in the monad [M]: it returns a value or an exception,
      the state it leaves behind (mutations made before a raise stay), and
      the effects it performed, in order.

    The file has the embedding first, then the vocabulary of the
    statements (what a trace shows, relations between the two ends of a
    run), concrete inputs, the lemmas and, last, one theorem per claim. *)

From Stdlib Require Import ZArith List String Ascii Bool Lia.
From Stdlib Require Import DecimalString.
From Stdlib Require Import Permutation Sorted.
Import ListNotations.

Local Open Scope string_scope.
Local Open Scope Z_scope.

Set Warnings "-register-all".

(** ** Python values *)

(** What [json.loads] can return, without floats: a JSON number with a
    fraction or an exponent is outside the model.  A [PDict] lists its items
    in insertion order, one item per key. *)
Inductive pyval : Type :=
| PNone
| PBool (b : bool)
| PInt (n : Z)
| PStr (s : string)
| PList (items : list pyval)
| PDict (items : list (string * pyval)).

(** The exceptions the program can meet.  All of them derive from
    [Exception], so the handler [except Exception] of [main] catches each. *)
Inductive exn : Type :=
| NameError (name : string)
| ValueError (msg : string)
| KeyError (key : pyval)
| IndexError
| TypeError
| AttributeError (attr : string)
| StopIteration
| HTTPError (status : Z)
| RequestException (tag : nat)
| JSONDecodeError.

(** A pure computation that may raise. *)
Inductive res (A : Type) : Type :=
| Ok (a : A)
| Raise (e : exn).
Arguments Ok {A} a.
Arguments Raise {A} e.

Definition rbind {A B} (r : res A) (k : A -> res B) : res B :=
  match r with
  | Ok a => k a
  | Raise e => Raise e
  end.

Declare Scope res_scope.
Delimit Scope res_scope with res.
Notation "'let?' x ':=' r 'in' k" := (rbind r (fun x => k))
  (at level 10, x name, r at level 100, k at level 200) : res_scope.

(** [str(n)] for an [int]. *)
Definition str_int (n : Z) : string := NilZero.string_of_int (Z.to_int n).

(** [bool(v)]. *)
Definition truthy (v : pyval) : bool :=
  match v with
  | PNone => false
  | PBool b => b
  | PInt n => negb (n =? 0)
  | PStr s => negb (String.eqb s "")
  | PList l => match l with [] => false | _ => true end
  | PDict kv => match kv with [] => false | _ => true end
  end.

(** [v == "literal"]: only a [str] equals a [str]. *)
Definition eq_str (v : pyval) (lit : string) : bool :=
  match v with
  | PStr s => String.eqb s lit
  | _ => false
  end.

Fixpoint dict_lookup (kv : list (string * pyval)) (k : string) : option pyval :=
  match kv with
  | [] => None
  | (k', v) :: rest => if String.eqb k' k then Some v else dict_lookup rest k
  end.

(** [v[k]] with a [str] key. *)
Definition subscript (v : pyval) (k : string) : res pyval :=
  match v with
  | PDict kv =>
      match dict_lookup kv k with
      | Some x => Ok x
      | None => Raise (KeyError (PStr k))
      end
  | _ => Raise TypeError
  end.

(** [v[0]].  The keys of a JSON object are strings, so a dict has no key
    [0]; the first element of a [str] is its first character. *)
Definition subscript0 (v : pyval) : res pyval :=
  match v with
  | PList [] => Raise IndexError
  | PList (x :: _) => Ok x
  | PStr EmptyString => Raise IndexError
  | PStr (String c _) => Ok (PStr (String c EmptyString))
  | PDict _ => Raise (KeyError (PInt 0))
  | _ => Raise TypeError
  end.

(** [v.get(k, default)]; [v.get(k)] is [py_get v k PNone]. *)
Definition py_get (v : pyval) (k : string) (default : pyval) : res pyval :=
  match v with
  | PDict kv =>
      match dict_lookup kv k with
      | Some x => Ok x
      | None => Ok default
      end
  | _ => Raise (AttributeError "get")
  end.

Fixpoint chars (s : string) : list pyval :=
  match s with
  | EmptyString => []
  | String c rest => PStr (String c EmptyString) :: chars rest
  end.

(** [iter(v)], unfolded: the elements a [for] loop or a generator
    expression goes through. *)
Definition py_iter (v : pyval) : res (list pyval) :=
  match v with
  | PList l => Ok l
  | PDict kv => Ok (map (fun p => PStr (fst p)) kv)
  | PStr s => Ok (chars s)
  | _ => Raise TypeError
  end.

(** [s.replace("Z", "+00:00")]. *)
Fixpoint replace_Z (s : string) : string :=
  match s with
  | EmptyString => EmptyString
  | String c rest =>
      if Ascii.eqb c "Z"%char then "+00:00" ++ replace_Z rest
      else String c (replace_Z rest)
  end.

(** [s.startswith(p)]. *)
Definition startswith (s p : string) : bool := String.prefix p s.

(** ** The game state classifier *)

(** [is_halftime], lines 80-82. *)
Definition is_halftime (event : pyval) : res bool :=
  (let? status := subscript event "status" in
   let? st := subscript status "type" in
   let? name := py_get st "name" PNone in
   if eq_str name "STATUS_HALFTIME" then Ok true
   else
     let? detail := py_get st "detail" PNone in
     Ok (eq_str detail "Halftime"))%res.

(** [next(t for t in competitors if t["homeAway"] == role)], the generator
    already created: the first element whose tag is [role]; a subscript
    that raises inside the generator comes out of [next]; running off the
    end is [StopIteration]. *)
Fixpoint next_tagged (role : string) (ts : list pyval) : res pyval :=
  match ts with
  | [] => Raise StopIteration
  | t :: rest =>
      match subscript t "homeAway" with
      | Raise e => Raise e
      | Ok tag => if eq_str tag role then Ok t else next_tagged role rest
      end
  end.

(** [get_home_away], lines 39-44; returns [(away, home)]. *)
Definition get_home_away (event : pyval) : res (pyval * pyval) :=
  (let? comps := subscript event "competitions" in
   let? comp := subscript0 comps in
   let? competitors := subscript comp "competitors" in
   let? ts := py_iter competitors in
   let? home := next_tagged "home" ts in
   let? ts' := py_iter competitors in
   let? away := next_tagged "away" ts' in
   Ok (away, home))%res.

(** The text of [format_time_until] once [seconds] is known, lines 61-72. *)
Definition time_until_text (seconds : Z) : string :=
  if seconds <=? 0 then "started"
  else
    let minutes := (seconds + 59) / 60 in
    let hours := minutes / 60 in
    let mins := minutes mod 60 in
    if hours =? 0 then "in " ++ str_int mins ++ "m"
    else if mins =? 0 then "in " ++ str_int hours ++ "h"
    else "in " ++ str_int hours ++ "h " ++ str_int mins ++ "m".

(** ** Floats *)

(** A finite binary64 float is a whole multiple of 2^-1074: the float [x]
    is kept as the integer [x * 2^1074], and two floats compare as these
    integers do. *)
Definition float : Type := Z.

Definition float_unit : Z := 2 ^ 1074.

(** The integer nearest to [a / b], for [b > 0]; of two that are equally
    near, the even one. *)
Definition round_half_even (a b : Z) : Z :=
  let q := a / b in
  let r := a mod b in
  if 2 * r <? b then q
  else if b <? 2 * r then q + 1
  else if Z.even q then q else q + 1.

(** [n / b < 2^p], for [n] and [b] above zero. *)
Definition below (n b p : Z) : bool :=
  if 0 <=? p then n <? b * 2 ^ p else n * 2 ^ (- p) <? b.

(** The [p] with [2^p <= n / b < 2^(p+1)], for [n] and [b] above zero. *)
Definition binade (n b : Z) : Z :=
  let p := Z.log2 n - Z.log2 b in
  if below n b p then p - 1 else p.

(** [a / b] on two [int]s, [b > 0]: the float nearest to the quotient,
    halfway cases to even.  With [2^p <= |a| / b < 2^(p+1)] the floats
    around the quotient are the multiples of [2^(p-52)]; [m] is the nearest
    multiple and [k] is [52 - p].  (Quotients under 2^-1022 or over 2^1024
    are outside this definition; those of this program, a number of
    microseconds over 10^6, are between 10^-6 and 2^59.) *)
Definition true_divide (a b : Z) : float :=
  if a =? 0 then 0
  else
    let n := Z.abs a in
    let k := 52 - binade n b in
    let m := if 0 <=? k then round_half_even (n * 2 ^ k) b
             else round_half_even n (b * 2 ^ (- k)) in
    Z.sgn a * (m * 2 ^ (1074 - k)).

(** [int(x)]: towards zero. *)
Definition int_of_float (x : float) : Z := Z.quot x float_unit.

(** An aware [datetime] is its instant, in microseconds since the epoch
    (the resolution of [datetime]), and a [timedelta] is a number of
    microseconds.  [delta.total_seconds()] is the float [microseconds /
    10**6]. *)
Definition total_seconds (delta : Z) : float := true_divide delta 1000000.

(** [dt.timestamp()] of an aware [datetime]: [(dt - EPOCH).total_seconds()]. *)
Definition timestamp (dt : Z) : float := total_seconds dt.

(** [start_local - now] is the difference of the two instants;
    line 60, [int(delta.total_seconds())]. *)
Definition whole_seconds (start_local now : Z) : Z :=
  int_of_float (total_seconds (start_local - now)).

Definition time_until (start_local now : Z) : string :=
  time_until_text (whole_seconds start_local now).

(** ** The world outside the process *)

(** What [requests.post] does: it raises (no connection, timeout, bad URL)
    or it returns a response with a status code. *)
Inductive post_answer : Type :=
| PostRaises (e : exn)
| PostStatus (code : Z).

(** What [requests.get] does; [body] is what [r.json()] parses, [None] when
    the body is not JSON. *)
Inductive get_answer : Type :=
| GetRaises (e : exn)
| GetStatus (code : Z) (body : option pyval).

(** [r.raise_for_status()] of the requests library: [HTTPError] for a
    status from 400 to 599, nothing for any other status. *)
Definition raise_for_status (code : Z) : res unit :=
  if (400 <=? code) && (code <? 600) then Raise (HTTPError code) else Ok tt.

Record World : Type := {
  (** the k-th [date.today()], as a day number *)
  today : nat -> Z;
  (** the k-th [datetime.now()], in microseconds since the epoch *)
  now : nat -> Z;
  (** the answer to the k-th [requests.post] and [requests.get] *)
  post_answers : nat -> post_answer;
  get_answers : nat -> get_answer;
  (** [datetime.fromisoformat(s).astimezone()]: the instant, or the
      exception of a string that is not a date *)
  fromisoformat : string -> res Z;
  (** [dt.strftime("%-I:%M %p")] and [dt.strftime("%Y%m%d")] in the zone
      of the host *)
  strftime_clock : Z -> string;
  strftime_ymd : Z -> string;
  (** [str(v)] of a list or a dict *)
  repr_container : pyval -> string
}.

(** ** The module namespace

    The functions read two global names that no statement of the file
    binds: [DISCORD_WEBHOOK] (line 8 stores the environment variable of
    that name in [WEBHOOK]) and [PING_USER_ID] (its assignment on line 14
    is a comment).  A global name is looked up when the function runs, in
    the namespace of the module as it is then, so the functions are
    modelled over that namespace: it records what each name is bound to,
    [None] for a name that is not bound, and reading such a name raises
    [NameError].  Running the file as a script gives [module_namespace];
    a program that imports the file can bind the two names before it
    calls the functions. *)
Record Namespace : Type := {
  WEBHOOK : pyval;
  DISCORD_WEBHOOK : option pyval;
  PING_USER_ID : option pyval
}.

(** The namespace the file builds, [env] being the environment variable
    [DISCORD_WEBHOOK] ([os.getenv] gives [None] when it is not set). *)
Definition module_namespace (env : option string) : Namespace :=
  {| WEBHOOK := match env with Some s => PStr s | None => PNone end;
     DISCORD_WEBHOOK := None;
     PING_USER_ID := None |}.

Definition ESPN_URL : string :=
  "https://site.api.espn.com/apis/site/v2/sports/basketball/nba/scoreboard".

Definition POLL_SECONDS : Z := 60.

(** ** State, effects and the monad *)

(** An element of the set [alerted_games].  A set tells its elements apart
    by [hash] and [==], for which [True] is [1] and [False] is [0]; lists
    and dicts cannot be hashed. *)
Inductive key : Type :=
| KNone
| KInt (n : Z)
| KStr (s : string).

Definition hash_key (v : pyval) : res key :=
  match v with
  | PNone => Ok KNone
  | PBool b => Ok (KInt (if b then 1 else 0))
  | PInt n => Ok (KInt n)
  | PStr s => Ok (KStr s)
  | PList _ | PDict _ => Raise TypeError
  end.

Definition key_eqb (a b : key) : bool :=
  match a, b with
  | KNone, KNone => true
  | KInt n, KInt m => n =? m
  | KStr s, KStr t => String.eqb s t
  | _, _ => false
  end.

Fixpoint mem (k : key) (s : list key) : bool :=
  match s with
  | [] => false
  | k' :: rest => key_eqb k k' || mem k rest
  end.

(** [s.add(k)]. *)
Definition add (k : key) (s : list key) : list key :=
  if mem k s then s else k :: s.

(** The module variables of lines 18-20, and how many answers of the world
    have been used. *)
Record State : Type := {
  alerted_games : list key;
  last_day : Z;
  posted_schedule_for_day : bool;
  today_calls : nat;
  now_calls : nat;
  post_calls : nat;
  get_calls : nat
}.

(** The place of the program a message is sent from: a label of the model,
    by which the theorems tell the four messages apart. *)
Inductive site : Type :=
| Startup
| Schedule
| DayReset
| Halftime (game : key).

Inductive effect : Type :=
| Post (from : site) (url : pyval) (content : string) (answer : post_answer)
| Get (url : string) (answer : get_answer)
| Printed (e : exn)
| Sleep (seconds : Z).

Definition M (A : Type) : Type := State -> res A * State * list effect.

Definition ret {A} (a : A) : M A := fun s => (Ok a, s, []).

Definition raise {A} (e : exn) : M A := fun s => (Raise e, s, []).

Definition bind {A B} (m : M A) (k : A -> M B) : M B :=
  fun s =>
    match m s with
    | (Ok a, s1, l1) =>
        match k a s1 with
        | (r, s2, l2) => (r, s2, (l1 ++ l2)%list)
        end
    | (Raise e, s1, l1) => (Raise e, s1, l1)
    end.

Definition lift {A} (r : res A) : M A :=
  match r with
  | Ok a => ret a
  | Raise e => raise e
  end.

Definition emit (e : effect) : M unit := fun s => (Ok tt, s, [e]).

Definition read {A} (f : State -> A) : M A := fun s => (Ok (f s), s, []).

Definition modify (f : State -> State) : M unit := fun s => (Ok tt, f s, []).

(** [try: m except Exception as e: h e]. *)
Definition try_except {A} (m : M A) (h : exn -> M A) : M A :=
  fun s =>
    match m s with
    | (Ok a, s1, l1) => (Ok a, s1, l1)
    | (Raise e, s1, l1) =>
        match h e s1 with
        | (r, s2, l2) => (r, s2, (l1 ++ l2)%list)
        end
    end.

Declare Scope M_scope.
Delimit Scope M_scope with M.
Notation "x <- m ;; k" := (bind m (fun x => k))
  (at level 61, m at next level, right associativity) : M_scope.
Notation "m ;; k" := (bind m (fun _ => k))
  (at level 61, right associativity) : M_scope.

(** [for x in xs: body x]. *)
Fixpoint for_each {A} (body : A -> M unit) (xs : list A) : M unit :=
  match xs with
  | [] => ret tt
  | x :: rest => (body x ;; for_each body rest)%M
  end.

Definition set_alerted_games (v : list key) (s : State) : State :=
  {| alerted_games := v; last_day := last_day s;
     posted_schedule_for_day := posted_schedule_for_day s;
     today_calls := today_calls s; now_calls := now_calls s;
     post_calls := post_calls s; get_calls := get_calls s |}.

Definition set_last_day (v : Z) (s : State) : State :=
  {| alerted_games := alerted_games s; last_day := v;
     posted_schedule_for_day := posted_schedule_for_day s;
     today_calls := today_calls s; now_calls := now_calls s;
     post_calls := post_calls s; get_calls := get_calls s |}.

Definition set_posted_schedule_for_day (v : bool) (s : State) : State :=
  {| alerted_games := alerted_games s; last_day := last_day s;
     posted_schedule_for_day := v;
     today_calls := today_calls s; now_calls := now_calls s;
     post_calls := post_calls s; get_calls := get_calls s |}.

Definition tick_today (s : State) : State :=
  {| alerted_games := alerted_games s; last_day := last_day s;
     posted_schedule_for_day := posted_schedule_for_day s;
     today_calls := S (today_calls s); now_calls := now_calls s;
     post_calls := post_calls s; get_calls := get_calls s |}.

Definition tick_now (s : State) : State :=
  {| alerted_games := alerted_games s; last_day := last_day s;
     posted_schedule_for_day := posted_schedule_for_day s;
     today_calls := today_calls s; now_calls := S (now_calls s);
     post_calls := post_calls s; get_calls := get_calls s |}.

Definition tick_post (s : State) : State :=
  {| alerted_games := alerted_games s; last_day := last_day s;
     posted_schedule_for_day := posted_schedule_for_day s;
     today_calls := today_calls s; now_calls := now_calls s;
     post_calls := S (post_calls s); get_calls := get_calls s |}.

Definition tick_get (s : State) : State :=
  {| alerted_games := alerted_games s; last_day := last_day s;
     posted_schedule_for_day := posted_schedule_for_day s;
     today_calls := today_calls s; now_calls := now_calls s;
     post_calls := post_calls s; get_calls := S (get_calls s) |}.

(** ** The program *)

Definition nl : string := String (ascii_of_nat 10) EmptyString.

(** ["\n".join(lines)]. *)
Fixpoint join_lines (lines : list string) : string :=
  match lines with
  | [] => ""
  | [l] => l
  | l :: rest => l ++ nl ++ join_lines rest
  end.

(** The order of the sort keys of [post_schedule_once], line 109: a key
    is the float [dt.timestamp()] of the game, or [None] for
    [float("inf")]. *)
Definition key_lt (a b : option float) : bool :=
  match a, b with
  | Some x, Some y => x <? y
  | Some _, None => true
  | None, _ => false
  end.

Fixpoint insert_by_key (x : option float * pyval)
  (l : list (option float * pyval)) : list (option float * pyval) :=
  match l with
  | [] => [x]
  | y :: rest =>
      if key_lt (fst x) (fst y) then x :: y :: rest
      else y :: insert_by_key x rest
  end.

(** [sorted], on elements already paired with their keys: stable. *)
Definition sorted_by_key (l : list (option float * pyval)) : list pyval :=
  map snd (fold_left (fun acc x => insert_by_key x acc) l []).

Fixpoint map_res {A B} (f : A -> res B) (l : list A) : res (list B) :=
  match l with
  | [] => Ok []
  | x :: rest =>
      (let? y := f x in
       let? ys := map_res f rest in
       Ok (y :: ys))%res
  end.

Section Program.

Variable g : Namespace.
Variable w : World.

(** Reading a global name. *)
Definition global (name : string) (binding : option pyval) : M pyval :=
  match binding with
  | Some v => ret v
  | None => raise (NameError name)
  end.

(** [str(v)], which is also what an f-string puts for [{v}]. *)
Definition py_str (v : pyval) : string :=
  match v with
  | PNone => "None"
  | PBool true => "True"
  | PBool false => "False"
  | PInt n => str_int n
  | PStr s => s
  | PList _ | PDict _ => repr_container w v
  end.

Definition date_today : M Z :=
  fun s => (Ok (today w (today_calls s)), tick_today s, []).

Definition datetime_now : M Z :=
  fun s => (Ok (now w (now_calls s)), tick_now s, []).

Definition requests_post (from : site) (url : pyval) (content : string)
  : M post_answer :=
  fun s =>
    let a := post_answers w (post_calls s) in
    (Ok a, tick_post s, [Post from url content a]).

Definition requests_get (url : string) : M get_answer :=
  fun s =>
    let a := get_answers w (get_calls s) in
    (Ok a, tick_get s, [Get url a]).

(** [send_discord], lines 23-29.  [from] is the label of the caller. *)
Definition send_discord (from : site) (msg : string) : M unit :=
  (url <- global "DISCORD_WEBHOOK" (DISCORD_WEBHOOK g) ;;
   r <- requests_post from url msg ;;
   match r with
   | PostRaises e => raise e
   | PostStatus code => lift (raise_for_status code)
   end)%M.

(** [fetch_scoreboard], lines 32-36. *)
Definition fetch_scoreboard : M pyval :=
  (t <- datetime_now ;;
   let today := strftime_ymd w t in
   r <- requests_get (ESPN_URL ++ "?dates=" ++ today) ;;
   match r with
   | GetRaises e => raise e
   | GetStatus code body =>
       lift (raise_for_status code) ;;
       match body with
       | Some v => ret v
       | None => raise JSONDecodeError
       end
   end)%M.

(** [parse_event_datetime_local], lines 47-53. *)
Definition parse_event_datetime_local (event : pyval) : res (option Z) :=
  (let? iso := py_get event "date" PNone in
   if negb (truthy iso) then Ok None
   else
     match iso with
     | PStr s =>
         let? dt := fromisoformat w (replace_Z s) in
         Ok (Some dt)
     | _ => Raise (AttributeError "replace")
     end)%res.

(** [format_time_until], lines 56-72. *)
Definition format_time_until (start_local : Z) : M string :=
  (now <- datetime_now ;;
   ret (time_until start_local now))%M.

(** [format_start_time], lines 75-77. *)
Definition format_start_time (start_local : Z) : string :=
  strftime_clock w start_local.

(** [format_live_line], lines 85-90. *)
Definition format_live_line (event : pyval) : res string :=
  (let? ah := get_home_away event in
   let away := fst ah in
   let home := snd ah in
   let? status0 := subscript event "status" in
   let? st := subscript status0 "type" in
   let? status := py_get st "detail" (PStr "Unknown") in
   let? away_score := py_get away "score" (PStr "0") in
   let? home_score := py_get home "score" (PStr "0") in
   let? away_team := subscript away "team" in
   let? away_name := subscript away_team "displayName" in
   let? home_team := subscript home "team" in
   let? home_name := subscript home_team "displayName" in
   Ok (py_str away_name ++ " " ++ py_str away_score ++ " – "
       ++ py_str home_name ++ " " ++ py_str home_score
       ++ " (" ++ py_str status ++ ")"))%res.

(** [sort_key], lines 107-109. *)
Definition sort_key (e : pyval) : res (option float * pyval) :=
  (let? dt := parse_event_datetime_local e in
   Ok (option_map timestamp dt, e))%res.

(** The loop of lines 114-123, giving [lines]. *)
Fixpoint schedule_lines (events_sorted : list pyval) : M (list string) :=
  match events_sorted with
  | [] => ret []
  | e :: rest =>
      (start_local <- lift (parse_event_datetime_local e) ;;
       ah <- lift (get_home_away e) ;;
       let away := fst ah in
       let home := snd ah in
       line <-
         match start_local with
         | Some start =>
             let t_str := format_start_time start in
             until <- format_time_until start ;;
             away_team <- lift (subscript away "team") ;;
             away_name <- lift (subscript away_team "displayName") ;;
             home_team <- lift (subscript home "team") ;;
             home_name <- lift (subscript home_team "displayName") ;;
             ret (t_str ++ " (" ++ until ++ ") — " ++ py_str away_name
                  ++ " @ " ++ py_str home_name)
         | None =>
             away_team <- lift (subscript away "team") ;;
             away_name <- lift (subscript away_team "displayName") ;;
             home_team <- lift (subscript home "team") ;;
             home_name <- lift (subscript home_team "displayName") ;;
             ret ("TBD — " ++ py_str away_name ++ " @ " ++ py_str home_name)
         end ;;
       lines <- schedule_lines rest ;;
       ret (line :: lines))%M
  end.

Definition schedule_header : string := "🗓️ **Today's NBA schedule**" ++ nl.

(** [post_schedule_once], lines 93-127. *)
Definition post_schedule_once (events : pyval) : M unit :=
  (posted <- read posted_schedule_for_day ;;
   if posted then ret tt
   else if negb (truthy events) then
     send_discord Schedule (schedule_header ++ "No NBA games found for today.") ;;
     modify (set_posted_schedule_for_day true)
   else
     es <- lift (py_iter events) ;;
     keyed <- lift (map_res sort_key es) ;;
     let events_sorted := sorted_by_key keyed in
     lines <- schedule_lines events_sorted ;;
     let msg := schedule_header ++ join_lines lines in
     send_discord Schedule msg ;;
     modify (set_posted_schedule_for_day true))%M.

(** The body of the loop of [check_games], lines 139-145. *)
Definition halftime_step (event : pyval) : M unit :=
  (game_id <- lift (py_get event "id" PNone) ;;
   if negb (truthy game_id) then ret tt
   else
     half <- lift (is_halftime event) ;;
     if half then
       k <- lift (hash_key game_id) ;;
       alerted <- read alerted_games ;;
       if mem k alerted then ret tt
       else
         ping <- global "PING_USER_ID" (PING_USER_ID g) ;;
         line <- lift (format_live_line event) ;;
         send_discord (Halftime k)
           ("<@" ++ py_str ping ++ ">" ++ nl ++ "🏀 **HALFTIME**" ++ nl ++ line) ;;
         modify (fun s => set_alerted_games (add k (alerted_games s)) s)
     else ret tt)%M.

(** [check_games], lines 130-145. *)
Definition check_games : M unit :=
  (data <- fetch_scoreboard ;;
   events <- lift (py_get data "events" (PList [])) ;;
   post_schedule_once events ;;
   es <- lift (py_iter events) ;;
   for_each halftime_step es)%M.

Definition webhook_prefix : string := "https://discord.com/api/webhooks/".

(** Lines 151-152 of [main]. *)
Definition validate_webhook : M unit :=
  (url <- global "DISCORD_WEBHOOK" (DISCORD_WEBHOOK g) ;;
   match url with
   | PStr s =>
       if startswith s webhook_prefix then ret tt
       else raise (ValueError
                     "DISCORD_WEBHOOK is not set to a valid Discord webhook URL.")
   | _ => raise (AttributeError "startswith")
   end)%M.

(** Line 154 of [main]. *)
Definition announce_start : M unit :=
  (ping <- global "PING_USER_ID" (PING_USER_ID g) ;;
   send_discord Startup ("✅ Halftime bot started. <@" ++ py_str ping ++ ">"))%M.

(** Lines 162-169: what the [try] protects. *)
Definition tick_body : M unit :=
  (d <- date_today ;;
   last <- read last_day ;;
   (if negb (d =? last) then
      modify (set_alerted_games []) ;;
      d' <- date_today ;;
      modify (set_last_day d') ;;
      modify (set_posted_schedule_for_day false) ;;
      send_discord DayReset "🔄 New day — reset alerted games." ;;
      check_games
    else ret tt) ;;
   check_games)%M.

(** One turn of the [while True] loop, lines 160-173. *)
Definition tick : M unit :=
  (try_except tick_body (fun e => emit (Printed e)) ;;
   emit (Sleep POLL_SECONDS))%M.

(** The first [n] turns of the loop. *)
Fixpoint poll_loop (n : nat) : M unit :=
  match n with
  | O => ret tt
  | S k => (tick ;; poll_loop k)%M
  end.

(** [main], lines 148-173, followed for [n] turns of its loop: [Raise e]
    is the process ending on the exception [e], [Ok tt] is the process
    about to start turn [n + 1]. *)
Definition main (n : nat) : M unit :=
  (validate_webhook ;;
   announce_start ;;
   check_games ;;
   poll_loop n)%M.

(** The module variables after the import of the file, lines 18-20. *)
Definition initial_state : State :=
  {| alerted_games := [];
     last_day := today w O;
     posted_schedule_for_day := false;
     today_calls := 1; now_calls := 0; post_calls := 0; get_calls := 0 |}.

End Program.

(** ** Reading a trace *)

(** [send_discord] returned: the POST was answered, with a status that
    [raise_for_status] lets through. *)
Definition delivered (a : post_answer) : bool :=
  match a with
  | PostStatus code => negb ((400 <=? code) && (code <? 600))
  | PostRaises _ => false
  end.

(** A halftime notification of game [k] that went through. *)
Definition halftime_sent (k : key) (e : effect) : bool :=
  match e with
  | Post (Halftime k') _ _ a => key_eqb k k' && delivered a
  | _ => false
  end.

(** A schedule summary that went through. *)
Definition schedule_sent (e : effect) : bool :=
  match e with
  | Post Schedule _ _ a => delivered a
  | _ => false
  end.

Definition count (p : effect -> bool) (l : list effect) : nat :=
  List.length (filter p l).

Definition is_get (e : effect) : bool :=
  match e with
  | Get _ _ => true
  | _ => false
  end.

(** The exception [send_discord] raises on an answer that is not
    [delivered]. *)
Definition refusal (a : post_answer) : exn :=
  match a with
  | PostRaises e => e
  | PostStatus code => HTTPError code
  end.

(** ** Relations between the two ends of a run

    [holds R m s]: running [m] from [s] relates [s], the state reached and
    the effects performed by [R], whether [m] returns or raises.  For a
    relation that is reflexive and transitive along traces, [holds] goes
    through [bind], [try_except] and [for_each]. *)
Definition holds {A} (R : State -> State -> list effect -> Prop)
  (m : M A) (s : State) : Prop :=
  R s (snd (fst (m s))) (snd (m s)).

(** ** One calendar day

    [within_day s s' l]: going from [s] to [s'] with the effects [l] stays
    in the day of [s] and respects what [s] has recorded: a game of
    [alerted_games] gets no notification, no game gets two, a game that
    got one is in [alerted_games]; the same for the schedule and its
    flag. *)
Record within_day (s s' : State) (l : list effect) : Prop := {
  wd_day : last_day s' = last_day s;
  wd_calls : (today_calls s <= today_calls s')%nat;
  wd_alerted : forall k, mem k (alerted_games s) = true ->
     mem k (alerted_games s') = true /\ count (halftime_sent k) l = 0%nat;
  wd_once : forall k, (count (halftime_sent k) l <= 1)%nat /\
     (count (halftime_sent k) l = 1%nat -> mem k (alerted_games s') = true);
  wd_posted : posted_schedule_for_day s = true ->
     posted_schedule_for_day s' = true /\ count schedule_sent l = 0%nat;
  wd_schedule : (count schedule_sent l <= 1)%nat /\
     (count schedule_sent l = 1%nat -> posted_schedule_for_day s' = true)
}.

(** [untouched s s' l]: the module variables are the same and nothing was
    performed; only clock readings were used up. *)
Definition untouched (s s' : State) (l : list effect) : Prop :=
  alerted_games s' = alerted_games s /\
  last_day s' = last_day s /\
  posted_schedule_for_day s' = posted_schedule_for_day s /\
  today_calls s' = today_calls s /\
  post_calls s' = post_calls s /\
  l = [].

(** A message that is neither the schedule nor a halftime alert. *)
Definition plain (from : site) : Prop := from = Startup \/ from = DayReset.

(** Every [date.today()] still to come gives the day of [last_day]. *)
Definition same_day (w : World) (s : State) : Prop :=
  forall i, (today_calls s <= i)%nat -> today w i = last_day s.

Definition reset_message : string := "🔄 New day — reset alerted games.".

(** The state in which the new day starts, lines 163-165. *)
Definition rollover_state (w : World) (s : State) : State :=
  set_posted_schedule_for_day false
    (set_last_day (today w (S (today_calls s)))
       (tick_today (set_alerted_games [] (tick_today s)))).


(** A status that [raise_for_status] lets through. *)
Definition passes (code : Z) : Prop := code < 400 \/ 600 <= code.

(** [recorded s s' l]: whatever [s'] records and [s] did not is backed by
    a POST of [l] that was answered with a status that passes: a game that
    entered [alerted_games] by its halftime alert, the flag by the
    schedule. *)
Definition recorded (s s' : State) (l : list effect) : Prop :=
  (forall k, mem k (alerted_games s) = false ->
     mem k (alerted_games s') = true ->
     exists url msg code,
       In (Post (Halftime k) url msg (PostStatus code)) l /\ passes code) /\
  (posted_schedule_for_day s = false ->
     posted_schedule_for_day s' = true ->
     exists url msg code,
       In (Post Schedule url msg (PostStatus code)) l /\ passes code).

(** The module variables are what they were. *)
Definition same_variables (s s' : State) : Prop :=
  alerted_games s' = alerted_games s /\
  posted_schedule_for_day s' = posted_schedule_for_day s /\
  last_day s' = last_day s.

Definition raised {A} (r : res A) : Prop :=
  match r with
  | Raise _ => True
  | Ok _ => False
  end.

(** The POSTs of a trace: where each was sent from and how it was
    answered. *)
Fixpoint posts (l : list effect) : list (site * post_answer) :=
  match l with
  | [] => []
  | Post from _ _ a :: rest => (from, a) :: posts rest
  | _ :: rest => posts rest
  end.

(** What a rollover turn does next, [two_checks] being lines 167 and 169. *)
Definition two_checks (g : Namespace) (w : World) : M unit :=
  (check_games g w ;; check_games g w)%M.

(** The text of the startup announcement and of a halftime alert, as lines
    154 and 144 build them from the value of [PING_USER_ID]. *)
Definition start_text (w : World) (ping : pyval) : string :=
  "✅ Halftime bot started. <@" ++ py_str w ping ++ ">".

Definition alert_text (w : World) (ping : pyval) (line : string) : string :=
  "<@" ++ py_str w ping ++ ">" ++ nl ++ "🏀 **HALFTIME**" ++ nl ++ line.

(** [event] is a game record whose identifier is the element [k] of the
    set and whose live line is [line]. *)
Definition live_line_of (w : World) (k : key) (line : string) (event : pyval)
  : Prop :=
  (exists id, py_get event "id" PNone = Ok id /\ hash_key id = Ok k) /\
  format_live_line w event = Ok line.

(** The wording of the messages: an announcement is [start_text], an alert
    for game [k] is [alert_text] over the live line of a record of that
    game, the day-reset message is [reset_message]. *)
Definition worded (w : World) (ping : pyval) (e : effect) : Prop :=
  match e with
  | Post Startup _ msg _ => msg = start_text w ping
  | Post (Halftime k) _ msg _ =>
      exists event line, live_line_of w k line event /\
                         msg = alert_text w ping line
  | Post DayReset _ msg _ => msg = reset_message
  | _ => True
  end.

(** [every P s s' l]: each effect of the run satisfies [P]. *)
Definition every (P : effect -> Prop) (s s' : State) (l : list effect) : Prop :=
  Forall P l.

(** Lines 151-157 of [main]: what runs before the loop. *)
Definition startup (g : Namespace) (w : World) : M unit :=
  (validate_webhook g ;; announce_start g w ;; check_games g w)%M.

(** The messages of a trace: where each was sent from and its text. *)
Fixpoint messages (l : list effect) : list (site * string) :=
  match l with
  | [] => []
  | Post from _ msg _ :: rest => (from, msg) :: messages rest
  | _ :: rest => messages rest
  end.

Definition not_a_post (e : effect) : Prop :=
  match e with
  | Post _ _ _ _ => False
  | _ => True
  end.

(** ** Vocabulary of the further properties *)


(** A competitor that carries a tag other than [role]: the generator of
    [get_home_away] passes over it. *)
Definition passed_over (role : string) (t : pyval) : Prop :=
  exists tag, subscript t "homeAway" = Ok tag /\ eq_str tag role = false.

(** [d.get(k, default)] as a text. *)
Definition text_or (w : World) (default : string) (v : pyval) (k : string)
  : string :=
  match v with
  | PDict kv =>
      match dict_lookup kv k with
      | Some x => py_str w x
      | None => default
      end
  | _ => default
  end.

(** The two sort keys are the same: the same float, or both missing. *)
Definition key_same (a b : option float) : bool :=
  match a, b with
  | Some x, Some y => x =? y
  | None, None => true
  | _, _ => false
  end.

Definition with_key (k : option float) (x : option float * pyval) : bool :=
  key_same (fst x) k.

(** [x] does not come after [y] in the order of the sort: its key is not
    greater, a missing key being greater than every float. *)
Definition not_after (x y : option float * pyval) : Prop :=
  key_lt (fst y) (fst x) = false.

(** The sorted list of [sorted_by_key], before the keys are dropped. *)
Definition sort_keyed (l : list (option float * pyval))
  : list (option float * pyval) :=
  fold_left (fun acc x => insert_by_key x acc) l [].

(** The instants within 2^52 microseconds, some 142 years, of zero: as
    instants, those from 1828 into 2112; as differences of two
    instants, those of start times less than 142 years from now. *)
Definition in_range (t : Z) : Prop := Z.abs t < 2 ^ 52.

Definition is_sleep (e : effect) : bool :=
  match e with
  | Sleep _ => true
  | _ => false
  end.

(** The URL of the fetch made at the instant [t]. *)
Definition scoreboard_url (w : World) (t : Z) : string :=
  ESPN_URL ++ "?dates=" ++ strftime_ymd w t.

(** A record the halftime scan passes over in a state where [alerted] is
    the set: it has no identifier (or a falsy one), or it is not at
    halftime, or it is at halftime and its identifier is in the set. *)
Definition idle (alerted : list key) (event : pyval) : Prop :=
  exists id,
    py_get event "id" PNone = Ok id /\
    (truthy id = false \/
     is_halftime event = Ok false \/
     (is_halftime event = Ok true /\
      exists k, hash_key id = Ok k /\ mem k alerted = true)).

(** The posts of a trace come from the places [Q] allows. *)
Definition from_sites (Q : site -> Prop) (e : effect) : Prop :=
  match e with
  | Post from _ _ _ => Q from
  | _ => True
  end.

Definition is_from_startup (e : effect) : bool :=
  match e with
  | Post Startup _ _ _ => true
  | _ => false
  end.

Definition is_from_reset (e : effect) : bool :=
  match e with
  | Post DayReset _ _ _ => true
  | _ => false
  end.

(** [check_games] after the fetch, lines 132-145. *)
Definition after_fetch (g : Namespace) (w : World) (data : pyval) : M unit :=
  (events <- lift (py_get data "events" (PList [])) ;;
   post_schedule_once g w events ;;
   es <- lift (py_iter events) ;;
   for_each (halftime_step g w) es)%M.

Definition is_alert_or_start (e : effect) : bool :=
  match e with
  | Post Startup _ _ _ => true
  | Post (Halftime _) _ _ _ => true
  | _ => false
  end.
(** ** Concrete inputs *)

Definition team (name : string) : pyval := PDict [("displayName", PStr name)].

Definition competitor (role name score : string) : pyval :=
  PDict [("homeAway", PStr role); ("team", team name); ("score", PStr score)].

(** A game record as the provider sends it. *)
Definition game (id date status_name detail : string) (away home : pyval) : pyval :=
  PDict [("id", PStr id);
         ("date", PStr date);
         ("status", PDict [("type", PDict [("name", PStr status_name);
                                           ("detail", PStr detail)])]);
         ("competitions", PList [PDict [("competitors", PList [home; away])]])].

Definition game_at_half : pyval :=
  game "401" "2024-01-15T00:30Z" "STATUS_HALFTIME" "Halftime"
       (competitor "away" "Boston Celtics" "55")
       (competitor "home" "Miami Heat" "48").

Definition scoreboard (events : list pyval) : pyval :=
  PDict [("events", PList events)].

(** A namespace in which the two names are bound. *)
Definition bound_namespace : Namespace :=
  {| WEBHOOK := PStr "https://discord.com/api/webhooks/1/abc";
     DISCORD_WEBHOOK := Some (PStr "https://discord.com/api/webhooks/1/abc");
     PING_USER_ID := Some (PStr "428747562686611457") |}.

(** A world where it is always day [d], every delivery is accepted with
    status 204 and every fetch returns [board]. *)
Definition calm_world (d : Z) (board : pyval) : World :=
  {| today := fun _ => d;
     now := fun _ => 0;
     post_answers := fun _ => PostStatus 204;
     get_answers := fun _ => GetStatus 200 (Some board);
     fromisoformat := fun _ => Ok 7200000000;
     strftime_clock := fun _ => "7:30 PM";
     strftime_ymd := fun _ => "20240114";
     repr_container := fun _ => "" |}.



(** The module variables on day [d], with no world answer used yet. *)
Definition state_on (d : Z) (alerted : list key) (posted : bool) : State :=
  {| alerted_games := alerted; last_day := d;
     posted_schedule_for_day := posted;
     today_calls := 0; now_calls := 0; post_calls := 0; get_calls := 0 |}.

(** The calm world, except that every POST is answered with [code]. *)
Definition answering (code : Z) (d : Z) (board : pyval) : World :=
  {| today := fun _ => d;
     now := fun _ => 0;
     post_answers := fun _ => PostStatus code;
     get_answers := fun _ => GetStatus 200 (Some board);
     fromisoformat := fun _ => Ok 7200000000;
     strftime_clock := fun _ => "7:30 PM";
     strftime_ymd := fun _ => "20240114";
     repr_container := fun _ => "" |}.

(** The calm world, except that the first fetch finds no connection. *)
Definition flaky_world (d : Z) (board : pyval) : World :=
  {| today := fun _ => d;
     now := fun _ => 0;
     post_answers := fun _ => PostStatus 204;
     get_answers := fun i =>
       match i with
       | O => GetRaises (RequestException 0)
       | S _ => GetStatus 200 (Some board)
       end;
     fromisoformat := fun _ => Ok 7200000000;
     strftime_clock := fun _ => "7:30 PM";
     strftime_ymd := fun _ => "20240114";
     repr_container := fun _ => "" |}.

(** The calm world, except that no string is a date for the parser. *)
Definition strict_world (d : Z) (board : pyval) : World :=
  {| today := fun _ => d;
     now := fun _ => 0;
     post_answers := fun _ => PostStatus 204;
     get_answers := fun _ => GetStatus 200 (Some board);
     fromisoformat := fun _ => Raise (ValueError "Invalid isoformat string");
     strftime_clock := fun _ => "7:30 PM";
     strftime_ymd := fun _ => "20240114";
     repr_container := fun _ => "" |}.
(** ** Sample runs *)

Example time_until_125_seconds : time_until 125000000 0 = "in 3m".
Proof. reflexivity. Qed.

Example time_until_one_second : time_until 1000000 0 = "in 1m".
Proof. reflexivity. Qed.

Example time_until_two_hours : time_until 7200000000 0 = "in 2h".
Proof. reflexivity. Qed.

Example time_until_two_hours_one_minute :
  time_until 7260000000 0 = "in 2h 1m".
Proof. reflexivity. Qed.

Example time_until_past : time_until 0 3000000 = "started".
Proof. reflexivity. Qed.

Example time_until_under_a_second : time_until 999999 0 = "started".
Proof. reflexivity. Qed.

(** Far from now the float of line 60 is coarser than a microsecond:
    4905600 hours and a microsecond under one second count as one whole
    second more than the hours. *)
Example time_until_far_ahead :
  whole_seconds 17660160000999999 0 = 17660160001 /\
  time_until 17660160000999999 0 = "in 4905600h 1m".
Proof. split; reflexivity. Qed.

Example is_halftime_by_name :
  is_halftime (PDict [("status", PDict [("type",
     PDict [("name", PStr "STATUS_HALFTIME"); ("detail", PStr "End of 2nd")])])])
  = Ok true.
Proof. reflexivity. Qed.

Example is_halftime_by_detail :
  is_halftime (PDict [("status", PDict [("type",
     PDict [("name", PStr "STATUS_IN_PROGRESS"); ("detail", PStr "Halftime")])])])
  = Ok true.
Proof. reflexivity. Qed.

Example is_halftime_neither :
  is_halftime (PDict [("status", PDict [("type",
     PDict [("name", PStr "STATUS_FINAL"); ("detail", PStr "Final")])])])
  = Ok false.
Proof. reflexivity. Qed.

Example is_halftime_without_status :
  is_halftime (PDict [("id", PStr "401")]) = Raise (KeyError (PStr "status")).
Proof. reflexivity. Qed.

Example live_line_of_the_game :
  format_live_line (calm_world 5 (scoreboard [])) game_at_half
  = Ok "Boston Celtics 55 – Miami Heat 48 (Halftime)".
Proof. reflexivity. Qed.

Example no_home_team :
  get_home_away
    (PDict [("competitions",
             PList [PDict [("competitors",
                            PList [competitor "away" "Boston Celtics" "55"])]])])
  = Raise StopIteration.
Proof. reflexivity. Qed.

Example record_without_id_is_skipped s :
  halftime_step bound_namespace (calm_world 5 (scoreboard []))
    (PDict [("status", PInt 3)]) s
  = (Ok tt, s, []).
Proof. reflexivity. Qed.

Example true_is_one : hash_key (PBool true) = hash_key (PInt 1).
Proof. reflexivity. Qed.

Example no_games_today :
  messages (snd (check_games bound_namespace (calm_world 5 (scoreboard []))
                   (state_on 5 [] false)))
  = [(Schedule, schedule_header ++ "No NBA games found for today.")].
Proof. reflexivity. Qed.

(** ** Floats and instants *)

(** The nearest integer is the quotient or the next integer, and it is
    within a half of [a / b]. *)
Lemma round_half_even_near a b :
  0 < b ->
  a / b <= round_half_even a b <= a / b + 1 /\
  2 * Z.abs (round_half_even a b * b - a) <= b.
Proof.
  intros Hb. unfold round_half_even.
  pose proof (Z.div_mod a b ltac:(lia)) as E.
  pose proof (Z.mod_pos_bound a b Hb) as R.
  destruct (2 * (a mod b) <? b) eqn:E1; [apply Z.ltb_lt in E1; nia|].
  apply Z.ltb_ge in E1.
  destruct (b <? 2 * (a mod b)) eqn:E2; [apply Z.ltb_lt in E2; nia|].
  apply Z.ltb_ge in E2.
  destruct (Z.even (a / b)); nia.
Qed.

(** Rounding at a step finer than [1 / b] does not reach the next whole
    number. *)
Lemma round_half_even_floor n b k :
  0 <= n -> 0 < b < 2 ^ k -> 0 <= k ->
  round_half_even (n * 2 ^ k) b / 2 ^ k = n / b.
Proof.
  intros Hn Hb Hk.
  assert (P : 0 < 2 ^ k) by lia.
  destruct (round_half_even_near (n * 2 ^ k) b ltac:(lia)) as [[Lo Hi] _].
  pose proof (Z.div_mod n b ltac:(lia)) as E.
  pose proof (Z.mod_pos_bound n b ltac:(lia)) as R.
  set (q := n / b) in *. set (r := n mod b) in *. set (K := 2 ^ k) in *.
  set (m := round_half_even (n * K) b) in *.
  assert (L : q * K <= (n * K) / b).
  { apply Z.div_le_lower_bound; [lia|]. nia. }
  assert (U : (n * K) / b <= q * K + K - 2).
  { assert ((n * K) / b < q * K + K - 1); [|lia].
    apply Z.div_lt_upper_bound; [lia|]. nia. }
  symmetry. apply (Z.div_unique m K q (m - q * K)); lia.
Qed.

Lemma binade_range n :
  0 < n < 2 ^ 52 -> -20 <= binade n 1000000 <= 32.
Proof.
  intros [H0 H1]. unfold binade.
  pose proof (Z.log2_nonneg n).
  assert (Z.log2 n < 52) by (apply Z.log2_lt_pow2; lia).
  change (Z.log2 1000000) with 19.
  destruct (below n 1000000 (Z.log2 n - 19)); lia.
Qed.

Lemma pow2_split k : 0 <= k <= 1074 -> 2 ^ k * 2 ^ (1074 - k) = float_unit.
Proof.
  intros H. unfold float_unit. rewrite <- Z.pow_add_r by lia. f_equal. lia.
Qed.

(** The float of a number of microseconds above zero and under 2^52: a
    multiple [m] of a step [2^-k] no coarser than [2^-20]. *)
Lemma total_seconds_pos n :
  0 < n < 2 ^ 52 ->
  exists k, 20 <= k <= 72 /\
    total_seconds n = round_half_even (n * 2 ^ k) 1000000 * 2 ^ (1074 - k).
Proof.
  intros H. pose proof (binade_range n H) as B.
  exists (52 - binade n 1000000). split; [lia|].
  unfold total_seconds, true_divide.
  replace (n =? 0) with false by (symmetry; apply Z.eqb_neq; lia).
  rewrite Z.abs_eq by lia.
  replace (0 <=? 52 - binade n 1000000) with true
    by (symmetry; apply Z.leb_le; lia).
  rewrite Z.sgn_pos by lia. lia.
Qed.

Lemma total_seconds_opp d : total_seconds (- d) = - total_seconds d.
Proof.
  unfold total_seconds, true_divide.
  destruct (Z.eqb_spec d 0) as [->|N]; [reflexivity|].
  replace (- d =? 0) with false by (symmetry; apply Z.eqb_neq; lia).
  rewrite Z.abs_opp, Z.sgn_opp. lia.
Qed.

Lemma total_seconds_0 : total_seconds 0 = 0.
Proof. reflexivity. Qed.

(** Within the range, [int] of the float of [d] microseconds is the
    quotient of [d] by 10^6, towards zero. *)
Lemma whole_seconds_quot start now :
  in_range (start - now) ->
  whole_seconds start now = Z.quot (start - now) 1000000.
Proof.
  unfold in_range, whole_seconds, int_of_float.
  set (d := start - now). clearbody d. intros H.
  assert (Pos : forall n, 0 < n < 2 ^ 52 ->
            Z.quot (total_seconds n) float_unit = Z.quot n 1000000).
  { intros n Hn. destruct (total_seconds_pos n Hn) as (k & Hk & ->).
    assert (P : 0 < 2 ^ k) by lia.
    assert (Q : 0 < 2 ^ (1074 - k)) by lia.
    destruct (round_half_even_near (n * 2 ^ k) 1000000 ltac:(lia)) as [[Lo _] _].
    assert (0 <= n * 2 ^ k / 1000000) by (apply Z.div_pos; lia).
    assert (M : 0 <= round_half_even (n * 2 ^ k) 1000000 * 2 ^ (1074 - k))
      by (apply Z.mul_nonneg_nonneg; lia).
    assert (F : 0 < float_unit) by (unfold float_unit; lia).
    rewrite (Z.quot_div_nonneg _ float_unit M F).
    rewrite (Z.quot_div_nonneg n 1000000) by lia.
    rewrite <- (pow2_split k) by lia.
    rewrite Z.div_mul_cancel_r by lia.
    apply round_half_even_floor; try lia.
    split; [lia|].
    apply Z.lt_le_trans with (2 ^ 20); [reflexivity|].
    apply Z.pow_le_mono_r; lia. }
  destruct (Z.lt_trichotomy d 0) as [N|[->|P]].
  - assert (E : d = - (- d)) by lia. rewrite E, total_seconds_opp.
    rewrite (Z.quot_opp_l _ float_unit) by (unfold float_unit; lia).
    rewrite (Z.quot_opp_l _ 1000000) by lia.
    f_equal. apply Pos. lia.
  - reflexivity.
  - apply Pos. lia.
Qed.

(** The float of [d] microseconds, times 10^6, is within 10^6 * 2^1053 of
    [d] in the unit of the floats. *)
Lemma total_seconds_near d :
  in_range d ->
  Z.abs (total_seconds d * 1000000 - d * float_unit) <= 1000000 * 2 ^ 1053.
Proof.
  unfold in_range. intros H.
  assert (Pos : forall n, 0 < n < 2 ^ 52 ->
    Z.abs (total_seconds n * 1000000 - n * float_unit) <= 1000000 * 2 ^ 1053).
  { intros n Hn. destruct (total_seconds_pos n Hn) as (k & Hk & ->).
    destruct (round_half_even_near (n * 2 ^ k) 1000000 ltac:(lia)) as [_ Er].
    set (m := round_half_even (n * 2 ^ k) 1000000) in *.
    rewrite <- (pow2_split k) by lia.
    assert (U : 2 ^ (1074 - k) <= 2 ^ 1054) by (apply Z.pow_le_mono_r; lia).
    assert (Q : 0 < 2 ^ (1074 - k)) by lia.
    replace (m * 2 ^ (1074 - k) * 1000000 - n * (2 ^ k * 2 ^ (1074 - k)))
      with ((m * 1000000 - n * 2 ^ k) * 2 ^ (1074 - k)) by ring.
    rewrite Z.abs_mul, (Z.abs_eq (2 ^ (1074 - k))) by lia.
    set (e := Z.abs (m * 1000000 - n * 2 ^ k)) in *.
    set (u := 2 ^ (1074 - k)) in *.
    assert (V : 2 ^ 1054 = 2 * 2 ^ 1053) by reflexivity.
    nia. }
  destruct (Z.lt_trichotomy d 0) as [N|[->|P]].
  - specialize (Pos (- d) ltac:(lia)). rewrite total_seconds_opp in Pos. lia.
  - rewrite total_seconds_0. simpl. lia.
  - apply Pos. lia.
Qed.

(** Within the range the floats of two instants are ordered as the
    instants are. *)
Lemma timestamp_lt t1 t2 :
  in_range t1 -> in_range t2 ->
  (timestamp t1 <? timestamp t2) = (t1 <? t2).
Proof.
  intros H1 H2.
  assert (Mono : forall a b, in_range a -> in_range b -> a < b ->
            timestamp a < timestamp b).
  { intros a b Ha Hb L. unfold timestamp.
    pose proof (total_seconds_near a Ha) as Ea.
    pose proof (total_seconds_near b Hb) as Eb.
    assert (F : float_unit = 2 ^ 21 * 2 ^ 1053) by reflexivity.
    set (c := 2 ^ 1053) in *. assert (0 < c) by (unfold c; lia).
    rewrite F in Ea, Eb.
    assert (G : (a + 1) * c <= b * c) by nia.
    change (2 ^ 21) with 2097152 in *. lia. }
  destruct (Z.ltb_spec t1 t2) as [L|G].
  - apply Z.ltb_lt. now apply Mono.
  - apply Z.ltb_ge. destruct (Z.eq_dec t1 t2) as [->|N]; [lia|].
    apply Z.lt_le_incl. apply Mono; auto. lia.
Qed.

(** ** Reasoning about computations *)

Section Holds.

Variable R : State -> State -> list effect -> Prop.
Hypothesis R_refl : forall s, R s s [].
Hypothesis R_trans : forall s1 s2 s3 l1 l2,
  R s1 s2 l1 -> R s2 s3 l2 -> R s1 s3 (l1 ++ l2)%list.

Lemma holds_ret {A} (a : A) s : holds R (ret a) s.
Proof. apply R_refl. Qed.

Lemma holds_raise {A} e s : holds R (@raise A e) s.
Proof. apply R_refl. Qed.

Lemma holds_lift {A} (r : res A) s : holds R (lift r) s.
Proof. destruct r; apply R_refl. Qed.

Lemma holds_read {A} (f : State -> A) s : holds R (read f) s.
Proof. apply R_refl. Qed.

Lemma holds_global name b s : holds R (global name b) s.
Proof. destruct b; apply R_refl. Qed.

Lemma holds_bind {A B} (m : M A) (k : A -> M B) s :
  holds R m s ->
  (forall a s1 l1, m s = (Ok a, s1, l1) -> holds R (k a) s1) ->
  holds R (bind m k) s.
Proof.
  unfold holds, bind. intros Hm Hk.
  destruct (m s) as [[r s1] l1] eqn:E. simpl in Hm.
  destruct r as [a|e]; simpl; [|exact Hm].
  specialize (Hk a s1 l1 eq_refl).
  destruct (k a s1) as [[r2 s2] l2]. simpl in *.
  eapply R_trans; eassumption.
Qed.

Lemma holds_try_except {A} (m : M A) (h : exn -> M A) s :
  holds R m s ->
  (forall e s1 l1, m s = (Raise e, s1, l1) -> holds R (h e) s1) ->
  holds R (try_except m h) s.
Proof.
  unfold holds, try_except. intros Hm Hh.
  destruct (m s) as [[r s1] l1] eqn:E. simpl in Hm.
  destruct r as [a|e]; simpl; [exact Hm|].
  specialize (Hh e s1 l1 eq_refl).
  destruct (h e s1) as [[r2 s2] l2]. simpl in *.
  eapply R_trans; eassumption.
Qed.

Lemma holds_for_each {A} (body : A -> M unit) (xs : list A) :
  (forall x s, holds R (body x) s) ->
  forall s, holds R (for_each body xs) s.
Proof.
  intros Hb. induction xs as [|x rest IH]; intros s; simpl.
  - apply holds_ret.
  - apply holds_bind; [apply Hb | intros; apply IH].
Qed.

End Holds.

(** One step through a [bind], for the relation whose transitivity is
    [T]: the goal for the first computation, then the goal for the rest. *)
Ltac bind_with T := apply (holds_bind _ T).

(** The run of a bound computation, piece by piece. *)
Lemma bind_run {A B} (m : M A) (k : A -> M B) s :
  bind m k s =
  match m s with
  | (Ok a, s1, l1) =>
      (fst (fst (k a s1)), snd (fst (k a s1)), (l1 ++ snd (k a s1))%list)
  | (Raise e, s1, l1) => (Raise e, s1, l1)
  end.
Proof.
  unfold bind. destruct (m s) as [[[a|e] s1] l1]; [|reflexivity].
  destruct (k a s1) as [[r s2] l2]. reflexivity.
Qed.

Lemma bind_silent {A B} (m : M A) (k : A -> M B) s a s1 :
  m s = (Ok a, s1, []) -> bind m k s = k a s1.
Proof.
  intros E. unfold bind. rewrite E.
  destruct (k a s1) as [[r s2] l2]. reflexivity.
Qed.

Lemma bind_raises {A B} (m : M A) (k : A -> M B) s e s1 l1 :
  m s = (Raise e, s1, l1) -> bind m k s = (Raise e, s1, l1).
Proof. intros E. unfold bind. now rewrite E. Qed.

Lemma bind_assoc {A B C} (m : M A) (k : A -> M B) (h : B -> M C) s :
  bind (bind m k) h s = bind m (fun a => bind (k a) h) s.
Proof.
  unfold bind. destruct (m s) as [[[a|e] s1] l1]; [|reflexivity].
  destruct (k a s1) as [[[b|e] s2] l2]; [|reflexivity].
  destruct (h b s2) as [[r s3] l3]. now rewrite app_assoc.
Qed.

Lemma bind_ext {A B} (m : M A) (k k' : A -> M B) s :
  (forall a s1, k a s1 = k' a s1) -> bind m k s = bind m k' s.
Proof.
  intros H. unfold bind. destruct (m s) as [[[a|e] s1] l1]; [|reflexivity].
  now rewrite H.
Qed.

Lemma bind_read {A B} (f : State -> A) (k : A -> M B) s :
  bind (read f) k s = k (f s) s.
Proof. now apply bind_silent. Qed.

Lemma bind_modify {B} (f : State -> State) (k : unit -> M B) s :
  bind (modify f) k s = k tt (f s).
Proof. now apply bind_silent. Qed.

Lemma bind_ret {A B} (a : A) (k : A -> M B) s : bind (ret a) k s = k a s.
Proof. now apply bind_silent. Qed.

Lemma bind_date_today {B} w (k : Z -> M B) s :
  bind (date_today w) k s = k (today w (today_calls s)) (tick_today s).
Proof. now apply bind_silent. Qed.

Lemma bind_datetime_now {B} w (k : Z -> M B) s :
  bind (datetime_now w) k s = k (now w (now_calls s)) (tick_now s).
Proof. now apply bind_silent. Qed.

Lemma bind_lift {A B} (r : res A) (k : A -> M B) s :
  bind (lift r) k s =
  match r with
  | Ok a => k a s
  | Raise e => (Raise e, s, [])
  end.
Proof. destruct r; simpl; [apply bind_ret|reflexivity]. Qed.

Lemma bind_global {B} name b (k : pyval -> M B) s :
  bind (global name b) k s =
  match b with
  | Some v => k v s
  | None => (Raise (NameError name), s, [])
  end.
Proof. destruct b; simpl; [apply bind_ret|reflexivity]. Qed.

Lemma count_app p l1 l2 :
  count p (l1 ++ l2)%list = (count p l1 + count p l2)%nat.
Proof. unfold count. now rewrite filter_app, length_app. Qed.

Lemma key_eqb_refl k : key_eqb k k = true.
Proof.
  destruct k; simpl; auto using Z.eqb_refl, String.eqb_refl.
Qed.

Lemma key_eqb_eq a b : key_eqb a b = true <-> a = b.
Proof.
  destruct a, b; simpl; split; intro H; try congruence; try discriminate.
  - apply Z.eqb_eq in H. congruence.
  - inversion H. apply Z.eqb_refl.
  - apply String.eqb_eq in H. congruence.
  - inversion H. apply String.eqb_refl.
Qed.

Lemma mem_add k k' s : mem k (add k' s) = key_eqb k k' || mem k s.
Proof.
  unfold add. destruct (mem k' s) eqn:E; simpl; [|reflexivity].
  destruct (key_eqb k k') eqn:Ek; [|reflexivity].
  apply key_eqb_eq in Ek. subst. now rewrite E.
Qed.

(** What [send_discord] does, in one equation. *)
Lemma send_discord_run g w from msg s :
  send_discord g w from msg s =
  match DISCORD_WEBHOOK g with
  | None => (Raise (NameError "DISCORD_WEBHOOK"), s, [])
  | Some url =>
      let a := post_answers w (post_calls s) in
      (if delivered a then Ok tt else Raise (refusal a),
       tick_post s, [Post from url msg a])
  end.
Proof.
  unfold send_discord, global, bind, requests_post, raise, ret, lift.
  destruct (DISCORD_WEBHOOK g) as [url|]; [|reflexivity].
  simpl. destruct (post_answers w (post_calls s)) as [e|code]; simpl.
  - reflexivity.
  - unfold raise_for_status.
    destruct ((400 <=? code) && (code <? 600)); reflexivity.
Qed.

Lemma within_day_quiet s s' l :
  alerted_games s' = alerted_games s ->
  last_day s' = last_day s ->
  posted_schedule_for_day s' = posted_schedule_for_day s ->
  (today_calls s <= today_calls s')%nat ->
  (forall k, count (halftime_sent k) l = 0%nat) ->
  count schedule_sent l = 0%nat ->
  within_day s s' l.
Proof.
  intros Ha Hd Hp Hc Hh Hs. constructor; auto.
  - intros k Hk. rewrite Ha. auto.
  - intros k. rewrite Hh. split; [lia|discriminate].
  - intros H. rewrite Hp. auto.
  - rewrite Hs. split; [lia|discriminate].
Qed.

Lemma within_day_refl s : within_day s s [].
Proof. apply within_day_quiet; auto. Qed.

Lemma within_day_trans s1 s2 s3 l1 l2 :
  within_day s1 s2 l1 -> within_day s2 s3 l2 ->
  within_day s1 s3 (l1 ++ l2)%list.
Proof.
  intros [d1 c1 a1 o1 p1 h1] [d2 c2 a2 o2 p2 h2]. constructor.
  - congruence.
  - lia.
  - intros k Hk. destruct (a1 k Hk) as [Hm Hz].
    destruct (a2 k Hm) as [Hm' Hz']. rewrite count_app. split; [auto|lia].
  - intros k. rewrite count_app.
    destruct (o1 k) as [Hle1 Hin1], (o2 k) as [Hle2 Hin2].
    destruct (count (halftime_sent k) l1) as [|[|n]] eqn:E1; try lia.
    + simpl. split; [lia|auto].
    + destruct (a2 k (Hin1 eq_refl)) as [Hm Hz]. rewrite Hz.
      split; [lia|auto].
  - intros Hp. destruct (p1 Hp) as [Hp2 Hz]. destruct (p2 Hp2) as [Hp3 Hz'].
    rewrite count_app. split; [auto|lia].
  - rewrite count_app. destruct h1 as [Hle1 Hin1], h2 as [Hle2 Hin2].
    destruct (count schedule_sent l1) as [|[|n]] eqn:E1; try lia.
    + simpl. split; [lia|auto].
    + destruct (p2 (Hin1 eq_refl)) as [Hm Hz]. rewrite Hz.
      split; [lia|auto].
Qed.

Lemma untouched_refl s : untouched s s [].
Proof. repeat split. Qed.

Lemma untouched_trans s1 s2 s3 l1 l2 :
  untouched s1 s2 l1 -> untouched s2 s3 l2 -> untouched s1 s3 (l1 ++ l2)%list.
Proof.
  unfold untouched. intros (a1 & d1 & p1 & c1 & q1 & e1) (a2 & d2 & p2 & c2 & q2 & e2).
  subst. repeat split; congruence.
Qed.

Lemma untouched_within_day s s' l : untouched s s' l -> within_day s s' l.
Proof.
  intros (a & d & p & c & q & e). subst.
  apply within_day_quiet; auto. lia.
Qed.

Section Facts.

Variable g : Namespace.
Variable w : World.

Lemma datetime_now_untouched s : holds untouched (datetime_now w) s.
Proof. repeat split. Qed.

Lemma schedule_lines_untouched es :
  forall s, holds untouched (schedule_lines w es) s.
Proof.
  induction es as [|e rest IH]; intros s; simpl.
  - apply untouched_refl.
  - repeat (first
      [ apply (holds_lift untouched untouched_refl)
      | apply (holds_ret untouched untouched_refl)
      | apply IH
      | apply datetime_now_untouched
      | bind_with untouched_trans; [|intros]
      | match goal with |- holds _ (match ?x with _ => _ end) _ => destruct x end
      | unfold format_time_until ]).
Qed.

Lemma fetch_scoreboard_within_day s :
  holds within_day (fetch_scoreboard w) s.
Proof.
  unfold holds, fetch_scoreboard, bind, datetime_now, requests_get.
  simpl. destruct (get_answers w (get_calls s)) as [e|code body]; simpl.
  - apply within_day_quiet; simpl; auto.
  - unfold lift. destruct (raise_for_status code); simpl.
    + destruct body; simpl; apply within_day_quiet; simpl; auto.
    + apply within_day_quiet; simpl; auto.
Qed.

Lemma send_discord_plain from msg s :
  plain from -> holds within_day (send_discord g w from msg) s.
Proof.
  intros Hp. unfold holds. rewrite send_discord_run.
  destruct (DISCORD_WEBHOOK g); simpl.
  - apply within_day_quiet; simpl; auto;
      destruct Hp; subst; reflexivity.
  - apply within_day_refl.
Qed.

(** Sending the schedule and setting the flag, lines 102-103 and 126-127. *)
Lemma schedule_chunk_within_day msg s :
  posted_schedule_for_day s = false ->
  holds within_day
    (bind (send_discord g w Schedule msg)
          (fun _ => modify (set_posted_schedule_for_day true))) s.
Proof.
  intros Hf. unfold holds. rewrite bind_run, send_discord_run.
  destruct (DISCORD_WEBHOOK g) as [url|]; simpl; [|apply within_day_refl].
  destruct (delivered (post_answers w (post_calls s))) eqn:Ed; simpl.
  - constructor; unfold count; simpl; auto.
    + intros k. split; [lia|discriminate].
    + rewrite Hf. discriminate.
    + rewrite Ed. simpl. auto.
  - apply within_day_quiet; simpl; auto.
    unfold count. simpl. now rewrite Ed.
Qed.

Lemma post_schedule_once_within_day events s :
  holds within_day (post_schedule_once g w events) s.
Proof.
  unfold post_schedule_once.
  bind_with within_day_trans.
  { apply holds_read. apply within_day_refl. }
  intros posted s1 l1 E. inversion E; subst; clear E.
  destruct (posted_schedule_for_day s1) eqn:Hf.
  { apply holds_ret, within_day_refl. }
  destruct (negb (truthy events)).
  { now apply schedule_chunk_within_day. }
  bind_with within_day_trans.
  { apply holds_lift, within_day_refl. }
  intros es s2 l2 E2.
  assert (s2 = s1) by (destruct (py_iter events); inversion E2; auto). subst s2.
  bind_with within_day_trans.
  { apply holds_lift, within_day_refl. }
  intros keyed s2 l3 E3.
  assert (s2 = s1) by (destruct (map_res _ es); inversion E3; auto). subst s2.
  bind_with within_day_trans.
  { apply untouched_within_day, schedule_lines_untouched. }
  intros lines s2 l4 E4.
  apply schedule_chunk_within_day.
  pose proof (schedule_lines_untouched (sorted_by_key keyed) s1) as U.
  unfold holds in U. rewrite E4 in U. simpl in U.
  destruct U as (_ & _ & U & _). congruence.
Qed.

(** Sending a halftime alert and recording the game, lines 144-145. *)
Lemma halftime_chunk_within_day k msg s :
  mem k (alerted_games s) = false ->
  holds within_day
    (bind (send_discord g w (Halftime k) msg)
          (fun _ => modify (fun s => set_alerted_games (add k (alerted_games s)) s))) s.
Proof.
  intros Hk. unfold holds. rewrite bind_run, send_discord_run.
  destruct (DISCORD_WEBHOOK g) as [url|]; simpl; [|apply within_day_refl].
  destruct (delivered (post_answers w (post_calls s))) eqn:Ed; simpl.
  - constructor; simpl; auto.
    + intros k' Hk'. rewrite mem_add, Hk', orb_true_r. split; auto.
      unfold count. simpl. rewrite Ed.
      destruct (key_eqb k' k) eqn:E; [|reflexivity].
      apply key_eqb_eq in E. congruence.
    + intros k'. unfold count. simpl. rewrite Ed, mem_add.
      destruct (key_eqb k' k); simpl; split; auto; discriminate.
    + unfold count. simpl. split; [lia|discriminate].
  - apply within_day_quiet; simpl; auto.
    intros k'. unfold count. simpl. now rewrite Ed, andb_false_r.
Qed.

Lemma lift_run {A} (r : res A) s (a : A) s1 l1 :
  lift r s = (Ok a, s1, l1) -> r = Ok a /\ s1 = s /\ l1 = [].
Proof. destruct r; simpl; intros E; inversion E; auto. Qed.

Lemma global_run name b s v s1 l1 :
  global name b s = (Ok v, s1, l1) -> b = Some v /\ s1 = s /\ l1 = [].
Proof. destruct b; simpl; intros E; inversion E; auto. Qed.

Lemma halftime_step_within_day event s :
  holds within_day (halftime_step g w event) s.
Proof.
  unfold halftime_step.
  bind_with within_day_trans.
  { apply holds_lift, within_day_refl. }
  intros game_id s1 l1 E. apply lift_run in E. destruct E as (_ & -> & _).
  destruct (negb (truthy game_id)); [apply holds_ret, within_day_refl|].
  bind_with within_day_trans.
  { apply holds_lift, within_day_refl. }
  intros half s1 l2 E. apply lift_run in E. destruct E as (_ & -> & _).
  destruct half; [|apply holds_ret, within_day_refl].
  bind_with within_day_trans.
  { apply holds_lift, within_day_refl. }
  intros k s1 l3 E. apply lift_run in E. destruct E as (_ & -> & _).
  bind_with within_day_trans.
  { apply holds_read, within_day_refl. }
  intros alerted s1 l4 E. inversion E; subst; clear E.
  destruct (mem k (alerted_games s1)) eqn:Hk; [apply holds_ret, within_day_refl|].
  bind_with within_day_trans.
  { apply holds_global, within_day_refl. }
  intros ping s2 l5 E. apply global_run in E. destruct E as (_ & -> & _).
  bind_with within_day_trans.
  { apply holds_lift, within_day_refl. }
  intros line s2 l6 E. apply lift_run in E. destruct E as (_ & -> & _).
  now apply halftime_chunk_within_day.
Qed.

Lemma check_games_within_day s : holds within_day (check_games g w) s.
Proof.
  unfold check_games.
  bind_with within_day_trans.
  { apply fetch_scoreboard_within_day. }
  intros data s1 l1 _.
  bind_with within_day_trans.
  { apply holds_lift, within_day_refl. }
  intros events s2 l2 _.
  bind_with within_day_trans.
  { apply post_schedule_once_within_day. }
  intros _ s3 l3 _.
  bind_with within_day_trans.
  { apply holds_lift, within_day_refl. }
  intros es s4 l4 _.
  apply (holds_for_each within_day within_day_refl within_day_trans).
  intros; apply halftime_step_within_day.
Qed.

Lemma same_day_step s s' l :
  same_day w s -> within_day s s' l -> same_day w s'.
Proof.
  intros H [d c _ _ _ _] i Hi. rewrite d. apply H. lia.
Qed.

(** A turn of the loop on the day of [last_day] is one check cycle. *)
Lemma tick_body_same_day s :
  today w (today_calls s) = last_day s ->
  tick_body g w s = check_games g w (tick_today s).
Proof.
  intros H. unfold tick_body.
  rewrite bind_date_today, bind_read. simpl.
  rewrite H, Z.eqb_refl. simpl. now rewrite bind_ret.
Qed.

(** A turn of the loop on a new day: the reset of the three variables,
    then the reset message and two check cycles. *)
Lemma tick_body_rollover s :
  today w (today_calls s) <> last_day s ->
  tick_body g w s =
  (send_discord g w DayReset reset_message ;;
   check_games g w ;;
   check_games g w)%M (rollover_state w s).
Proof.
  intros H. apply Z.eqb_neq in H. unfold tick_body.
  rewrite bind_date_today, bind_read. simpl. rewrite H. simpl.
  rewrite !bind_assoc, bind_modify.
  rewrite bind_assoc, bind_date_today.
  rewrite !bind_assoc, bind_modify.
  rewrite !bind_assoc, bind_modify.
  rewrite bind_assoc. reflexivity.
Qed.

Lemma tick_same_day s :
  today w (today_calls s) = last_day s -> holds within_day (tick g w) s.
Proof.
  intros H. unfold tick.
  bind_with within_day_trans.
  - apply (holds_try_except within_day within_day_trans).
    + unfold holds. rewrite (tick_body_same_day s H).
      eapply (within_day_trans s (tick_today s) _ []).
      * apply within_day_quiet; simpl; auto.
      * apply check_games_within_day.
    + intros e s1 l1 _. apply within_day_quiet; simpl; auto.
  - intros _ s1 l1 _. apply within_day_quiet; simpl; auto.
Qed.

Lemma poll_loop_same_day n :
  forall s, same_day w s -> holds within_day (poll_loop g w n) s.
Proof.
  induction n as [|n IH]; intros s H; simpl.
  - apply within_day_refl.
  - assert (Ht : holds within_day (tick g w) s)
      by (apply tick_same_day, H; lia).
    bind_with within_day_trans; [exact Ht|].
    intros u s1 l1 E. apply IH.
    unfold holds in Ht. rewrite E in Ht. simpl in Ht.
    eapply same_day_step; eassumption.
Qed.

(** On a new day the turn respects the day that starts in
    [rollover_state]. *)
Lemma tick_rollover s :
  today w (today_calls s) <> last_day s ->
  within_day (rollover_state w s) (snd (fst (tick g w s))) (snd (tick g w s)).
Proof.
  intros H.
  assert (B : holds within_day
                (send_discord g w DayReset reset_message ;;
                 check_games g w ;;
                 check_games g w)%M (rollover_state w s)).
  { bind_with within_day_trans.
    - apply send_discord_plain. now right.
    - intros. bind_with within_day_trans;
        intros; apply check_games_within_day. }
  unfold holds in B. rewrite <- (tick_body_rollover s H) in B.
  unfold tick, bind, try_except, emit.
  destruct (tick_body g w s) as [[[a|e] s1] l1]; simpl in *.
  - eapply within_day_trans; [exact B|].
    apply within_day_quiet; simpl; auto.
  - eapply within_day_trans;
      [eapply within_day_trans; [exact B|]|];
      apply within_day_quiet; simpl; auto.
Qed.

Lemma validate_webhook_untouched s :
  holds untouched (validate_webhook g) s.
Proof.
  unfold holds, validate_webhook, bind, global.
  destruct (DISCORD_WEBHOOK g) as [[| | |u| |]|]; simpl;
    try apply untouched_refl.
  destruct (startswith u webhook_prefix); apply untouched_refl.
Qed.

Lemma announce_start_within_day s :
  holds within_day (announce_start g w) s.
Proof.
  unfold announce_start.
  bind_with within_day_trans.
  - apply holds_global, within_day_refl.
  - intros. apply send_discord_plain. now left.
Qed.

(** The startup and the turns that follow it on the same day. *)
Lemma main_same_day n s :
  same_day w s -> holds within_day (main g w n) s.
Proof.
  intros H. unfold main.
  bind_with within_day_trans.
  { apply untouched_within_day, validate_webhook_untouched. }
  intros u1 s1 l1 E1.
  assert (H1 : same_day w s1).
  { pose proof (validate_webhook_untouched s) as U. unfold holds in U.
    rewrite E1 in U. eapply same_day_step; [exact H|].
    apply untouched_within_day, U. }
  assert (A : holds within_day (announce_start g w) s1)
    by apply announce_start_within_day.
  bind_with within_day_trans; [exact A|].
  intros u2 s2 l2 E2. unfold holds in A. rewrite E2 in A. simpl in A.
  assert (H2 : same_day w s2) by (eapply same_day_step; eassumption).
  assert (C : holds within_day (check_games g w) s2)
    by apply check_games_within_day.
  bind_with within_day_trans; [exact C|].
  intros u3 s3 l3 E3. unfold holds in C. rewrite E3 in C. simpl in C.
  apply poll_loop_same_day. eapply same_day_step; eassumption.
Qed.

(** A day that starts with a rollover turn, and the turns after it. *)
Lemma rollover_day n s :
  today w (today_calls s) <> last_day s ->
  (forall i, (S (today_calls s) <= i)%nat ->
             today w i = today w (S (today_calls s))) ->
  within_day (rollover_state w s)
    (snd (fst (poll_loop g w (S n) s))) (snd (poll_loop g w (S n) s)).
Proof.
  intros H Hd. pose proof (tick_rollover s H) as T.
  simpl. rewrite bind_run.
  destruct (tick g w s) as [[[a|e] s1] l1] eqn:E; simpl in *.
  - eapply within_day_trans; [exact T|].
    apply poll_loop_same_day.
    eapply same_day_step; [|exact T].
    intros i Hi. simpl in *. apply Hd. lia.
  - exact T.
Qed.

End Facts.

(** ** What a state records *)

Lemma delivered_passes a :
  delivered a = true <-> exists code, a = PostStatus code /\ passes code.
Proof.
  unfold passes. destruct a as [e|code]; simpl.
  - split; [discriminate|]. intros (c & E & _). discriminate.
  - rewrite negb_true_iff, andb_false_iff, Z.leb_gt, Z.ltb_ge. split.
    + intros H. exists code. auto.
    + intros (c & E & H). inversion E. subst. exact H.
Qed.

Lemma recorded_nothing s s' l :
  (forall k, mem k (alerted_games s') = true -> mem k (alerted_games s) = true) ->
  (posted_schedule_for_day s' = true -> posted_schedule_for_day s = true) ->
  recorded s s' l.
Proof.
  intros Ha Hp. split.
  - intros k H0 H1. apply Ha in H1. congruence.
  - intros H0 H1. apply Hp in H1. congruence.
Qed.

Lemma recorded_refl s : recorded s s [].
Proof. apply recorded_nothing; auto. Qed.

Lemma recorded_trans s1 s2 s3 l1 l2 :
  recorded s1 s2 l1 -> recorded s2 s3 l2 -> recorded s1 s3 (l1 ++ l2)%list.
Proof.
  intros [a1 p1] [a2 p2]. split.
  - intros k H0 H1. destruct (mem k (alerted_games s2)) eqn:E.
    + destruct (a1 k H0 E) as (u & m & c & Hin & Hc).
      exists u, m, c. split; [apply in_or_app; now left|exact Hc].
    + destruct (a2 k E H1) as (u & m & c & Hin & Hc).
      exists u, m, c. split; [apply in_or_app; now right|exact Hc].
  - intros H0 H1. destruct (posted_schedule_for_day s2) eqn:E.
    + destruct (p1 H0 eq_refl) as (u & m & c & Hin & Hc).
      exists u, m, c. split; [apply in_or_app; now left|exact Hc].
    + destruct (p2 eq_refl H1) as (u & m & c & Hin & Hc).
      exists u, m, c. split; [apply in_or_app; now right|exact Hc].
Qed.

Lemma untouched_recorded s s' l : untouched s s' l -> recorded s s' l.
Proof.
  intros (a & _ & p & _). apply recorded_nothing; congruence.
Qed.

Lemma same_variables_refl s : same_variables s s.
Proof. repeat split. Qed.

Section Records.

Variable g : Namespace.
Variable w : World.

(** [send_discord] never writes a module variable. *)
Lemma send_discord_same_variables from msg s :
  same_variables s (snd (fst (send_discord g w from msg s))).
Proof.
  rewrite send_discord_run. destruct (DISCORD_WEBHOOK g); repeat split.
Qed.

Lemma send_discord_recorded from msg s :
  holds recorded (send_discord g w from msg) s.
Proof.
  unfold holds. destruct (send_discord_same_variables from msg s) as (a & p & _).
  apply recorded_nothing; congruence.
Qed.

(** The outcomes of lines 102-103 and 126-127: the summary went through
    and the flag is set, or the flag is what it was. *)
Lemma schedule_chunk_cases msg s :
  let run := bind (send_discord g w Schedule msg)
                  (fun _ => modify (set_posted_schedule_for_day true)) s in
  (raised (fst (fst run)) /\ same_variables s (snd (fst run)) /\
   count schedule_sent (snd run) = 0%nat) \/
  (exists url code,
     run = (Ok tt, set_posted_schedule_for_day true (tick_post s),
            [Post Schedule url msg (PostStatus code)]) /\ passes code).
Proof.
  simpl. rewrite bind_run, send_discord_run.
  destruct (DISCORD_WEBHOOK g) as [url|]; simpl.
  - destruct (delivered (post_answers w (post_calls s))) eqn:Ed; simpl.
    + right. apply delivered_passes in Ed. destruct Ed as (code & E & Hc).
      exists url, code. rewrite E. auto.
    + left. repeat split. unfold count. simpl. now rewrite Ed.
  - left. repeat split.
Qed.

(** The outcomes of lines 144-145. *)
Lemma halftime_chunk_cases k msg s :
  let run := bind (send_discord g w (Halftime k) msg)
                  (fun _ => modify (fun s =>
                     set_alerted_games (add k (alerted_games s)) s)) s in
  (raised (fst (fst run)) /\ same_variables s (snd (fst run)) /\
   forall k', count (halftime_sent k') (snd run) = 0%nat) \/
  (exists url code,
     run = (Ok tt, set_alerted_games (add k (alerted_games s)) (tick_post s),
            [Post (Halftime k) url msg (PostStatus code)]) /\ passes code).
Proof.
  simpl. rewrite bind_run, send_discord_run.
  destruct (DISCORD_WEBHOOK g) as [url|]; simpl.
  - destruct (delivered (post_answers w (post_calls s))) eqn:Ed; simpl.
    + right. apply delivered_passes in Ed. destruct Ed as (code & E & Hc).
      exists url, code. rewrite E. auto.
    + left. repeat split. intros k'. unfold count. simpl.
      now rewrite Ed, andb_false_r.
  - left. repeat split.
Qed.

Lemma schedule_chunk_recorded msg s :
  holds recorded
    (bind (send_discord g w Schedule msg)
          (fun _ => modify (set_posted_schedule_for_day true))) s.
Proof.
  unfold holds.
  destruct (schedule_chunk_cases msg s) as [(_ & (a & p & _) & _)|(url & code & E & Hc)].
  - apply recorded_nothing; congruence.
  - simpl in E. rewrite E. simpl. split.
    + intros k H0 H1. simpl in H1. congruence.
    + intros _ _. exists url, msg, code. simpl. auto.
Qed.

Lemma halftime_chunk_recorded k msg s :
  holds recorded
    (bind (send_discord g w (Halftime k) msg)
          (fun _ => modify (fun s =>
             set_alerted_games (add k (alerted_games s)) s))) s.
Proof.
  unfold holds.
  destruct (halftime_chunk_cases k msg s) as [(_ & (a & p & _) & _)|(url & code & E & Hc)].
  - apply recorded_nothing; congruence.
  - simpl in E. rewrite E. simpl. split.
    + intros k' H0 H1. simpl in H1. rewrite mem_add, H0, orb_false_r in H1.
      apply key_eqb_eq in H1. subst k'.
      exists url, msg, code. simpl. auto.
    + simpl. intros H0 H1. congruence.
Qed.

Lemma post_schedule_once_recorded events s :
  holds recorded (post_schedule_once g w events) s.
Proof.
  unfold post_schedule_once.
  bind_with recorded_trans.
  { apply holds_read, recorded_refl. }
  intros posted s1 l1 _.
  destruct posted; [apply holds_ret, recorded_refl|].
  destruct (negb (truthy events)); [apply schedule_chunk_recorded|].
  bind_with recorded_trans.
  { apply holds_lift, recorded_refl. }
  intros es s2 l2 _.
  bind_with recorded_trans.
  { apply holds_lift, recorded_refl. }
  intros keyed s3 l3 _.
  bind_with recorded_trans.
  { apply untouched_recorded, schedule_lines_untouched. }
  intros lines s4 l4 _. apply schedule_chunk_recorded.
Qed.

Lemma halftime_step_recorded event s :
  holds recorded (halftime_step g w event) s.
Proof.
  unfold halftime_step.
  bind_with recorded_trans.
  { apply holds_lift, recorded_refl. }
  intros game_id s1 l1 _.
  destruct (negb (truthy game_id)); [apply holds_ret, recorded_refl|].
  bind_with recorded_trans.
  { apply holds_lift, recorded_refl. }
  intros half s2 l2 _.
  destruct half; [|apply holds_ret, recorded_refl].
  bind_with recorded_trans.
  { apply holds_lift, recorded_refl. }
  intros k s3 l3 _.
  bind_with recorded_trans.
  { apply holds_read, recorded_refl. }
  intros alerted s4 l4 _.
  destruct (mem k alerted); [apply holds_ret, recorded_refl|].
  bind_with recorded_trans.
  { apply holds_global, recorded_refl. }
  intros ping s5 l5 _.
  bind_with recorded_trans.
  { apply holds_lift, recorded_refl. }
  intros line s6 l6 _. apply halftime_chunk_recorded.
Qed.

Lemma fetch_scoreboard_recorded s : holds recorded (fetch_scoreboard w) s.
Proof.
  unfold holds, fetch_scoreboard, bind, datetime_now, requests_get.
  simpl. destruct (get_answers w (get_calls s)) as [e|code body]; simpl.
  - apply recorded_nothing; simpl; auto.
  - unfold lift. destruct (raise_for_status code); simpl.
    + destruct body; simpl; apply recorded_nothing; simpl; auto.
    + apply recorded_nothing; simpl; auto.
Qed.

Lemma check_games_recorded s : holds recorded (check_games g w) s.
Proof.
  unfold check_games.
  bind_with recorded_trans.
  { apply fetch_scoreboard_recorded. }
  intros data s1 l1 _.
  bind_with recorded_trans.
  { apply holds_lift, recorded_refl. }
  intros events s2 l2 _.
  bind_with recorded_trans.
  { apply post_schedule_once_recorded. }
  intros u s3 l3 _.
  bind_with recorded_trans.
  { apply holds_lift, recorded_refl. }
  intros es s4 l4 _.
  apply (holds_for_each recorded recorded_refl recorded_trans).
  intros; apply halftime_step_recorded.
Qed.

(** The outcomes of [halftime_step]: the module variables are what they
    were and no alert went through, or one alert went through, for a game
    that was not in [alerted_games], and the game was added. *)
Lemma halftime_step_cases event s :
  let run := halftime_step g w event s in
  (same_variables s (snd (fst run)) /\
   forall k, count (halftime_sent k) (snd run) = 0%nat) \/
  (exists k url msg code,
     mem k (alerted_games s) = false /\
     run = (Ok tt, set_alerted_games (add k (alerted_games s)) (tick_post s),
            [Post (Halftime k) url msg (PostStatus code)]) /\
     passes code).
Proof.
  assert (Q : forall r, (same_variables s (snd (fst (r : res unit, s, @nil effect))) /\
              forall k, count (halftime_sent k) (snd (r, s, @nil effect)) = 0%nat))
    by (intros; repeat split).
  simpl. unfold halftime_step.
  rewrite bind_lift. destruct (py_get event "id" PNone) as [game_id|e]; [|left; apply Q].
  destruct (negb (truthy game_id)); [left; apply Q|].
  rewrite bind_lift. destruct (is_halftime event) as [[|]|e]; try (left; apply Q).
  rewrite bind_lift. destruct (hash_key game_id) as [k|e]; [|left; apply Q].
  rewrite bind_read. destruct (mem k (alerted_games s)) eqn:Hk; [left; apply Q|].
  rewrite bind_global. destruct (PING_USER_ID g) as [ping|]; [|left; apply Q].
  rewrite bind_lift. destruct (format_live_line w event) as [line|e]; [|left; apply Q].
  match goal with |- context [send_discord g w (Halftime k) ?m] =>
    destruct (halftime_chunk_cases k m s) as [(_ & V & C)|(url & code & E & Hc)]
  end.
  - left. split; assumption.
  - right. rewrite E. do 4 eexists. repeat split; eauto.
Qed.

(** The outcomes of [post_schedule_once]: the module variables are what
    they were and no summary went through, or the flag was unset, one
    summary went through and the flag is set. *)
Lemma post_schedule_once_cases events s :
  let run := post_schedule_once g w events s in
  (same_variables s (snd (fst run)) /\ count schedule_sent (snd run) = 0%nat) \/
  (exists url msg code,
     posted_schedule_for_day s = false /\
     fst (fst run) = Ok tt /\
     snd run = [Post Schedule url msg (PostStatus code)] /\
     passes code /\
     posted_schedule_for_day (snd (fst run)) = true /\
     alerted_games (snd (fst run)) = alerted_games s /\
     last_day (snd (fst run)) = last_day s).
Proof.
  assert (Q : forall r, (same_variables s (snd (fst (r : res unit, s, @nil effect))) /\
              count schedule_sent (snd (r, s, @nil effect)) = 0%nat))
    by (intros; repeat split).
  simpl. unfold post_schedule_once. rewrite bind_read.
  destruct (posted_schedule_for_day s) eqn:Hp; [left; apply Q|].
  destruct (negb (truthy events)).
  { match goal with |- context [send_discord g w Schedule ?m] =>
      destruct (schedule_chunk_cases m s) as [(_ & V & C)|(url & code & E & Hc)]
    end.
    - left. split; assumption.
    - right. rewrite E. do 3 eexists. simpl.
      repeat split; eauto. }
  rewrite bind_lift. destruct (py_iter events) as [es|e]; [|left; apply Q].
  rewrite bind_lift. destruct (map_res (sort_key w) es) as [keyed|e]; [|left; apply Q].
  rewrite bind_run.
  pose proof (schedule_lines_untouched w (sorted_by_key keyed) s) as U.
  unfold holds in U.
  destruct (schedule_lines w (sorted_by_key keyed) s) as [[[lines|e] s1] l1];
    simpl in U; destruct U as (Ua & Ud & Uf & Uc & Uq & ->).
  - match goal with |- context [send_discord g w Schedule ?m] =>
      remember m as msg eqn:Em; clear Em;
      destruct (schedule_chunk_cases msg s1) as [(_ & (Va & Vp & Vd) & C)|(url & code & E & Hc)]
    end.
    + left. simpl. split; [|assumption]. repeat split; congruence.
    + right. rewrite E. do 3 eexists. simpl.
      repeat split; eauto; congruence.
  - left. simpl. repeat split; assumption.
Qed.

End Records.

(** A turn of the loop on a new day, seen from [rollover_state]: the
    body stays in the day read after the change, and what the module
    variables record at its end was delivered in this turn. *)
Lemma tick_body_new_day g w s :
  today w (today_calls s) <> last_day s ->
  within_day (rollover_state w s)
    (snd (fst (tick_body g w s))) (snd (tick_body g w s)) /\
  recorded (rollover_state w s)
    (snd (fst (tick_body g w s))) (snd (tick_body g w s)).
Proof.
  intros H. rewrite (tick_body_rollover g w s H). split.
  - change (holds within_day
              (send_discord g w DayReset reset_message ;;
               check_games g w ;;
               check_games g w)%M (rollover_state w s)).
    bind_with within_day_trans.
    + apply send_discord_plain. now right.
    + intros. bind_with within_day_trans;
        intros; apply check_games_within_day.
  - change (holds recorded
              (send_discord g w DayReset reset_message ;;
               check_games g w ;;
               check_games g w)%M (rollover_state w s)).
    bind_with recorded_trans.
    + apply send_discord_recorded.
    + intros. bind_with recorded_trans;
        intros; apply check_games_recorded.
Qed.

(** ** The loop *)

Section Loop.

Variable g : Namespace.
Variable w : World.

(** A turn of the loop, from what its body does. *)
Lemma tick_run s :
  tick g w s =
  match tick_body g w s with
  | (Ok _, s1, l1) => (Ok tt, s1, (l1 ++ [Sleep POLL_SECONDS])%list)
  | (Raise e, s1, l1) =>
      (Ok tt, s1, ((l1 ++ [Printed e]) ++ [Sleep POLL_SECONDS])%list)
  end.
Proof.
  unfold tick, bind, try_except, emit.
  destruct (tick_body g w s) as [[[a|e] s1] l1]; reflexivity.
Qed.

Lemma tick_returns s : fst (fst (tick g w s)) = Ok tt.
Proof.
  rewrite tick_run. destruct (tick_body g w s) as [[[a|e] s1] l1]; reflexivity.
Qed.

Lemma poll_loop_returns n : forall s, fst (fst (poll_loop g w n s)) = Ok tt.
Proof.
  induction n as [|n IH]; intros s; simpl; [reflexivity|].
  rewrite bind_run. pose proof (tick_returns s) as T.
  destruct (tick g w s) as [[[a|e] s1] l1]; simpl in *; [apply IH|discriminate].
Qed.

(** The loop goes from one turn to the next. *)
Lemma poll_loop_next n s :
  poll_loop g w (S n) s =
  (fst (fst (poll_loop g w n (snd (fst (tick g w s))))),
   snd (fst (poll_loop g w n (snd (fst (tick g w s))))),
   (snd (tick g w s) ++ snd (poll_loop g w n (snd (fst (tick g w s)))))%list).
Proof.
  simpl. rewrite bind_run. pose proof (tick_returns s) as T.
  destruct (tick g w s) as [[[a|e] s1] l1]; simpl in *; [reflexivity|discriminate].
Qed.

End Loop.

(** ** Properties of every effect of a run *)

Lemma every_refl P s : every P s s [].
Proof. constructor. Qed.

Lemma every_trans P s1 s2 s3 l1 l2 :
  every P s1 s2 l1 -> every P s2 s3 l2 -> every P s1 s3 (l1 ++ l2)%list.
Proof. unfold every. intros. apply Forall_app. auto. Qed.

Lemma untouched_every P s s' l : untouched s s' l -> every P s s' l.
Proof. intros (_ & _ & _ & _ & _ & ->). constructor. Qed.

Section Every.

Variable g : Namespace.
Variable w : World.
Variable P : effect -> Prop.

Hypothesis P_get : forall url a, P (Get url a).
Hypothesis P_print : forall e, P (Printed e).
Hypothesis P_sleep : forall n, P (Sleep n).
Hypothesis P_schedule : forall url msg a,
  DISCORD_WEBHOOK g = Some url -> P (Post Schedule url msg a).
Hypothesis P_reset : forall url a,
  DISCORD_WEBHOOK g = Some url -> P (Post DayReset url reset_message a).
Hypothesis P_start : forall url ping a,
  DISCORD_WEBHOOK g = Some url -> PING_USER_ID g = Some ping ->
  P (Post Startup url (start_text w ping) a).
Hypothesis P_alert : forall url ping k line event a,
  DISCORD_WEBHOOK g = Some url -> PING_USER_ID g = Some ping ->
  live_line_of w k line event ->
  P (Post (Halftime k) url (alert_text w ping line) a).

Lemma send_discord_every from msg s :
  (forall url a, DISCORD_WEBHOOK g = Some url -> P (Post from url msg a)) ->
  holds (every P) (send_discord g w from msg) s.
Proof.
  intros H. unfold holds. rewrite send_discord_run.
  destruct (DISCORD_WEBHOOK g) as [url|] eqn:E; simpl.
  - repeat constructor. now apply H.
  - constructor.
Qed.

Lemma fetch_scoreboard_every s : holds (every P) (fetch_scoreboard w) s.
Proof.
  unfold holds, fetch_scoreboard, bind, datetime_now, requests_get.
  simpl. destruct (get_answers w (get_calls s)) as [e|code body]; simpl.
  - repeat constructor. apply P_get.
  - unfold lift. destruct (raise_for_status code); simpl.
    + destruct body; simpl; repeat constructor; apply P_get.
    + repeat constructor. apply P_get.
Qed.

Lemma post_schedule_once_every events s :
  holds (every P) (post_schedule_once g w events) s.
Proof.
  assert (C : forall msg t, holds (every P)
            (bind (send_discord g w Schedule msg)
                  (fun _ => modify (set_posted_schedule_for_day true))) t).
  { intros msg t. bind_with (every_trans P).
    - apply send_discord_every. intros. now apply P_schedule.
    - intros. constructor. }
  unfold post_schedule_once.
  bind_with (every_trans P); [constructor|].
  intros posted s1 l1 _.
  destruct posted; [constructor|].
  destruct (negb (truthy events)); [apply C|].
  bind_with (every_trans P); [apply holds_lift, every_refl|].
  intros es s2 l2 _.
  bind_with (every_trans P); [apply holds_lift, every_refl|].
  intros keyed s3 l3 _.
  bind_with (every_trans P).
  { apply untouched_every, schedule_lines_untouched. }
  intros lines s4 l4 _. apply C.
Qed.

Lemma halftime_step_every event s :
  holds (every P) (halftime_step g w event) s.
Proof.
  unfold halftime_step.
  bind_with (every_trans P); [apply holds_lift, every_refl|].
  intros game_id s1 l1 E1. apply lift_run in E1. destruct E1 as (E1 & _).
  destruct (negb (truthy game_id)); [constructor|].
  bind_with (every_trans P); [apply holds_lift, every_refl|].
  intros half s2 l2 _.
  destruct half; [|constructor].
  bind_with (every_trans P); [apply holds_lift, every_refl|].
  intros k s3 l3 E3. apply lift_run in E3. destruct E3 as (E3 & _).
  bind_with (every_trans P); [constructor|].
  intros alerted s4 l4 _.
  destruct (mem k alerted); [constructor|].
  bind_with (every_trans P); [apply holds_global, every_refl|].
  intros ping s5 l5 E5. apply global_run in E5. destruct E5 as (E5 & _).
  bind_with (every_trans P); [apply holds_lift, every_refl|].
  intros line s6 l6 E6. apply lift_run in E6. destruct E6 as (E6 & _).
  bind_with (every_trans P).
  - apply send_discord_every. intros url a Hu.
    apply (P_alert url ping k line event a Hu E5).
    split; [exists game_id; auto|exact E6].
  - intros. constructor.
Qed.

Lemma check_games_every s : holds (every P) (check_games g w) s.
Proof.
  unfold check_games.
  bind_with (every_trans P); [apply fetch_scoreboard_every|].
  intros data s1 l1 _.
  bind_with (every_trans P); [apply holds_lift, every_refl|].
  intros events s2 l2 _.
  bind_with (every_trans P); [apply post_schedule_once_every|].
  intros u s3 l3 _.
  bind_with (every_trans P); [apply holds_lift, every_refl|].
  intros es s4 l4 _.
  apply (holds_for_each _ (every_refl P) (every_trans P)).
  intros; apply halftime_step_every.
Qed.

Lemma tick_body_every s : holds (every P) (tick_body g w) s.
Proof.
  unfold tick_body.
  bind_with (every_trans P); [constructor|].
  intros d s1 l1 _.
  bind_with (every_trans P); [constructor|].
  intros last s2 l2 _.
  bind_with (every_trans P); [|intros; apply check_games_every].
  destruct (negb (d =? last)); [|constructor].
  bind_with (every_trans P); [constructor|]. intros u3 s3 l3 _.
  bind_with (every_trans P); [constructor|]. intros d' s4 l4 _.
  bind_with (every_trans P); [constructor|]. intros u5 s5 l5 _.
  bind_with (every_trans P); [constructor|]. intros u6 s6 l6 _.
  bind_with (every_trans P); [|intros; apply check_games_every].
  apply send_discord_every. intros. now apply P_reset.
Qed.

Lemma tick_every s : holds (every P) (tick g w) s.
Proof.
  unfold tick.
  bind_with (every_trans P).
  - apply (holds_try_except _ (every_trans P)); [apply tick_body_every|].
    intros. repeat constructor. apply P_print.
  - intros. repeat constructor. apply P_sleep.
Qed.

Lemma poll_loop_every n : forall s, holds (every P) (poll_loop g w n) s.
Proof.
  induction n as [|n IH]; intros s; simpl; [constructor|].
  bind_with (every_trans P); [apply tick_every|intros; apply IH].
Qed.

Lemma announce_start_every s : holds (every P) (announce_start g w) s.
Proof.
  unfold announce_start.
  bind_with (every_trans P); [apply holds_global, every_refl|].
  intros ping s1 l1 E. apply global_run in E. destruct E as (E & _).
  apply send_discord_every. intros. now apply P_start.
Qed.

Lemma main_every n s : holds (every P) (main g w n) s.
Proof.
  unfold main.
  bind_with (every_trans P).
  { apply untouched_every, validate_webhook_untouched. }
  intros u1 s1 l1 _.
  bind_with (every_trans P); [apply announce_start_every|].
  intros u2 s2 l2 _.
  bind_with (every_trans P); [apply check_games_every|].
  intros; apply poll_loop_every.
Qed.

End Every.

(** ** The startup *)

Lemma validate_webhook_run g s :
  validate_webhook g s =
  match DISCORD_WEBHOOK g with
  | None => (Raise (NameError "DISCORD_WEBHOOK"), s, [])
  | Some (PStr u) =>
      if startswith u webhook_prefix then (Ok tt, s, [])
      else (Raise (ValueError
                     "DISCORD_WEBHOOK is not set to a valid Discord webhook URL."),
            s, [])
  | Some _ => (Raise (AttributeError "startswith"), s, [])
  end.
Proof.
  unfold validate_webhook. rewrite bind_global.
  destruct (DISCORD_WEBHOOK g) as [[| | |u| |]|]; try reflexivity.
  destruct (startswith u webhook_prefix); reflexivity.
Qed.

Lemma main_startup g w n s :
  main g w n s = bind (startup g w) (fun _ => poll_loop g w n) s.
Proof.
  unfold main, startup. rewrite bind_assoc.
  apply bind_ext. intros a s1. now rewrite bind_assoc.
Qed.

(** With a value that is not a string starting with the prefix, [main]
    ends before it has done anything. *)
Lemma main_rejects g w n s :
  (forall u, DISCORD_WEBHOOK g = Some (PStr u) ->
             startswith u webhook_prefix = false) ->
  exists e, main g w n s = (Raise e, s, []).
Proof.
  intros H. unfold main.
  pose proof (validate_webhook_run g s) as V.
  destruct (DISCORD_WEBHOOK g) as [[| | |u| |]|];
    try (eexists; eapply bind_raises; exact V).
  rewrite (H u eq_refl) in V. eexists; eapply bind_raises; exact V.
Qed.

(** With the two names bound and a value that starts with the prefix, the
    first thing [main] does is to post the announcement. *)
Lemma main_announces g w n s u ping :
  DISCORD_WEBHOOK g = Some (PStr u) ->
  startswith u webhook_prefix = true ->
  PING_USER_ID g = Some ping ->
  exists rest,
    snd (main g w n s) =
    Post Startup (PStr u) (start_text w ping) (post_answers w (post_calls s))
      :: rest.
Proof.
  intros Hu Hp Hg. unfold main.
  rewrite (bind_silent _ _ s tt s)
    by (rewrite validate_webhook_run, Hu, Hp; reflexivity).
  unfold announce_start. rewrite bind_assoc, bind_global, Hg.
  rewrite bind_run, send_discord_run, Hu. simpl.
  destruct (delivered (post_answers w (post_calls s))); simpl; eexists; reflexivity.
Qed.

(** ** The file as it is *)

Lemma no_post_no_message l : Forall not_a_post l -> messages l = [].
Proof.
  induction 1 as [|e l He _ IH]; [reflexivity|].
  destruct e; simpl in *; [destruct He|exact IH..].
Qed.

(** In the namespace the file builds, [send_discord] raises before it
    posts, so no turn of the loop posts anything. *)
Lemma as_written_posts_nothing env w n s :
  messages (snd (poll_loop (module_namespace env) w n s)) = [].
Proof.
  apply no_post_no_message.
  apply (poll_loop_every (module_namespace env) w not_a_post);
    simpl; auto; discriminate.
Qed.

(** ** Days and turns *)

(** A day seen from the loop: every [date.today()] still to come gives
    [d].  When [d] is not [last_day], the first turn is the rollover. *)
Lemma day_of_turns g w n s d :
  (forall i, (today_calls s <= i)%nat -> today w i = d) ->
  exists s0, (s0 = s \/ s0 = rollover_state w s) /\
    (last_day s = d -> s0 = s) /\
    within_day s0 (snd (fst (poll_loop g w n s))) (snd (poll_loop g w n s)).
Proof.
  intros H. destruct (Z.eq_dec (last_day s) d) as [E|E].
  - exists s. split; [|split]; auto.
    apply poll_loop_same_day. intros i Hi. rewrite E. auto.
  - destruct n as [|n].
    + exists s. split; [|split]; auto. apply within_day_refl.
    + exists (rollover_state w s). split; [|split]; auto; [congruence|].
      apply rollover_day.
      * rewrite H; auto.
      * intros i Hi. rewrite !H; auto; lia.
Qed.

Lemma eq_str_true v lit : eq_str v lit = true <-> v = PStr lit.
Proof.
  destruct v; simpl; split; intro H; try discriminate.
  - apply String.eqb_eq in H. congruence.
  - inversion H. apply String.eqb_refl.
Qed.

(** ** The claims *)

(** C1.  Over any number of turns of the poll loop that all fall on one
    calendar day, a game gets at most one halftime notification, and none
    if the day is the one of [last_day] and the game is already in
    [alerted_games]; the same bound holds when the startup of [main] comes
    before the turns, on the day of [last_day].  In the step that sends
    it, the game was not in [alerted_games] before and is in it
    afterwards. *)
Theorem one_halftime_alert_per_day g w n s d k :
  (forall i, (today_calls s <= i)%nat -> today w i = d) ->
  (count (halftime_sent k) (snd (poll_loop g w n s)) <= 1)%nat /\
  (last_day s = d -> mem k (alerted_games s) = true ->
   count (halftime_sent k) (snd (poll_loop g w n s)) = 0%nat) /\
  (last_day s = d ->
   (count (halftime_sent k) (snd (main g w n s)) <= 1)%nat) /\
  (forall event t,
     (count (halftime_sent k) (snd (halftime_step g w event t)) <= 1)%nat /\
     (count (halftime_sent k) (snd (halftime_step g w event t)) = 1%nat ->
      mem k (alerted_games t) = false /\
      mem k (alerted_games (snd (fst (halftime_step g w event t)))) = true)).
Proof.
  intros H. destruct (day_of_turns g w n s d H) as (s0 & _ & Hs0 & W).
  split; [apply (wd_once _ _ _ W k)|]. split; [|split].
  - intros Hd Hk. rewrite (Hs0 Hd) in W. apply (wd_alerted _ _ _ W k Hk).
  - intros Hd.
    assert (Wm : holds within_day (main g w n) s).
    { apply main_same_day. intros i Hi. rewrite Hd. auto. }
    apply (wd_once _ _ _ Wm k).
  - intros event t. pose proof (halftime_step_within_day g w event t) as S.
    unfold holds in S. split; [apply (wd_once _ _ _ S k)|].
    intros H1. split; [|apply (proj2 (wd_once _ _ _ S k) H1)].
    destruct (mem k (alerted_games t)) eqn:Hk; [|reflexivity].
    destruct (wd_alerted _ _ _ S k Hk) as [_ Hz]. rewrite Hz in H1.
    discriminate.
Qed.

Lemma one_halftime_alert_per_day_witness :
  let w := calm_world 5 (scoreboard [game_at_half]) in
  let s := state_on 5 [] false in
  (forall i, (today_calls s <= i)%nat -> today w i = 5) /\
  (count (halftime_sent (KStr "401"))
     (snd (poll_loop bound_namespace w 3 s)) <= 1)%nat.
Proof.
  intros w s.
  assert (H : forall i, (today_calls s <= i)%nat -> today w i = 5)
    by (intros i Hi; reflexivity).
  split; [exact H|].
  destruct (one_halftime_alert_per_day bound_namespace w 3 s 5 (KStr "401") H)
    as (C & _).
  exact C.
Defined.

(** C2.  Whatever happens in its turns, the loop does not end the process,
    and every turn ends with the sleep.  A turn whose body raises [e]
    prints [e], sleeps and leaves the state its body left; the next turns
    run from that state.  On the day of [last_day], a game that is in
    [alerted_games] before a turn, failed or not, is still there after it
    and gets no alert in that turn or in the turns after it. *)
Theorem failed_turn_is_isolated g w s :
  (forall n, fst (fst (poll_loop g w n s)) = Ok tt) /\
  (exists l, tick g w s =
             (Ok tt, snd (fst (tick_body g w s)),
              (l ++ [Sleep POLL_SECONDS])%list)) /\
  (forall e s1 l1,
     tick_body g w s = (Raise e, s1, l1) ->
     tick g w s = (Ok tt, s1, ((l1 ++ [Printed e]) ++ [Sleep POLL_SECONDS])%list) /\
     forall n,
       poll_loop g w (S n) s =
       (Ok tt, snd (fst (poll_loop g w n s1)),
        (((l1 ++ [Printed e]) ++ [Sleep POLL_SECONDS]) ++
         snd (poll_loop g w n s1))%list)) /\
  (forall k n,
     same_day w s -> mem k (alerted_games s) = true ->
     mem k (alerted_games (snd (fst (tick g w s)))) = true /\
     count (halftime_sent k) (snd (poll_loop g w n s)) = 0%nat).
Proof.
  split; [intros n; apply poll_loop_returns|]. split; [|split].
  - rewrite tick_run.
    destruct (tick_body g w s) as [[[a|e] s1] l1]; eexists; reflexivity.
  - intros e s1 l1 E.
    assert (T : tick g w s =
                (Ok tt, s1, ((l1 ++ [Printed e]) ++ [Sleep POLL_SECONDS])%list))
      by (rewrite tick_run, E; reflexivity).
    split; [exact T|]. intros n. rewrite poll_loop_next, T. simpl.
    now rewrite poll_loop_returns.
  - intros k n D Hk. split.
    + assert (T : holds within_day (tick g w) s)
        by (apply tick_same_day, D; lia).
      apply (wd_alerted _ _ _ T k Hk).
    + pose proof (poll_loop_same_day g w n s D) as P.
      apply (wd_alerted _ _ _ P k Hk).
Qed.

Lemma failed_turn_is_isolated_witness :
  let w := flaky_world 5 (scoreboard [game_at_half]) in
  let s := state_on 5 [KStr "401"] true in
  tick_body bound_namespace w s =
    (Raise (RequestException 0), tick_get (tick_now (tick_today s)),
     [Get (ESPN_URL ++ "?dates=20240114") (GetRaises (RequestException 0))]) /\
  same_day w s /\
  mem (KStr "401") (alerted_games s) = true /\
  fst (fst (tick bound_namespace w s)) = Ok tt /\
  count (halftime_sent (KStr "401")) (snd (poll_loop bound_namespace w 2 s)) = 0%nat.
Proof.
  intros w s.
  assert (E : tick_body bound_namespace w s =
    (Raise (RequestException 0), tick_get (tick_now (tick_today s)),
     [Get (ESPN_URL ++ "?dates=20240114") (GetRaises (RequestException 0))]))
    by reflexivity.
  assert (D : same_day w s) by (intros i _; reflexivity).
  destruct (failed_turn_is_isolated bound_namespace w s) as (_ & _ & F & A).
  destruct (F _ _ _ E) as [T _].
  destruct (A (KStr "401") 2%nat D eq_refl) as [_ C].
  split; [exact E|]. split; [exact D|]. split; [reflexivity|].
  split; [now rewrite T|exact C].
Defined.

(** C3.  Over any number of turns of the poll loop that all fall on one
    calendar day, at most one schedule summary goes out, also when the
    startup of [main] comes before the turns, on the day of [last_day];
    once the flag is set, the turns of that day post no schedule and leave
    the flag set; and a turn that finds the flag set and leaves it unset
    is a turn on a new day. *)
Theorem one_schedule_per_day g w n s d :
  (forall i, (today_calls s <= i)%nat -> today w i = d) ->
  (count schedule_sent (snd (poll_loop g w n s)) <= 1)%nat /\
  (last_day s = d -> posted_schedule_for_day s = true ->
   count schedule_sent (snd (poll_loop g w n s)) = 0%nat /\
   posted_schedule_for_day (snd (fst (poll_loop g w n s))) = true) /\
  (last_day s = d -> (count schedule_sent (snd (main g w n s)) <= 1)%nat) /\
  (posted_schedule_for_day s = true ->
   posted_schedule_for_day (snd (fst (tick g w s))) = false ->
   today w (today_calls s) <> last_day s).
Proof.
  intros H. destruct (day_of_turns g w n s d H) as (s0 & _ & Hs0 & W).
  split; [apply (wd_schedule _ _ _ W)|]. split; [|split].
  - intros Hd Hp. rewrite (Hs0 Hd) in W.
    destruct (wd_posted _ _ _ W Hp). auto.
  - intros Hd.
    assert (Wm : holds within_day (main g w n) s).
    { apply main_same_day. intros i Hi. rewrite Hd. auto. }
    apply (wd_schedule _ _ _ Wm).
  - intros Hp Hq E. pose proof (tick_same_day g w s E) as T.
    unfold holds in T. destruct (wd_posted _ _ _ T Hp) as [Hp' _].
    congruence.
Qed.

Lemma one_schedule_per_day_witness :
  let w := calm_world 5 (scoreboard [game_at_half]) in
  let s := state_on 4 [] true in
  (forall i, (today_calls s <= i)%nat -> today w i = 5) /\
  (count schedule_sent (snd (poll_loop bound_namespace w 3 s)) <= 1)%nat.
Proof.
  intros w s.
  assert (H : forall i, (today_calls s <= i)%nat -> today w i = 5)
    by (intros i Hi; reflexivity).
  split; [exact H|].
  destruct (one_schedule_per_day bound_namespace w 3 s 5 H) as (C & _).
  exact C.
Defined.

(** C4 (amended).  On a turn where [date.today()] is not [last_day],
    whatever the names of the module are bound to: the loop body empties
    [alerted_games], unsets the flag and sets [last_day] to the date it
    reads next, and goes on from that state with the day-reset message,
    a check cycle and the check cycle of every turn.  So at the end of
    the body [last_day] is that date, a game is in [alerted_games] only
    by a halftime alert delivered in this turn, and the flag is set only
    by a schedule delivered in this turn (the handler and the sleep of
    the turn change no variable).  When the delivery of the
    day-reset message goes through, the two check cycles follow; when it
    does not (the name [DISCORD_WEBHOOK] is unbound, the POST raises or
    is answered with a status from 400 to 599), the body ends there,
    with the three variables reset and without a fetch.  A game alerted
    the day before can be alerted again, as in the run given last. *)
Theorem rollover_turn g w s :
  today w (today_calls s) <> last_day s ->
  let s' := snd (fst (tick_body g w s)) in
  let l := snd (tick_body g w s) in
  snd (fst (tick g w s)) = s' /\
  last_day s' = today w (S (today_calls s)) /\
  (forall k, mem k (alerted_games s') = true ->
     exists url msg code,
       In (Post (Halftime k) url msg (PostStatus code)) l /\ passes code) /\
  (posted_schedule_for_day s' = true ->
     exists url msg code,
       In (Post Schedule url msg (PostStatus code)) l /\ passes code) /\
  tick_body g w s =
    (send_discord g w DayReset reset_message ;;
     check_games g w ;;
     check_games g w)%M (rollover_state w s) /\
  alerted_games (rollover_state w s) = [] /\
  posted_schedule_for_day (rollover_state w s) = false /\
  last_day (rollover_state w s) = today w (S (today_calls s)) /\
  (DISCORD_WEBHOOK g = None ->
   tick_body g w s =
   (Raise (NameError "DISCORD_WEBHOOK"), rollover_state w s, [])) /\
  (forall url,
     DISCORD_WEBHOOK g = Some url ->
     let a := post_answers w (post_calls s) in
     let s1 := tick_post (rollover_state w s) in
     (delivered a = true ->
      tick_body g w s =
      (fst (fst (two_checks g w s1)), snd (fst (two_checks g w s1)),
       Post DayReset url reset_message a :: snd (two_checks g w s1))) /\
     (delivered a = false ->
      tick_body g w s =
      (Raise (refusal a), s1, [Post DayReset url reset_message a]))) /\
  (raised (fst (fst (send_discord g w DayReset reset_message
                       (rollover_state w s)))) ->
   alerted_games s' = [] /\
   posted_schedule_for_day s' = false /\
   count is_get l = 0%nat) /\
  (exists g' w' s' k,
     mem k (alerted_games s') = true /\
     today w' (today_calls s') <> last_day s' /\
     count (halftime_sent k) (snd (tick g' w' s')) = 1%nat).
Proof.
  intros H s' l.
  destruct (tick_body_new_day g w s H) as [W [Ra Rp]].
  fold s' in W, Ra, Rp. fold l in W, Ra, Rp.
  split.
  { unfold s'. rewrite tick_run.
    destruct (tick_body g w s) as [[[u|e] s1] l1]; reflexivity. }
  split; [exact (wd_day _ _ _ W)|].
  split; [intros k; apply Ra; reflexivity|].
  split; [apply Rp; reflexivity|].
  split; [apply (tick_body_rollover g w s H)|].
  split; [reflexivity|]. split; [reflexivity|]. split; [reflexivity|].
  split; [|split; [|split]].
  - intros Hu. rewrite (tick_body_rollover g w s H).
    rewrite bind_run, send_discord_run, Hu. reflexivity.
  - intros url Hu a s1. split; intros Ed.
    + rewrite (tick_body_rollover g w s H).
      rewrite bind_run, send_discord_run, Hu. simpl. fold a. rewrite Ed.
      reflexivity.
    + rewrite (tick_body_rollover g w s H).
      rewrite bind_run, send_discord_run, Hu. simpl. fold a. rewrite Ed.
      reflexivity.
  - unfold s', l. rewrite (tick_body_rollover g w s H).
    rewrite bind_run, send_discord_run.
    destruct (DISCORD_WEBHOOK g) as [url|]; simpl.
    + destruct (delivered (post_answers w (post_calls s))); simpl;
        [intros []|].
      intros _. split; [reflexivity|]. split; reflexivity.
    + intros _. split; [reflexivity|]. split; reflexivity.
  - exists bound_namespace, (calm_world 5 (scoreboard [game_at_half])),
      (state_on 4 [KStr "401"] true), (KStr "401").
    split; [reflexivity|]. split; [discriminate|]. vm_compute. reflexivity.
Qed.

Lemma rollover_turn_witness :
  let g := module_namespace None in
  let w := calm_world 5 (scoreboard [game_at_half]) in
  let s := state_on 4 [KStr "401"] true in
  today w (today_calls s) <> last_day s /\
  last_day (snd (fst (tick_body g w s))) = 5 /\
  alerted_games (snd (fst (tick_body g w s))) = [] /\
  posted_schedule_for_day (snd (fst (tick_body g w s))) = false /\
  snd (tick_body g w s) = [].
Proof.
  intros g w s.
  assert (H : today w (today_calls s) <> last_day s) by discriminate.
  destruct (rollover_turn g w s H) as (_ & L & _ & _ & _ & _ & _ & _ & N & _).
  split; [exact H|]. split; [exact L|].
  rewrite (N eq_refl). split; [reflexivity|]. split; reflexivity.
Defined.

(** C4 as it is worded fails: the date has changed, the day-reset POST is
    answered with status 500, and the turn ends without a fetch, that is
    without a check cycle. *)
Lemma rollover_without_check_cycle :
  let w := answering 500 5 (scoreboard [game_at_half]) in
  let s := state_on 4 [KStr "401"] true in
  today w (today_calls s) <> last_day s /\
  snd (tick bound_namespace w s) =
    [Post DayReset (PStr "https://discord.com/api/webhooks/1/abc")
          reset_message (PostStatus 500);
     Printed (HTTPError 500); Sleep 60] /\
  count is_get (snd (tick bound_namespace w s)) = 0%nat.
Proof.
  intros w s. split; [discriminate|]. split; reflexivity.
Qed.

(** C5 (amended).  In a check cycle, a game enters [alerted_games] only
    with a halftime POST for that game that was answered with a status
    outside 400-599, and the flag is set only with such a schedule POST.
    Step by step: [halftime_step] either leaves the module variables as
    they were, or its one effect is such a POST and it returns with the
    game added; [post_schedule_once] either leaves them as they were, or
    its one effect is such a POST and it returns with the flag set.  A
    step that raises (the delivery or anything before it) leaves the
    module variables as they were, and [send_discord] itself writes
    none. *)
Theorem state_follows_delivery g w s :
  recorded s (snd (fst (check_games g w s))) (snd (check_games g w s)) /\
  (forall event t,
     same_variables t (snd (fst (halftime_step g w event t))) \/
     exists k url msg code,
       passes code /\
       halftime_step g w event t =
       (Ok tt, set_alerted_games (add k (alerted_games t)) (tick_post t),
        [Post (Halftime k) url msg (PostStatus code)])) /\
  (forall events t,
     same_variables t (snd (fst (post_schedule_once g w events t))) \/
     exists url msg code,
       passes code /\
       fst (fst (post_schedule_once g w events t)) = Ok tt /\
       snd (post_schedule_once g w events t) =
         [Post Schedule url msg (PostStatus code)] /\
       posted_schedule_for_day (snd (fst (post_schedule_once g w events t)))
         = true) /\
  (forall event t,
     raised (fst (fst (halftime_step g w event t))) ->
     same_variables t (snd (fst (halftime_step g w event t)))) /\
  (forall events t,
     raised (fst (fst (post_schedule_once g w events t))) ->
     same_variables t (snd (fst (post_schedule_once g w events t)))) /\
  (forall from msg t,
     same_variables t (snd (fst (send_discord g w from msg t)))).
Proof.
  split; [apply check_games_recorded|].
  split; [|split; [|split; [|split]]].
  - intros event t.
    destruct (halftime_step_cases g w event t)
      as [[V _]|(k & u & m & c & _ & E & Hc)].
    + left. exact V.
    + right. exists k, u, m, c. split; assumption.
  - intros events t.
    destruct (post_schedule_once_cases g w events t)
      as [[V _]|(u & m & c & _ & E & L & Hc & F & _)].
    + left. exact V.
    + right. exists u, m, c. repeat split; assumption.
  - intros event t R.
    destruct (halftime_step_cases g w event t)
      as [[V _]|(k & u & m & c & _ & E & _)].
    + exact V.
    + rewrite E in R. destruct R.
  - intros events t R.
    destruct (post_schedule_once_cases g w events t)
      as [[V _]|(u & m & c & _ & E & _)].
    + exact V.
    + rewrite E in R. destruct R.
  - intros. apply send_discord_same_variables.
Qed.

Lemma state_follows_delivery_witness :
  let w := answering 500 5 (scoreboard [game_at_half]) in
  let s := state_on 5 [] false in
  raised (fst (fst (halftime_step bound_namespace w game_at_half s))) /\
  same_variables s (snd (fst (halftime_step bound_namespace w game_at_half s))).
Proof.
  intros w s.
  assert (R : raised (fst (fst (halftime_step bound_namespace w game_at_half s))))
    by exact I.
  split; [exact R|].
  destruct (state_follows_delivery bound_namespace w s)
    as (_ & _ & _ & H & _).
  apply (H game_at_half s R).
Defined.

(** C5 as it is worded fails: both POSTs of this check cycle are answered
    with status 304, which is not a 2xx status, and the game is recorded
    as alerted and the schedule as posted. *)
Lemma recorded_on_status_304 :
  let run := check_games bound_namespace
               (answering 304 5 (scoreboard [game_at_half]))
               (state_on 5 [] false) in
  posts (snd run) =
    [(Schedule, PostStatus 304); (Halftime (KStr "401"), PostStatus 304)] /\
  ~ (200 <= 304 < 300) /\
  mem (KStr "401") (alerted_games (snd (fst run))) = true /\
  posted_schedule_for_day (snd (fst run)) = true.
Proof.
  vm_compute. repeat split; try reflexivity. intros [_ H]. discriminate H.
Qed.

(** C6 (amended).  For a start instant less than 2^52 microseconds (some
    142 years) from now, [format_time_until] reads the clock once and
    returns a text fixed by the whole seconds from now to the start, the
    fraction of a second being dropped: [seconds] is the quotient of the
    microseconds by 10^6, towards zero.  When the start is at or before
    now, or less than one second after it, the text is "started".  From
    one second on, the minutes are the whole seconds over 60 rounded up,
    and the text gives hours and minutes, without the hours when they are
    zero and without the minutes when they are zero: 125 seconds and any
    fraction give "in 3m", one second and any fraction "in 1m", two hours
    "in 2h". *)
Theorem time_until_start w start s :
  let now := now w (now_calls s) in
  let seconds := whole_seconds start now in
  let minutes := (seconds + 59) / 60 in
  in_range (start - now) ->
  format_time_until w start s = (Ok (time_until start now), tick_now s, []) /\
  seconds = Z.quot (start - now) 1000000 /\
  (now <= start ->
   1000000 * seconds <= start - now < 1000000 * (seconds + 1)) /\
  (start <= now -> time_until start now = "started") /\
  (start < now + 1000000 -> time_until start now = "started") /\
  (now + 1000000 <= start -> 0 < seconds) /\
  (seconds <= 0 -> time_until start now = "started") /\
  (0 < seconds ->
   60 * (minutes - 1) < seconds <= 60 * minutes /\
   0 <= minutes mod 60 < 60 /\
   time_until start now =
     if minutes / 60 =? 0 then "in " ++ str_int (minutes mod 60) ++ "m"
     else if minutes mod 60 =? 0 then "in " ++ str_int (minutes / 60) ++ "h"
     else "in " ++ str_int (minutes / 60) ++ "h "
          ++ str_int (minutes mod 60) ++ "m") /\
  (125000000 <= start - now < 126000000 -> time_until start now = "in 3m") /\
  (1000000 <= start - now < 2000000 -> time_until start now = "in 1m") /\
  (7200000000 <= start - now < 7201000000 -> time_until start now = "in 2h").
Proof.
  intros now0 seconds minutes R.
  assert (Q : seconds = Z.quot (start - now0) 1000000)
    by apply (whole_seconds_quot start now0 R).
  assert (Started : seconds <= 0 -> time_until start now0 = "started").
  { intros H. unfold time_until, time_until_text. fold seconds.
    apply Z.leb_le in H. now rewrite H. }
  assert (Later : now0 <= start ->
            1000000 * seconds <= start - now0 < 1000000 * (seconds + 1)).
  { intros H. rewrite Q, Z.quot_div_nonneg by lia.
    pose proof (Z.div_mod (start - now0) 1000000 ltac:(lia)).
    pose proof (Z.mod_pos_bound (start - now0) 1000000 ltac:(lia)). lia. }
  assert (Earlier : start <= now0 -> seconds <= 0).
  { intros H. rewrite Q.
    replace (start - now0) with (- (now0 - start)) by lia.
    rewrite Z.quot_opp_l by lia.
    pose proof (Z.quot_pos (now0 - start) 1000000). lia. }
  assert (Sample : forall n, 1000000 * n <= start - now0 < 1000000 * (n + 1) ->
            0 <= n -> time_until start now0 = time_until_text n).
  { intros n Hn H0. unfold time_until. fold seconds. f_equal.
    specialize (Later ltac:(lia)). lia. }
  split; [reflexivity|]. split; [exact Q|]. split; [exact Later|].
  split; [intros H; apply Started, Earlier, H|].
  split.
  { intros H. apply Started.
    destruct (Z.le_gt_cases now0 start) as [L|L].
    - specialize (Later L). lia.
    - apply Earlier. lia. }
  split; [intros H; specialize (Later ltac:(lia)); lia|].
  split; [exact Started|].
  split; [|split; [|split]].
  - intros H. split; [|split].
    + subst minutes.
      pose proof (Z.div_mod (seconds + 59) 60).
      pose proof (Z.mod_pos_bound (seconds + 59) 60). lia.
    + apply Z.mod_pos_bound. lia.
    + unfold time_until, time_until_text. fold seconds.
      apply Z.leb_gt in H. rewrite H. reflexivity.
  - intros H. rewrite (Sample 125) by lia. reflexivity.
  - intros H. rewrite (Sample 1) by lia. reflexivity.
  - intros H. rewrite (Sample 7200) by lia. reflexivity.
Qed.

Lemma time_until_start_witness :
  let w := calm_world 5 (scoreboard []) in
  let s := state_on 5 [] false in
  let start := 60500000 in
  in_range (start - now w (now_calls s)) /\
  whole_seconds start (now w (now_calls s)) = 60 /\
  format_time_until w start s = (Ok "in 1m", tick_now s, []).
Proof.
  intros w s start.
  assert (R : in_range (start - now w (now_calls s))) by reflexivity.
  destruct (time_until_start w start s R) as (F & Q & _ & _ & _ & _ & _ & T & _).
  split; [exact R|]. split; [rewrite Q; reflexivity|].
  rewrite F. rewrite Q in T.
  destruct (T eq_refl) as (_ & _ & ->). reflexivity.
Defined.

(** C6 as it is worded fails: the game starts half a second after now,
    and the text is "started", not "in 1m". *)
Lemma started_before_the_start :
  let start := 500000 in
  let now := 0 in
  now < start /\
  time_until start now = "started" /\
  time_until start now <> "in 1m".
Proof.
  intros start now0. split; [reflexivity|]. split; [reflexivity|discriminate].
Qed.

(** C7.  For a game record whose ["status"]["type"] is an object,
    [is_halftime] returns, and returns [True] exactly when the name of
    that object is "STATUS_HALFTIME" or its detail is "Halftime". *)
Theorem is_halftime_iff event status fields :
  subscript event "status" = Ok status ->
  subscript status "type" = Ok (PDict fields) ->
  exists b,
    is_halftime event = Ok b /\
    (b = true <->
     dict_lookup fields "name" = Some (PStr "STATUS_HALFTIME") \/
     dict_lookup fields "detail" = Some (PStr "Halftime")).
Proof.
  intros Hs Ht. unfold is_halftime. rewrite Hs. simpl. rewrite Ht. simpl.
  destruct (dict_lookup fields "name") as [name|] eqn:En; simpl.
  - destruct (eq_str name "STATUS_HALFTIME") eqn:E1.
    + exists true. split; [reflexivity|]. apply eq_str_true in E1. subst.
      split; auto.
    + destruct (dict_lookup fields "detail") as [detail|] eqn:Ed; simpl.
      * exists (eq_str detail "Halftime"). split; [reflexivity|].
        rewrite eq_str_true. split.
        -- intros ->. now right.
        -- intros [H|H]; [|congruence].
           inversion H. subst. simpl in E1. discriminate.
      * exists false. split; [reflexivity|]. split; [discriminate|].
        intros [H|H]; [|discriminate].
        inversion H. subst. simpl in E1. discriminate.
  - destruct (dict_lookup fields "detail") as [detail|] eqn:Ed; simpl.
    + exists (eq_str detail "Halftime"). split; [reflexivity|].
      rewrite eq_str_true. split.
      * intros ->. now right.
      * intros [H|H]; [discriminate|congruence].
    + exists false. split; [reflexivity|]. split; [discriminate|].
      intros [H|H]; discriminate.
Qed.

Lemma is_halftime_iff_witness :
  exists b,
    is_halftime
      (PDict [("id", PStr "7");
              ("status", PDict [("type", PDict [("detail", PStr "Halftime")])])])
    = Ok b /\
    (b = true <->
     dict_lookup [("detail", PStr "Halftime")] "name"
       = Some (PStr "STATUS_HALFTIME") \/
     dict_lookup [("detail", PStr "Halftime")] "detail"
       = Some (PStr "Halftime")).
Proof.
  apply (is_halftime_iff _
           (PDict [("type", PDict [("detail", PStr "Halftime")])])
           [("detail", PStr "Halftime")]); reflexivity.
Defined.

(** C8, the code at the failing input.  Whatever the environment variable
    holds, [main] ends on [NameError] where it reads [DISCORD_WEBHOOK],
    before any effect: line 8 stored the value under the name [WEBHOOK]. *)
Theorem main_as_written env w n s :
  main (module_namespace env) w n s =
  (Raise (NameError "DISCORD_WEBHOOK"), s, []).
Proof. reflexivity. Qed.

(** C9 (amended).  With [PING_USER_ID] bound, every startup announcement
    is "✅ Halftime bot started. <@PING_USER_ID>" and every halftime alert
    is "<@PING_USER_ID>", a line break, "🏀 **HALFTIME**", a line break and
    the live line of a record of the game, with nothing else; this holds
    of what [main] posts, startup and loop, and of what the loop posts
    from any state. *)
Theorem messages_mention_the_user g w ping n s :
  PING_USER_ID g = Some ping ->
  Forall (worded w ping) (snd (main g w n s)) /\
  Forall (worded w ping) (snd (poll_loop g w n s)).
Proof.
  intros H.
  assert (Hs : forall url p a, DISCORD_WEBHOOK g = Some url ->
             PING_USER_ID g = Some p ->
             worded w ping (Post Startup url (start_text w p) a)).
  { intros url p a _ Hp. simpl. congruence. }
  assert (Ha : forall url p k line event a, DISCORD_WEBHOOK g = Some url ->
             PING_USER_ID g = Some p -> live_line_of w k line event ->
             worded w ping (Post (Halftime k) url (alert_text w p line) a)).
  { intros url p k line event a _ Hp Hl. simpl. exists event, line.
    split; [exact Hl|congruence]. }
  split.
  - apply (main_every g w (worded w ping)); simpl; auto.
  - apply (poll_loop_every g w (worded w ping)); simpl; auto.
Qed.

Lemma messages_mention_the_user_witness :
  let w := calm_world 5 (scoreboard [game_at_half]) in
  PING_USER_ID bound_namespace = Some (PStr "428747562686611457") /\
  Forall (worded w (PStr "428747562686611457"))
    (snd (main bound_namespace w 1 (initial_state w))).
Proof.
  intros w. split; [reflexivity|].
  apply (messages_mention_the_user bound_namespace w
           (PStr "428747562686611457") 1 (initial_state w)).
  reflexivity.
Defined.

(** C9 as it is worded fails: with the user of line 14 as [PING_USER_ID],
    the announcement ends with a mention of that user and the alert
    starts with it; and in the namespace of the file as it is, [main]
    posts nothing. *)
Lemma messages_carry_a_mention :
  let w := calm_world 5 (scoreboard [game_at_half]) in
  messages (snd (main bound_namespace w 0 (initial_state w))) =
    [(Startup, "✅ Halftime bot started. <@428747562686611457>");
     (Schedule, schedule_header
                ++ "7:30 PM (in 2h) — Boston Celtics @ Miami Heat");
     (Halftime (KStr "401"),
      "<@428747562686611457>" ++ nl ++ "🏀 **HALFTIME**" ++ nl
      ++ "Boston Celtics 55 – Miami Heat 48 (Halftime)")] /\
  "✅ Halftime bot started. <@428747562686611457>" <> "✅ Halftime bot started." /\
  String.prefix "🏀 **HALFTIME**"
    ("<@428747562686611457>" ++ nl ++ "🏀 **HALFTIME**" ++ nl
     ++ "Boston Celtics 55 – Miami Heat 48 (Halftime)") = false /\
  messages (snd (main (module_namespace
                         (Some "https://discord.com/api/webhooks/1/abc"))
                      w 0 (initial_state w))) = [].
Proof.
  intros w. split; [reflexivity|]. split; [discriminate|].
  split; reflexivity.
Qed.

(** C10.  An exception raised by the startup (the validation, the
    announcement or the first check cycle) ends [main], whereas no turn of
    the loop ends it.  There are inputs for which this is a transient
    failure: with a fetch that finds no connection, [main] ends on that
    exception after the announcement, and a turn of the loop that meets
    the same answer prints it, sleeps and goes on. *)
Theorem startup_is_not_protected g w s :
  (forall e s1 l1 n,
     startup g w s = (Raise e, s1, l1) -> main g w n s = (Raise e, s1, l1)) /\
  (forall n t, fst (fst (poll_loop g w n t)) = Ok tt) /\
  (exists g' w' e url,
     (forall n,
        fst (fst (main g' w' n (initial_state w'))) = Raise e /\
        messages (snd (main g' w' n (initial_state w')))
          = [(Startup, start_text w' (PStr "428747562686611457"))]) /\
     get_answers w' 0 = GetRaises e /\
     snd (tick g' w' (initial_state w')) =
       [Get url (GetRaises e); Printed e; Sleep POLL_SECONDS] /\
     (forall n, fst (fst (poll_loop g' w' n (initial_state w'))) = Ok tt)).
Proof.
  assert (A : forall g0 w0 s0 e s1 l1 n,
            startup g0 w0 s0 = (Raise e, s1, l1) ->
            main g0 w0 n s0 = (Raise e, s1, l1)).
  { intros g0 w0 s0 e s1 l1 n E. rewrite main_startup.
    now apply bind_raises. }
  split; [apply A|]. split; [intros; apply poll_loop_returns|].
  exists bound_namespace, (flaky_world 5 (scoreboard [game_at_half])),
    (RequestException 0), (ESPN_URL ++ "?dates=20240114").
  split; [|split; [reflexivity|split; [reflexivity|]]].
  - intros n.
    rewrite (A bound_namespace (flaky_world 5 (scoreboard [game_at_half]))
               (initial_state (flaky_world 5 (scoreboard [game_at_half])))
               (RequestException 0) _ _ n eq_refl).
    split; reflexivity.
  - intros; apply poll_loop_returns.
Qed.

Lemma startup_is_not_protected_witness :
  let w := flaky_world 5 (scoreboard [game_at_half]) in
  fst (fst (startup bound_namespace w (initial_state w)))
    = Raise (RequestException 0) /\
  fst (fst (main bound_namespace w 3 (initial_state w)))
    = Raise (RequestException 0).
Proof.
  intros w. split; [reflexivity|].
  destruct (startup_is_not_protected bound_namespace w (initial_state w))
    as (H & _).
  erewrite H; reflexivity.
Defined.

(** ** Further properties of the functions *)






(** X2.  [parse_event_datetime_local] returns [None] exactly for a record
    (a dict) whose date is absent or falsy; the parser is then not
    consulted, whatever the world. *)
Theorem no_date_iff w event :
  parse_event_datetime_local w event = Ok None <->
  exists iso, py_get event "date" PNone = Ok iso /\ truthy iso = false.
Proof.
  unfold parse_event_datetime_local. split.
  - destruct (py_get event "date" PNone) as [iso|e]; simpl; [|discriminate].
    destruct (truthy iso) eqn:T; simpl.
    + destruct iso; try discriminate.
      destruct (fromisoformat w _); discriminate.
    + intros _. exists iso. auto.
  - intros (iso & -> & T). simpl. now rewrite T.
Qed.

(** X3.  [is_halftime] returns a value exactly for a record whose
    ["status"]["type"] is an object; otherwise it raises [KeyError] for
    the missing key, [TypeError] for a record or a status that is not an
    object, or [AttributeError] for a type that is not one. *)
Theorem is_halftime_returns_iff event :
  ((exists b, is_halftime event = Ok b) <->
   (exists status fields,
      subscript event "status" = Ok status /\
      subscript status "type" = Ok (PDict fields))) /\
  (forall e, is_halftime event = Raise e ->
     e = KeyError (PStr "status") \/ e = KeyError (PStr "type") \/
     e = TypeError \/ e = AttributeError "get").
Proof.
  unfold is_halftime. split; [split|].
  - intros [b H].
    destruct (subscript event "status") as [status|e] eqn:Es; [|discriminate].
    simpl in H.
    destruct (subscript status "type") as [st|e] eqn:Et; [|discriminate].
    simpl in H. destruct st; try discriminate.
    eexists _, _. split; [reflexivity|exact Et].
  - intros (status & fields & -> & Et). simpl. rewrite Et. simpl.
    destruct (dict_lookup fields "name") as [name|]; simpl.
    + destruct (eq_str name "STATUS_HALFTIME"); [eexists; reflexivity|].
      destruct (dict_lookup fields "detail"); simpl; eexists; reflexivity.
    + destruct (dict_lookup fields "detail"); simpl; eexists; reflexivity.
  - intros e H.
    destruct event as [| | | | |kv]; simpl in H;
      try (inversion H; auto; fail).
    destruct (dict_lookup kv "status") as [status|]; simpl in H;
      [|inversion H; auto].
    destruct status as [| | | | |kv']; simpl in H;
      try (inversion H; auto; fail).
    destruct (dict_lookup kv' "type") as [st|]; simpl in H;
      [|inversion H; auto].
    destruct st as [| | | | |f]; simpl in H; try (inversion H; auto; fail).
    destruct (dict_lookup f "name") as [name|]; simpl in H.
    + destruct (eq_str name "STATUS_HALFTIME"); [discriminate|].
      destruct (dict_lookup f "detail"); simpl in H; discriminate.
    + destruct (dict_lookup f "detail"); simpl in H; discriminate.
Qed.

Lemma is_halftime_returns_iff_witness :
  is_halftime (PDict [("status", PList [])]) = Raise TypeError /\
  (TypeError = KeyError (PStr "status") \/ TypeError = KeyError (PStr "type") \/
   TypeError = TypeError \/ TypeError = AttributeError "get").
Proof.
  split; [reflexivity|].
  destruct (is_halftime_returns_iff (PDict [("status", PList [])])) as [_ H].
  apply (H TypeError). reflexivity.
Defined.

Lemma next_tagged_found role ts t :
  next_tagged role ts = Ok t ->
  subscript t "homeAway" = Ok (PStr role) /\
  exists before after,
    ts = (before ++ t :: after)%list /\ Forall (passed_over role) before.
Proof.
  induction ts as [|x rest IH]; simpl; [discriminate|].
  destruct (subscript x "homeAway") as [tag|e] eqn:Ex; [|discriminate].
  destruct (eq_str tag role) eqn:Et.
  - intros H. inversion H; subst. apply eq_str_true in Et. subst tag.
    split; [exact Ex|]. exists [], rest. split; [reflexivity|constructor].
  - intros H. destruct (IH H) as (Ht & before & after & -> & Hb).
    split; [exact Ht|]. exists (x :: before), after.
    split; [reflexivity|]. constructor; [|exact Hb]. exists tag. auto.
Qed.

Lemma next_tagged_none role ts :
  next_tagged role ts = Raise StopIteration <-> Forall (passed_over role) ts.
Proof.
  induction ts as [|x rest IH]; simpl.
  - split; [constructor|reflexivity].
  - split.
    + destruct (subscript x "homeAway") as [tag|e] eqn:Ex.
      * destruct (eq_str tag role) eqn:Et; [discriminate|].
        intros H. constructor; [exists tag; auto|now apply IH].
      * destruct x as [| | | | |kv]; simpl in Ex; try (inversion Ex; discriminate).
        destruct (dict_lookup kv "homeAway"); inversion Ex. discriminate.
    + intros H. inversion H as [|y l (tag & Ex & Et) Hr]; subst.
      rewrite Ex, Et. now apply IH.
Qed.

(** X4.  When [get_home_away] returns [(away, home)], both are competitors
    of the first competition of the record: [home] is the first one
    tagged "home", [away] the first one tagged "away", every competitor
    before them carrying another tag; the two are different, in whatever
    order the provider lists them. *)
Theorem home_and_away_found event away home :
  get_home_away event = Ok (away, home) ->
  exists comps comp competitors ts,
    subscript event "competitions" = Ok comps /\
    subscript0 comps = Ok comp /\
    subscript comp "competitors" = Ok competitors /\
    py_iter competitors = Ok ts /\
    subscript home "homeAway" = Ok (PStr "home") /\
    subscript away "homeAway" = Ok (PStr "away") /\
    (exists before after,
       ts = (before ++ home :: after)%list /\
       Forall (passed_over "home") before) /\
    (exists before after,
       ts = (before ++ away :: after)%list /\
       Forall (passed_over "away") before) /\
    away <> home.
Proof.
  unfold get_home_away. intros H.
  destruct (subscript event "competitions") as [comps|e] eqn:E1; [|discriminate].
  simpl in H. destruct (subscript0 comps) as [comp|e] eqn:E2; [|discriminate].
  simpl in H.
  destruct (subscript comp "competitors") as [competitors|e] eqn:E3;
    [|discriminate].
  simpl in H. destruct (py_iter competitors) as [ts|e] eqn:E4; [|discriminate].
  simpl in H.
  destruct (next_tagged "home" ts) as [h|e] eqn:Eh; [|discriminate].
  simpl in H.
  destruct (next_tagged "away" ts) as [a|e] eqn:Ea; [|discriminate].
  simpl in H. inversion H; subst a h.
  destruct (next_tagged_found _ _ _ Eh) as (Th & Bh).
  destruct (next_tagged_found _ _ _ Ea) as (Ta & Ba).
  exists comps, comp, competitors, ts.
  repeat (split; [first [reflexivity|assumption]|]).
  intros ->. rewrite Th in Ta. discriminate.
Qed.

Lemma home_and_away_found_witness :
  get_home_away game_at_half =
    Ok (competitor "away" "Boston Celtics" "55",
        competitor "home" "Miami Heat" "48") /\
  competitor "away" "Boston Celtics" "55" <> competitor "home" "Miami Heat" "48".
Proof.
  assert (H : get_home_away game_at_half =
              Ok (competitor "away" "Boston Celtics" "55",
                  competitor "home" "Miami Heat" "48")) by reflexivity.
  split; [exact H|].
  destruct (home_and_away_found _ _ _ H)
    as (c1 & c2 & c3 & c4 & _ & _ & _ & _ & _ & _ & _ & _ & D).
  exact D.
Defined.

(** X5.  When every competitor of the first competition carries a tag and
    none is tagged "home", or one is tagged "home" and none "away",
    [get_home_away] raises [StopIteration]. *)
Theorem missing_side_stops event comps comp competitors ts :
  subscript event "competitions" = Ok comps ->
  subscript0 comps = Ok comp ->
  subscript comp "competitors" = Ok competitors ->
  py_iter competitors = Ok ts ->
  Forall (passed_over "home") ts \/
  ((exists h, next_tagged "home" ts = Ok h) /\ Forall (passed_over "away") ts) ->
  get_home_away event = Raise StopIteration.
Proof.
  intros H1 H2 H3 H4 H. unfold get_home_away.
  rewrite H1. simpl. rewrite H2. simpl. rewrite H3. simpl. rewrite H4. simpl.
  destruct H as [Hh|[[h Hh] Ha]].
  - apply next_tagged_none in Hh. now rewrite Hh.
  - rewrite Hh. simpl. apply next_tagged_none in Ha. now rewrite Ha.
Qed.

Lemma missing_side_stops_witness :
  let ts := [competitor "home" "Miami Heat" "48"] in
  let comp := PDict [("competitors", PList ts)] in
  let event := PDict [("competitions", PList [comp])] in
  Forall (passed_over "away") ts /\
  get_home_away event = Raise StopIteration.
Proof.
  intros ts comp event.
  assert (F : Forall (passed_over "away") ts).
  { constructor; [|constructor]. exists (PStr "home"). split; reflexivity. }
  split; [exact F|].
  apply (missing_side_stops event (PList [comp]) comp (PList ts) ts);
    try reflexivity.
  right. split; [|exact F]. eexists. reflexivity.
Defined.

(** X6.  For a record with both sides found, an object as status type and
    a display name for each team, [format_live_line] returns the line
    "<away> <score> – <home> <score> (<detail>)", a missing score being
    "0" and a missing detail "Unknown": neither makes the line fail. *)
Theorem live_line_defaults w event away home status fields
    away_team away_name home_team home_name :
  get_home_away event = Ok (away, home) ->
  subscript event "status" = Ok status ->
  subscript status "type" = Ok (PDict fields) ->
  subscript away "team" = Ok away_team ->
  subscript away_team "displayName" = Ok away_name ->
  subscript home "team" = Ok home_team ->
  subscript home_team "displayName" = Ok home_name ->
  format_live_line w event =
  Ok (py_str w away_name ++ " " ++ text_or w "0" away "score" ++ " – "
      ++ py_str w home_name ++ " " ++ text_or w "0" home "score"
      ++ " (" ++ text_or w "Unknown" (PDict fields) "detail" ++ ")").
Proof.
  intros Hg Hs Ht Ha Han Hh Hhn. unfold format_live_line.
  rewrite Hg. simpl. rewrite Hs. simpl. rewrite Ht. simpl.
  destruct away as [| | | | |akv]; try discriminate.
  destruct home as [| | | | |hkv]; try discriminate.
  unfold text_or. simpl in Ha, Hh.
  destruct (dict_lookup fields "detail"); simpl;
    destruct (dict_lookup akv "score"); simpl;
    destruct (dict_lookup hkv "score"); simpl;
    rewrite Ha; simpl; rewrite Han; simpl;
    rewrite Hh; simpl; rewrite Hhn; reflexivity.
Qed.

Lemma live_line_defaults_witness :
  let away := PDict [("homeAway", PStr "away"); ("team", team "Boston Celtics")] in
  let home := PDict [("homeAway", PStr "home"); ("team", team "Miami Heat")] in
  let event :=
    PDict [("status", PDict [("type", PDict [])]);
           ("competitions", PList [PDict [("competitors", PList [home; away])]])] in
  get_home_away event = Ok (away, home) /\
  format_live_line (calm_world 5 (scoreboard [])) event =
    Ok "Boston Celtics 0 – Miami Heat 0 (Unknown)".
Proof.
  intros away home event.
  assert (H : get_home_away event = Ok (away, home)) by reflexivity.
  split; [exact H|].
  apply (live_line_defaults (calm_world 5 (scoreboard [])) event away home
           (PDict [("type", PDict [])]) [] (team "Boston Celtics")
           (PStr "Boston Celtics") (team "Miami Heat") (PStr "Miami Heat") H);
    reflexivity.
Defined.

(** X7.  While whole seconds are left, the text is never "started" and
    the minutes are at least one: under an hour the text is "in <n>m"
    with n from 1 to 59; from an hour on, the hours are at least one, and
    the minutes, when shown, are from 1 to 59.  Up to 60 seconds give
    "in 1m", and more than 59 minutes up to an hour give "in 1h". *)
Theorem time_text_shapes seconds :
  0 < seconds ->
  let minutes := (seconds + 59) / 60 in
  1 <= minutes /\
  time_until_text seconds <> "started" /\
  (minutes < 60 -> time_until_text seconds = "in " ++ str_int minutes ++ "m") /\
  (60 <= minutes ->
   1 <= minutes / 60 /\
   (minutes mod 60 = 0 ->
    time_until_text seconds = "in " ++ str_int (minutes / 60) ++ "h") /\
   (minutes mod 60 <> 0 ->
    1 <= minutes mod 60 <= 59 /\
    time_until_text seconds =
      "in " ++ str_int (minutes / 60) ++ "h " ++ str_int (minutes mod 60) ++ "m")) /\
  (seconds <= 60 -> time_until_text seconds = "in 1m") /\
  (3540 < seconds <= 3600 -> time_until_text seconds = "in 1h").
Proof.
  intros H minutes.
  assert (Hm : 1 <= minutes).
  { unfold minutes. apply Z.div_le_lower_bound; lia. }
  assert (T : time_until_text seconds =
              if minutes / 60 =? 0 then "in " ++ str_int (minutes mod 60) ++ "m"
              else if minutes mod 60 =? 0 then "in " ++ str_int (minutes / 60) ++ "h"
              else "in " ++ str_int (minutes / 60) ++ "h "
                   ++ str_int (minutes mod 60) ++ "m").
  { unfold time_until_text. apply Z.leb_gt in H. now rewrite H. }
  assert (Small : minutes < 60 ->
                  time_until_text seconds = "in " ++ str_int minutes ++ "m").
  { intros Hlt. rewrite T, (Z.div_small minutes 60), (Z.mod_small minutes 60) by lia.
    reflexivity. }
  assert (Hour : 60 <= minutes -> 1 <= minutes / 60).
  { intros Hge. apply Z.div_le_lower_bound; lia. }
  split; [exact Hm|]. split.
  - rewrite T. destruct (minutes / 60 =? 0); [discriminate|].
    destruct (minutes mod 60 =? 0); discriminate.
  - split; [exact Small|]. split; [|split].
    + intros Hge. pose proof (Hour Hge) as Hh.
      assert (E : (minutes / 60 =? 0) = false) by (apply Z.eqb_neq; lia).
      split; [exact Hh|]. split.
      * intros Hz. rewrite T, E, Hz. reflexivity.
      * intros Hnz. pose proof (Z.mod_pos_bound minutes 60).
        split; [lia|]. rewrite T, E.
        apply Z.eqb_neq in Hnz. now rewrite Hnz.
    + intros Hle.
      assert (E : minutes = 1).
      { unfold minutes. symmetry.
        apply (Z.div_unique (seconds + 59) 60 1 (seconds - 1)); lia. }
      rewrite Small by lia. now rewrite E.
    + intros [Hlo Hhi].
      assert (E : minutes = 60).
      { unfold minutes. symmetry.
        apply (Z.div_unique (seconds + 59) 60 60 (seconds - 3541)); lia. }
      rewrite T, E. reflexivity.
Qed.

Lemma time_text_shapes_witness :
  0 < 3541 /\ time_until_text 3541 = "in 1h".
Proof.
  split; [reflexivity|].
  destruct (time_text_shapes 3541 eq_refl) as (_ & _ & _ & _ & _ & H).
  apply H. split; [reflexivity|discriminate].
Defined.

Lemma insert_by_key_perm x l : Permutation (x :: l) (insert_by_key x l).
Proof.
  induction l as [|y r IH]; simpl; [reflexivity|].
  destruct (key_lt (fst x) (fst y)); [reflexivity|].
  rewrite perm_swap. now constructor.
Qed.

Lemma key_lt_trans_false a b c :
  key_lt b a = false -> key_lt c b = false -> key_lt c a = false.
Proof.
  destruct a as [x|], b as [y|], c as [z|]; simpl; try congruence.
  rewrite !Z.ltb_ge. lia.
Qed.

Lemma key_lt_asym a b : key_lt a b = true -> key_lt b a = false.
Proof.
  destruct a as [x|], b as [y|]; simpl; try congruence.
  rewrite Z.ltb_lt, Z.ltb_ge. lia.
Qed.

Lemma key_lt_between a b c :
  key_lt a b = true -> key_lt c b = false -> key_lt a c = false -> False.
Proof.
  destruct a as [x|], b as [y|], c as [z|]; simpl; try congruence.
  rewrite Z.ltb_lt, !Z.ltb_ge. lia.
Qed.

Lemma insert_by_key_in x y l : In y (insert_by_key x l) -> y = x \/ In y l.
Proof.
  intros H. apply (Permutation_in y (Permutation_sym (insert_by_key_perm x l))) in H.
  destruct H; auto.
Qed.

Lemma insert_by_key_sorted x l :
  StronglySorted not_after l -> StronglySorted not_after (insert_by_key x l).
Proof.
  induction 1 as [|y r Hr IH Hy]; simpl.
  - repeat constructor.
  - destruct (key_lt (fst x) (fst y)) eqn:E.
    + constructor; [constructor; assumption|].
      constructor; [now apply key_lt_asym|].
      rewrite Forall_forall in *. intros z Hz.
      apply (key_lt_trans_false _ (fst y)); [now apply key_lt_asym|now apply Hy].
    + constructor; [exact IH|].
      rewrite Forall_forall in *. intros z Hz.
      destruct (insert_by_key_in _ _ _ Hz) as [->|Hin]; [exact E|now apply Hy].
Qed.

Lemma key_same_lt a b k :
  key_same a k = true -> key_same b k = true -> key_lt a b = false.
Proof.
  destruct a as [x|], b as [y|], k as [z|]; simpl; try congruence.
  rewrite !Z.eqb_eq, Z.ltb_ge. lia.
Qed.

Lemma insert_by_key_filter k x l :
  StronglySorted not_after l ->
  filter (with_key k) (insert_by_key x l) =
  (filter (with_key k) l ++ (if with_key k x then [x] else []))%list.
Proof.
  induction 1 as [|y r Hr IH Hy]; simpl.
  - destruct (with_key k x); reflexivity.
  - destruct (key_lt (fst x) (fst y)) eqn:E; simpl.
    + destruct (with_key k x) eqn:Kx; [|now rewrite app_nil_r].
      assert (N : forall z, In z (y :: r) -> with_key k z = false).
      { intros z Hz. destruct (with_key k z) eqn:Kz; [|reflexivity].
        assert (L : key_lt (fst z) (fst x) = false)
          by (eapply key_same_lt; eassumption).
        assert (M : key_lt (fst x) (fst z) = false)
          by (eapply key_same_lt; eassumption).
        destruct Hz as [<-|Hz]; [congruence|].
        rewrite Forall_forall in Hy. specialize (Hy z Hz). unfold not_after in Hy.
        destruct (key_lt_between _ _ _ E Hy M). }
      rewrite (N y (or_introl eq_refl)).
      assert (F : filter (with_key k) r = []).
      { clear - N. induction r as [|z r IH]; [reflexivity|]. simpl.
        rewrite (N z (or_intror (or_introl eq_refl))).
        apply IH. intros u [<-|Hu]; apply N; simpl; auto. }
      now rewrite F.
    + rewrite IH. destruct (with_key k y); reflexivity.
Qed.

Lemma fold_insert_spec l :
  forall acc,
    StronglySorted not_after acc ->
    let out := fold_left (fun acc x => insert_by_key x acc) l acc in
    StronglySorted not_after out /\
    Permutation (acc ++ l) out /\
    forall k, filter (with_key k) out =
              (filter (with_key k) acc ++ filter (with_key k) l)%list.
Proof.
  induction l as [|x r IH]; intros acc Hs; simpl.
  - rewrite app_nil_r. repeat split; auto. intros k. now rewrite app_nil_r.
  - destruct (IH (insert_by_key x acc) (insert_by_key_sorted x acc Hs))
      as (S & P & F).
    split; [exact S|]. split.
    + rewrite <- P. rewrite <- (insert_by_key_perm x acc).
      apply Permutation_sym, Permutation_middle.
    + intros k. rewrite F, insert_by_key_filter by exact Hs.
      rewrite <- app_assoc. destruct (with_key k x); reflexivity.
Qed.

(** X8.  The order of the schedule.  [sorted_by_key] returns the records
    it was given, each once (a permutation), in the order of their sort
    keys with the records without a key last, and records of the same
    key, the ones without a key among them, keep the order the provider
    gave them.  The key that [sort_key] gives a record with a date is the
    float [timestamp] of its instant.  For instants less than 2^52
    microseconds from the epoch the keys are ordered as the instants are
    and differ when the instants do, so that there the order is the order
    of the start instants; further on, two instants can have one key, as
    the two given last have. *)
Theorem schedule_order w keyed :
  sorted_by_key keyed = map snd (sort_keyed keyed) /\
  Permutation keyed (sort_keyed keyed) /\
  Permutation (map snd keyed) (sorted_by_key keyed) /\
  StronglySorted not_after (sort_keyed keyed) /\
  (forall k, filter (with_key k) (sort_keyed keyed) = filter (with_key k) keyed) /\
  (forall e k e',
     sort_key w e = Ok (k, e') ->
     e' = e /\
     exists dt, parse_event_datetime_local w e = Ok dt /\
                k = option_map timestamp dt) /\
  (forall t1 t2,
     in_range t1 -> in_range t2 ->
     key_lt (Some (timestamp t1)) (Some (timestamp t2)) = (t1 <? t2) /\
     key_same (Some (timestamp t1)) (Some (timestamp t2)) = (t1 =? t2)) /\
  (forall t, key_lt (Some (timestamp t)) None = true /\
             key_lt None (Some (timestamp t)) = false) /\
  (8589934592000001 < 8589934592000002 /\
   timestamp 8589934592000001 = timestamp 8589934592000002).
Proof.
  destruct (fold_insert_spec keyed [] (SSorted_nil _)) as (S & P & F).
  split; [reflexivity|]. split; [exact P|]. split; [|split; [exact S|]].
  { unfold sorted_by_key. apply Permutation_map. exact P. }
  split; [intros k; apply F|].
  split; [|split; [|split]].
  - intros e k e'. unfold sort_key.
    destruct (parse_event_datetime_local w e) as [dt|x]; simpl; [|discriminate].
    intros H. inversion H. split; [reflexivity|]. exists dt. split; reflexivity.
  - intros t1 t2 H1 H2. simpl. split; [now apply timestamp_lt|].
    pose proof (timestamp_lt t1 t2 H1 H2) as L.
    pose proof (timestamp_lt t2 t1 H2 H1) as G.
    destruct (Z.eqb_spec t1 t2) as [->|N]; [apply Z.eqb_refl|].
    apply Z.eqb_neq.
    destruct (Z.lt_total t1 t2) as [T|[T|T]]; [|contradiction|].
    + rewrite (proj2 (Z.ltb_lt t1 t2) T) in L. apply Z.ltb_lt in L. lia.
    + rewrite (proj2 (Z.ltb_lt t2 t1) T) in G. apply Z.ltb_lt in G. lia.
  - intros t. split; reflexivity.
  - split; reflexivity.
Qed.

Lemma schedule_order_witness :
  let t1 := 3600000000 in
  let t2 := 7200000000 in
  in_range t1 /\ in_range t2 /\
  key_lt (Some (timestamp t2)) (Some (timestamp t1)) = false /\
  key_same (Some (timestamp t2)) (Some (timestamp t1)) = false.
Proof.
  intros t1 t2.
  assert (H1 : in_range t1) by reflexivity.
  assert (H2 : in_range t2) by reflexivity.
  destruct (schedule_order (calm_world 5 (scoreboard [])) [])
    as (_ & _ & _ & _ & _ & _ & H & _).
  destruct (H t2 t1 H2 H1) as [L E].
  split; [exact H1|]. split; [exact H2|]. split; [exact L|exact E].
Defined.

Section Further.

Variable g : Namespace.
Variable w : World.

Lemma schedule_lines_length es :
  forall s lines s' l,
    schedule_lines w es s = (Ok lines, s', l) ->
    List.length lines = List.length es.
Proof.
  induction es as [|e rest IH]; intros s lines s' l; simpl.
  - intros H. inversion H. reflexivity.
  - rewrite bind_lift.
    destruct (parse_event_datetime_local w e) as [start|x]; [|discriminate].
    rewrite bind_lift. destruct (get_home_away e) as [ah|x]; [|discriminate].
    rewrite bind_run.
    match goal with |- context [match ?m s with _ => _ end] =>
      destruct (m s) as [[[line|x] s1] l1] end; [|discriminate].
    rewrite bind_run.
    destruct (schedule_lines w rest s1) as [[[lines'|x] s2] l2] eqn:E;
      simpl; [|discriminate].
    intros H. inversion H. simpl. f_equal. eapply IH. exact E.
Qed.

Lemma sorted_by_key_length keyed :
  List.length (sorted_by_key keyed) = List.length keyed.
Proof.
  destruct (fold_insert_spec keyed [] (SSorted_nil _)) as (_ & P & _).
  unfold sorted_by_key. rewrite length_map.
  symmetry. apply (Permutation_length P).
Qed.

Lemma map_res_length {A B} (f : A -> res B) l :
  forall out, map_res f l = Ok out -> List.length out = List.length l.
Proof.
  induction l as [|x r IH]; simpl; intros out.
  - intros H. inversion H. reflexivity.
  - destruct (f x); [|discriminate]. simpl.
    destruct (map_res f r) as [ys|]; [|discriminate]. simpl.
    intros H. inversion H. simpl. f_equal. now apply IH.
Qed.

Lemma schedule_chunk_effects msg s url m a :
  In (Post Schedule url m a)
     (snd (bind (send_discord g w Schedule msg)
                (fun _ => modify (set_posted_schedule_for_day true)) s)) ->
  DISCORD_WEBHOOK g = Some url /\ m = msg.
Proof.
  rewrite bind_run, send_discord_run.
  destruct (DISCORD_WEBHOOK g) as [u|]; simpl; [|intros []].
  destruct (delivered (post_answers w (post_calls s))); simpl;
    intros [H|[]]; inversion H; auto.
Qed.

(** X9.  The schedule message: whenever [post_schedule_once] posts, the
    flag was unset and the message is the header followed by the single
    line "No NBA games found for today." when the list of games is
    empty (or falsy), and otherwise by as many lines as there are
    games. *)
Theorem schedule_message events s url msg a :
  In (Post Schedule url msg a) (snd (post_schedule_once g w events s)) ->
  posted_schedule_for_day s = false /\
  DISCORD_WEBHOOK g = Some url /\
  exists lines,
    msg = schedule_header ++ join_lines lines /\
    ((truthy events = false /\ lines = ["No NBA games found for today."]) \/
     (truthy events = true /\
      exists es, py_iter events = Ok es /\
                 List.length lines = List.length es)).
Proof.
  unfold post_schedule_once. rewrite bind_read.
  destruct (posted_schedule_for_day s) eqn:Hp; [intros []|].
  destruct (truthy events) eqn:T; cbn [negb].
  - rewrite bind_lift. destruct (py_iter events) as [es|x]; [|intros []].
    rewrite bind_lift.
    destruct (map_res (sort_key w) es) as [keyed|x] eqn:Ek; [|intros []].
    rewrite bind_run.
    pose proof (schedule_lines_untouched w (sorted_by_key keyed) s) as U.
    unfold holds in U.
    destruct (schedule_lines w (sorted_by_key keyed) s)
      as [[[lines|x] s1] l1] eqn:El; simpl in U;
      destruct U as (_ & _ & _ & _ & _ & ->); [|intros []].
    simpl. intros H. apply schedule_chunk_effects in H. destruct H as [Hu ->].
    split; [reflexivity|]. split; [exact Hu|].
    exists lines. split; [reflexivity|]. right. split; [reflexivity|].
    exists es. split; [reflexivity|].
    rewrite (schedule_lines_length _ _ _ _ _ El), sorted_by_key_length.
    eapply map_res_length. exact Ek.
  - intros H. apply schedule_chunk_effects in H. destruct H as [Hu ->].
    split; [reflexivity|]. split; [exact Hu|].
    exists ["No NBA games found for today."]. split; [reflexivity|].
    left. split; reflexivity.
Qed.

End Further.

Lemma schedule_message_witness :
  let w := calm_world 5 (scoreboard []) in
  let s := state_on 5 [] false in
  let msg := schedule_header ++ "No NBA games found for today." in
  let post := Post Schedule (PStr "https://discord.com/api/webhooks/1/abc")
                msg (PostStatus 204) in
  In post (snd (post_schedule_once bound_namespace w (PList []) s)) /\
  posted_schedule_for_day s = false.
Proof.
  intros w s msg post.
  assert (H : In post (snd (post_schedule_once bound_namespace w (PList []) s)))
    by (left; reflexivity).
  split; [exact H|].
  destruct (schedule_message bound_namespace w (PList []) s _ _ _ H) as (F & _).
  exact F.
Defined.

Lemma raise_for_status_passes code :
  raise_for_status code = Ok tt <-> passes code.
Proof.
  unfold raise_for_status, passes.
  destruct ((400 <=? code) && (code <? 600)) eqn:E.
  - apply andb_true_iff in E. rewrite Z.leb_le, Z.ltb_lt in E.
    split; [discriminate|lia].
  - apply andb_false_iff in E. rewrite Z.leb_gt, Z.ltb_ge in E.
    split; [lia|reflexivity].
Qed.

Lemma raise_for_status_refuses code :
  ~ passes code -> raise_for_status code = Raise (HTTPError code).
Proof.
  intros H. unfold raise_for_status.
  destruct ((400 <=? code) && (code <? 600)) eqn:E; [reflexivity|].
  exfalso. apply H. unfold passes.
  apply andb_false_iff in E. rewrite Z.leb_gt, Z.ltb_ge in E. lia.
Qed.

Lemma count_single p e : count p [e] = if p e then 1%nat else 0%nat.
Proof. unfold count. simpl. destruct (p e); reflexivity. Qed.

Lemma count_none p l : Forall (fun e => p e = false) l -> count p l = 0%nat.
Proof.
  unfold count. induction 1 as [|e l He _ IH]; simpl; [reflexivity|].
  now rewrite He.
Qed.

Section Calls.

Variable g : Namespace.
Variable w : World.

Lemma fetch_scoreboard_run s :
  fetch_scoreboard w s =
  (match get_answers w (get_calls s) with
   | GetRaises e => Raise e
   | GetStatus code body =>
       match raise_for_status code with
       | Raise e => Raise e
       | Ok _ =>
           match body with
           | Some v => Ok v
           | None => Raise JSONDecodeError
           end
       end
   end,
   tick_get (tick_now s),
   [Get (scoreboard_url w (now w (now_calls s))) (get_answers w (get_calls s))]).
Proof.
  unfold fetch_scoreboard, bind, datetime_now, requests_get. simpl.
  destruct (get_answers w (get_calls s)) as [e|code body]; simpl; [reflexivity|].
  unfold lift. destruct (raise_for_status code); simpl; [|reflexivity].
  destruct body; reflexivity.
Qed.

(** X10.  [fetch_scoreboard] makes one GET, to the scoreboard URL with the
    date of the clock, and writes no module variable.  It returns the
    body exactly when the answer has a status outside 400-599 and a
    JSON body; a status from 400 to 599 raises [HTTPError] whatever the
    body, and a body that is not JSON raises [JSONDecodeError]. *)
Theorem fetch_returns_iff s :
  snd (fetch_scoreboard w s) =
    [Get (scoreboard_url w (now w (now_calls s))) (get_answers w (get_calls s))] /\
  same_variables s (snd (fst (fetch_scoreboard w s))) /\
  (forall v,
     fst (fst (fetch_scoreboard w s)) = Ok v <->
     exists code,
       get_answers w (get_calls s) = GetStatus code (Some v) /\ passes code) /\
  (forall code body,
     get_answers w (get_calls s) = GetStatus code body -> ~ passes code ->
     fst (fst (fetch_scoreboard w s)) = Raise (HTTPError code)) /\
  (forall code,
     get_answers w (get_calls s) = GetStatus code None -> passes code ->
     fst (fst (fetch_scoreboard w s)) = Raise JSONDecodeError).
Proof.
  rewrite fetch_scoreboard_run. simpl.
  split; [reflexivity|]. split; [repeat split|]. split; [|split].
  - intros v. split.
    + destruct (get_answers w (get_calls s)) as [e|code body]; [discriminate|].
      destruct (raise_for_status code) as [[]|e] eqn:E; [|discriminate].
      destruct body as [v'|]; [|discriminate].
      intros H. inversion H; subst. exists code.
      split; [reflexivity|now apply raise_for_status_passes].
    + intros (code & -> & Hc). apply raise_for_status_passes in Hc.
      now rewrite Hc.
  - intros code body -> Hc. now rewrite (raise_for_status_refuses code Hc).
  - intros code -> Hc. apply raise_for_status_passes in Hc. now rewrite Hc.
Qed.

(** X11.  [send_discord] makes one POST, of the message to the value of
    [DISCORD_WEBHOOK], or none when that name is not bound; it never
    posts twice.  It returns exactly when the name is bound and the
    answer has a status outside 400-599; a status from 400 to 599 raises
    [HTTPError] with that status. *)
Theorem send_returns_iff from msg s :
  snd (send_discord g w from msg s) =
    match DISCORD_WEBHOOK g with
    | Some url => [Post from url msg (post_answers w (post_calls s))]
    | None => []
    end /\
  (fst (fst (send_discord g w from msg s)) = Ok tt <->
   exists url code,
     DISCORD_WEBHOOK g = Some url /\
     post_answers w (post_calls s) = PostStatus code /\ passes code) /\
  (forall url code,
     DISCORD_WEBHOOK g = Some url ->
     post_answers w (post_calls s) = PostStatus code -> ~ passes code ->
     fst (fst (send_discord g w from msg s)) = Raise (HTTPError code)).
Proof.
  rewrite send_discord_run.
  destruct (DISCORD_WEBHOOK g) as [url|]; simpl.
  - split; [reflexivity|]. split.
    + split.
      * destruct (delivered (post_answers w (post_calls s))) eqn:D;
          [|discriminate].
        intros _. apply delivered_passes in D. destruct D as (code & E & Hc).
        exists url, code. auto.
      * intros (u & code & _ & E & Hc).
        assert (D : delivered (post_answers w (post_calls s)) = true)
          by (apply delivered_passes; eauto).
        now rewrite D.
    + intros u code _ E Hc.
      destruct (delivered (post_answers w (post_calls s))) eqn:D.
      * apply delivered_passes in D. destruct D as (c & E' & Hc').
        rewrite E in E'. inversion E'. subst. contradiction.
      * rewrite E. reflexivity.
  - split; [reflexivity|]. split.
    + split; [discriminate|]. intros (u & code & H & _). discriminate.
    + intros u code H. discriminate.
Qed.

End Calls.

Lemma fetch_returns_iff_witness :
  let w0 := calm_world 5 (scoreboard []) in
  let s0 := state_on 5 [] false in
  (exists code, get_answers w0 (get_calls s0)
                  = GetStatus code (Some (scoreboard [])) /\ passes code) /\
  fst (fst (fetch_scoreboard w0 s0)) = Ok (scoreboard []).
Proof.
  intros w0 s0.
  assert (H : exists code, get_answers w0 (get_calls s0)
                = GetStatus code (Some (scoreboard [])) /\ passes code).
  { exists 200. split; [reflexivity|]. left. reflexivity. }
  split; [exact H|].
  destruct (fetch_returns_iff w0 s0) as (_ & _ & F & _).
  apply F. exact H.
Defined.

Lemma send_returns_iff_witness :
  let w0 := answering 503 5 (scoreboard []) in
  let s0 := state_on 5 [] false in
  DISCORD_WEBHOOK bound_namespace
    = Some (PStr "https://discord.com/api/webhooks/1/abc") /\
  ~ passes 503 /\
  fst (fst (send_discord bound_namespace w0 DayReset reset_message s0))
    = Raise (HTTPError 503).
Proof.
  intros w0 s0.
  assert (N : ~ passes 503) by (unfold passes; lia).
  split; [reflexivity|]. split; [exact N|].
  destruct (send_returns_iff bound_namespace w0 DayReset reset_message s0)
    as (_ & _ & F).
  apply (F (PStr "https://discord.com/api/webhooks/1/abc") 503);
    [reflexivity|reflexivity|exact N].
Defined.

(** ** Where the posts of a run come from *)

Section Sites.

Variable g : Namespace.
Variable w : World.
Variable Q : site -> Prop.

Lemma send_discord_sites from msg s :
  Q from -> holds (every (from_sites Q)) (send_discord g w from msg) s.
Proof.
  intros H. unfold holds, every. rewrite send_discord_run.
  destruct (DISCORD_WEBHOOK g); simpl; repeat constructor. exact H.
Qed.

Lemma fetch_scoreboard_sites s :
  holds (every (from_sites Q)) (fetch_scoreboard w) s.
Proof.
  unfold holds, every. rewrite fetch_scoreboard_run. simpl.
  repeat constructor.
Qed.

Lemma post_schedule_once_sites events s :
  Q Schedule -> holds (every (from_sites Q)) (post_schedule_once g w events) s.
Proof.
  intros H.
  assert (C : forall msg t, holds (every (from_sites Q))
            (bind (send_discord g w Schedule msg)
                  (fun _ => modify (set_posted_schedule_for_day true))) t).
  { intros msg t. bind_with (every_trans (from_sites Q)).
    - now apply send_discord_sites.
    - intros. constructor. }
  unfold post_schedule_once.
  bind_with (every_trans (from_sites Q)); [constructor|].
  intros posted s1 l1 _. destruct posted; [constructor|].
  destruct (negb (truthy events)); [apply C|].
  bind_with (every_trans (from_sites Q)); [apply holds_lift, every_refl|].
  intros es s2 l2 _.
  bind_with (every_trans (from_sites Q)); [apply holds_lift, every_refl|].
  intros keyed s3 l3 _.
  bind_with (every_trans (from_sites Q)).
  { apply untouched_every, schedule_lines_untouched. }
  intros lines s4 l4 _. apply C.
Qed.

Lemma halftime_step_sites event s :
  (forall k, Q (Halftime k)) ->
  holds (every (from_sites Q)) (halftime_step g w event) s.
Proof.
  intros H. unfold halftime_step.
  bind_with (every_trans (from_sites Q)); [apply holds_lift, every_refl|].
  intros game_id s1 l1 _.
  destruct (negb (truthy game_id)); [constructor|].
  bind_with (every_trans (from_sites Q)); [apply holds_lift, every_refl|].
  intros half s2 l2 _. destruct half; [|constructor].
  bind_with (every_trans (from_sites Q)); [apply holds_lift, every_refl|].
  intros k s3 l3 _.
  bind_with (every_trans (from_sites Q)); [constructor|].
  intros alerted s4 l4 _. destruct (mem k alerted); [constructor|].
  bind_with (every_trans (from_sites Q)); [apply holds_global, every_refl|].
  intros ping s5 l5 _.
  bind_with (every_trans (from_sites Q)); [apply holds_lift, every_refl|].
  intros line s6 l6 _.
  bind_with (every_trans (from_sites Q)).
  - apply send_discord_sites, H.
  - intros. constructor.
Qed.

Lemma check_games_sites s :
  Q Schedule -> (forall k, Q (Halftime k)) ->
  holds (every (from_sites Q)) (check_games g w) s.
Proof.
  intros Hs Hh. unfold check_games.
  bind_with (every_trans (from_sites Q)); [apply fetch_scoreboard_sites|].
  intros data s1 l1 _.
  bind_with (every_trans (from_sites Q)); [apply holds_lift, every_refl|].
  intros events s2 l2 _.
  bind_with (every_trans (from_sites Q)); [now apply post_schedule_once_sites|].
  intros u s3 l3 _.
  bind_with (every_trans (from_sites Q)); [apply holds_lift, every_refl|].
  intros es s4 l4 _.
  apply (holds_for_each _ (every_refl _) (every_trans _)).
  intros; now apply halftime_step_sites.
Qed.

Lemma tick_sites s :
  Q Schedule -> (forall k, Q (Halftime k)) -> Q DayReset ->
  holds (every (from_sites Q)) (tick g w) s.
Proof.
  intros Hs Hh Hr. unfold tick.
  bind_with (every_trans (from_sites Q)); [|intros; repeat constructor].
  apply (holds_try_except _ (every_trans (from_sites Q)));
    [|intros; repeat constructor].
  unfold tick_body.
  bind_with (every_trans (from_sites Q)); [constructor|].
  intros d s1 l1 _.
  bind_with (every_trans (from_sites Q)); [constructor|].
  intros last s2 l2 _.
  bind_with (every_trans (from_sites Q));
    [|intros; now apply check_games_sites].
  destruct (negb (d =? last)); [|constructor].
  bind_with (every_trans (from_sites Q)); [constructor|]. intros u3 s3 l3 _.
  bind_with (every_trans (from_sites Q)); [constructor|]. intros d' s4 l4 _.
  bind_with (every_trans (from_sites Q)); [constructor|]. intros u5 s5 l5 _.
  bind_with (every_trans (from_sites Q)); [constructor|]. intros u6 s6 l6 _.
  bind_with (every_trans (from_sites Q));
    [|intros; now apply check_games_sites].
  now apply send_discord_sites.
Qed.

Lemma poll_loop_sites n :
  Q Schedule -> (forall k, Q (Halftime k)) -> Q DayReset ->
  forall s, holds (every (from_sites Q)) (poll_loop g w n) s.
Proof.
  intros Hs Hh Hr. induction n as [|n IH]; intros s; simpl; [constructor|].
  bind_with (every_trans (from_sites Q)); [now apply tick_sites|].
  intros; apply IH.
Qed.

End Sites.

Section Cycle.

Variable g : Namespace.
Variable w : World.

Lemma check_games_fetched s :
  check_games g w s = bind (fetch_scoreboard w) (after_fetch g w) s.
Proof. reflexivity. Qed.

Lemma after_fetch_every (P : effect -> Prop) data s :
  (forall from url msg a, P (Post from url msg a)) ->
  holds (every P) (after_fetch g w data) s.
Proof.
  intros HP. unfold after_fetch.
  bind_with (every_trans P); [apply holds_lift, every_refl|].
  intros events s1 l1 _.
  bind_with (every_trans P); [apply post_schedule_once_every; intros; apply HP|].
  intros u s2 l2 _.
  bind_with (every_trans P); [apply holds_lift, every_refl|].
  intros es s3 l3 _.
  apply (holds_for_each _ (every_refl P) (every_trans P)).
  intros; apply halftime_step_every; intros; apply HP.
Qed.

Lemma check_games_one_get s :
  count is_get (snd (check_games g w s)) = 1%nat.
Proof.
  rewrite check_games_fetched, bind_run, fetch_scoreboard_run.
  match goal with |- context [match ?r with Ok _ => _ | Raise _ => _ end] =>
    destruct r as [data|e] end; [|reflexivity].
  cbn [snd]. rewrite count_app. unfold count at 1. cbn [filter is_get List.length].
  rewrite count_none; [reflexivity|].
  apply (after_fetch_every (fun e => is_get e = false)). reflexivity.
Qed.

Lemma send_discord_no_get from msg s :
  count is_get (snd (send_discord g w from msg s)) = 0%nat.
Proof.
  rewrite send_discord_run. destruct (DISCORD_WEBHOOK g); reflexivity.
Qed.

Lemma check_games_first_get s :
  exists rest,
    snd (check_games g w s) =
      Get (scoreboard_url w (now w (now_calls s)))
          (get_answers w (get_calls s)) :: rest /\
    count is_get rest = 0%nat.
Proof.
  pose proof (check_games_one_get s) as C.
  rewrite check_games_fetched, bind_run, fetch_scoreboard_run in *.
  match goal with |- context [match ?r with Ok _ => _ | Raise _ => _ end] =>
    destruct r as [data|e] end; cbn [snd] in *.
  - eexists. split; [reflexivity|]. unfold count in *. simpl in C. lia.
  - eexists. split; reflexivity.
Qed.

Lemma tick_one_get s :
  today w (today_calls s) = last_day s ->
  count is_get (snd (tick g w s)) = 1%nat.
Proof.
  intros H. rewrite tick_run, (tick_body_same_day g w s H).
  pose proof (check_games_one_get (tick_today s)) as C.
  destruct (check_games g w (tick_today s)) as [[[u|e] s1] l1];
    cbn [snd] in *; rewrite !count_app, !count_single, C; reflexivity.
Qed.

Lemma tick_at_most_two_gets s :
  (count is_get (snd (tick g w s)) <= 2)%nat.
Proof.
  assert (B : (count is_get (snd (tick_body g w s)) <= 2)%nat).
  { destruct (Z.eq_dec (today w (today_calls s)) (last_day s)) as [E|E].
    - rewrite (tick_body_same_day g w s E), check_games_one_get. lia.
    - rewrite (tick_body_rollover g w s E), bind_run.
      pose proof (send_discord_no_get DayReset reset_message
                    (rollover_state w s)) as S0.
      destruct (send_discord g w DayReset reset_message (rollover_state w s))
        as [[[u|e] s1] l1]; cbn [snd] in *; [|lia].
      rewrite count_app, S0, bind_run.
      pose proof (check_games_one_get s1) as C1.
      destruct (check_games g w s1) as [[[u1|e] s2] l2]; cbn [snd] in *;
        [|lia].
      rewrite count_app, C1, check_games_one_get. lia. }
  rewrite tick_run.
  destruct (tick_body g w s) as [[[u|e] s1] l1]; cbn [snd] in *;
    rewrite !count_app, !count_single; simpl; lia.
Qed.

Lemma poll_loop_fetches n :
  forall s, same_day w s -> count is_get (snd (poll_loop g w n s)) = n.
Proof.
  induction n as [|n IH]; intros s D; [reflexivity|].
  rewrite poll_loop_next. cbn [snd]. rewrite count_app.
  rewrite tick_one_get by (apply D; lia). rewrite IH; [reflexivity|].
  eapply same_day_step; [exact D|].
  apply (tick_same_day g w s). apply D. lia.
Qed.

(** X12.  A check cycle makes exactly one fetch, as its first effect, to
    the URL of the date read from the clock.  A turn of the loop makes
    exactly one fetch on the day of [last_day] and at most two on a new
    day, so [n] turns on the day of [last_day] make [n] fetches. *)
Theorem one_fetch_per_cycle n s :
  (exists rest,
     snd (check_games g w s) =
       Get (scoreboard_url w (now w (now_calls s)))
           (get_answers w (get_calls s)) :: rest /\
     count is_get rest = 0%nat) /\
  (today w (today_calls s) = last_day s ->
   count is_get (snd (tick g w s)) = 1%nat) /\
  (count is_get (snd (tick g w s)) <= 2)%nat /\
  (same_day w s -> count is_get (snd (poll_loop g w n s)) = n).
Proof.
  split; [apply check_games_first_get|].
  split; [apply tick_one_get|].
  split; [apply tick_at_most_two_gets|apply poll_loop_fetches].
Qed.

(** X13.  The schedule comes before the alerts: when the fetch returns
    and [post_schedule_once] raises (a record whose date does not parse,
    or without its two sides, or a delivery that fails), the check cycle
    ends on that exception with the flag still unset and without looking
    at a single record for halftime, so no alert is sent in that cycle. *)
Theorem failed_schedule_blocks_alerts s code data events e s2 l :
  get_answers w (get_calls s) = GetStatus code (Some data) ->
  passes code ->
  py_get data "events" (PList []) = Ok events ->
  post_schedule_once g w events (tick_get (tick_now s)) = (Raise e, s2, l) ->
  check_games g w s =
    (Raise e, s2,
     Get (scoreboard_url w (now w (now_calls s)))
         (GetStatus code (Some data)) :: l) /\
  posted_schedule_for_day s2 = false /\
  forall k, count (halftime_sent k) (snd (check_games g w s)) = 0%nat.
Proof.
  intros Hg Hc He Hp.
  assert (E : check_games g w s =
              (Raise e, s2,
               Get (scoreboard_url w (now w (now_calls s)))
                   (GetStatus code (Some data)) :: l)).
  { rewrite check_games_fetched, bind_run, fetch_scoreboard_run, Hg.
    apply raise_for_status_passes in Hc. rewrite Hc.
    unfold after_fetch. rewrite bind_lift, He, bind_run, Hp. reflexivity. }
  split; [exact E|]. split.
  - destruct (post_schedule_once_cases g w events (tick_get (tick_now s)))
      as [[(_ & V & _) _]|(u & m & c & _ & R & _)];
      rewrite Hp in *; simpl in *; [|discriminate].
    rewrite V.
    unfold post_schedule_once in Hp. rewrite bind_read in Hp.
    destruct (posted_schedule_for_day (tick_get (tick_now s))) eqn:F;
      [discriminate|]. exact F.
  - intros k. rewrite E. cbn [snd].
    change (Get ?u ?a :: l) with ([Get u a] ++ l)%list.
    rewrite count_app. unfold count at 1. simpl.
    apply count_none.
    pose proof (post_schedule_once_sites g w (fun x => x = Schedule)
                  events (tick_get (tick_now s)) eq_refl) as Q.
    unfold holds, every in Q. rewrite Hp in Q. simpl in Q.
    revert Q. apply Forall_impl. intros x Hx.
    destruct x as [from u m a| | |]; try reflexivity.
    simpl in Hx. subst from. reflexivity.
Qed.

Lemma halftime_step_idle event s :
  idle (alerted_games s) event -> halftime_step g w event s = (Ok tt, s, []).
Proof.
  intros (id & Hid & H). unfold halftime_step. rewrite bind_lift, Hid.
  destruct H as [T|[Hh|(Hh & k & Hk & Hm)]].
  - now rewrite T.
  - destruct (negb (truthy id)); [reflexivity|].
    now rewrite bind_lift, Hh.
  - destruct (negb (truthy id)); [reflexivity|].
    rewrite bind_lift, Hh, bind_lift, Hk, bind_read, Hm. reflexivity.
Qed.

Lemma for_each_idle es s :
  Forall (idle (alerted_games s)) es ->
  for_each (halftime_step g w) es s = (Ok tt, s, []).
Proof.
  induction 1 as [|e rest He _ IH]; simpl; [reflexivity|].
  rewrite (bind_silent _ _ s tt s); [exact IH|now apply halftime_step_idle].
Qed.

(** X14.  A cycle with nothing new is silent: when the fetch returns, the
    schedule flag is set and every record is without identifier, not at
    halftime, or at halftime and already in [alerted_games], the check
    cycle returns after its one GET, with no POST and the module
    variables as they were. *)
Theorem quiet_cycle s code data events es :
  get_answers w (get_calls s) = GetStatus code (Some data) ->
  passes code ->
  py_get data "events" (PList []) = Ok events ->
  py_iter events = Ok es ->
  posted_schedule_for_day s = true ->
  Forall (idle (alerted_games s)) es ->
  check_games g w s =
    (Ok tt, tick_get (tick_now s),
     [Get (scoreboard_url w (now w (now_calls s))) (GetStatus code (Some data))]).
Proof.
  intros Hg Hc He Hi Hp Hf.
  rewrite check_games_fetched, bind_run, fetch_scoreboard_run, Hg.
  apply raise_for_status_passes in Hc. rewrite Hc.
  unfold after_fetch. rewrite bind_lift, He.
  unfold post_schedule_once. rewrite bind_assoc, bind_read.
  change (posted_schedule_for_day (tick_get (tick_now s)))
    with (posted_schedule_for_day s).
  rewrite Hp, bind_ret, bind_lift, Hi.
  rewrite (for_each_idle es (tick_get (tick_now s)) Hf). reflexivity.
Qed.

(** X15.  A record at halftime that has an identifier not yet in
    [alerted_games], both sides and a live line gets its alert, the two
    names being bound: one POST of "<@ping>", "🏀 **HALFTIME**" and the
    live line.  When the POST goes through the identifier enters the
    set; when it does not, the step raises, the set is what it was, and
    the same step on the state it left posts the alert again. *)
Theorem alert_or_retry event s id k ping line url :
  py_get event "id" PNone = Ok id ->
  truthy id = true ->
  is_halftime event = Ok true ->
  hash_key id = Ok k ->
  mem k (alerted_games s) = false ->
  PING_USER_ID g = Some ping ->
  format_live_line w event = Ok line ->
  DISCORD_WEBHOOK g = Some url ->
  let a := post_answers w (post_calls s) in
  let post := Post (Halftime k) url (alert_text w ping line) in
  (delivered a = true ->
   halftime_step g w event s =
     (Ok tt, set_alerted_games (add k (alerted_games s)) (tick_post s),
      [post a])) /\
  (delivered a = false ->
   halftime_step g w event s = (Raise (refusal a), tick_post s, [post a]) /\
   snd (halftime_step g w event (tick_post s)) =
     [post (post_answers w (S (post_calls s)))]).
Proof.
  intros Hid Ht Hh Hk Hm Hp Hl Hu a post.
  assert (R : forall t, mem k (alerted_games t) = false ->
    halftime_step g w event t =
    bind (send_discord g w (Halftime k) (alert_text w ping line))
         (fun _ => modify (fun s => set_alerted_games (add k (alerted_games s)) s))
         t).
  { intros t Hmt. unfold halftime_step.
    rewrite bind_lift, Hid, Ht. cbn [negb].
    rewrite bind_lift, Hh, bind_lift, Hk, bind_read, Hmt.
    rewrite bind_global, Hp, bind_lift, Hl. reflexivity. }
  split.
  - intros D. rewrite (R s Hm), bind_run, send_discord_run, Hu. simpl.
    fold a. rewrite D. reflexivity.
  - intros D. split.
    + rewrite (R s Hm), bind_run, send_discord_run, Hu. simpl.
      fold a. rewrite D. reflexivity.
    + rewrite (R (tick_post s) Hm), bind_run, send_discord_run, Hu. simpl.
      destruct (delivered (post_answers w (S (post_calls s)))); reflexivity.
Qed.

End Cycle.

Lemma failed_schedule_blocks_alerts_witness :
  let w := strict_world 5 (scoreboard [game_at_half]) in
  let s := state_on 5 [] false in
  post_schedule_once bound_namespace w (PList [game_at_half])
    (tick_get (tick_now s))
    = (Raise (ValueError "Invalid isoformat string"), tick_get (tick_now s), []) /\
  is_halftime game_at_half = Ok true /\
  forall k, count (halftime_sent k) (snd (check_games bound_namespace w s)) = 0%nat.
Proof.
  intros w s.
  assert (H : post_schedule_once bound_namespace w (PList [game_at_half])
                (tick_get (tick_now s))
              = (Raise (ValueError "Invalid isoformat string"),
                 tick_get (tick_now s), [])) by reflexivity.
  split; [exact H|]. split; [reflexivity|].
  destruct (failed_schedule_blocks_alerts bound_namespace w s 200
              (scoreboard [game_at_half]) (PList [game_at_half]) _ _ _
              eq_refl (or_introl eq_refl) eq_refl H) as (_ & _ & C).
  exact C.
Defined.

Lemma quiet_cycle_witness :
  let w := calm_world 5 (scoreboard [game_at_half]) in
  let s := state_on 5 [KStr "401"] true in
  Forall (idle (alerted_games s)) [game_at_half] /\
  messages (snd (check_games bound_namespace w s)) = [].
Proof.
  intros w s.
  assert (F : Forall (idle (alerted_games s)) [game_at_half]).
  { constructor; [|constructor]. exists (PStr "401"). split; [reflexivity|].
    right. right. split; [reflexivity|]. exists (KStr "401").
    split; reflexivity. }
  split; [exact F|].
  rewrite (quiet_cycle bound_namespace w s 200 (scoreboard [game_at_half])
             (PList [game_at_half]) [game_at_half]
             eq_refl (or_introl eq_refl) eq_refl eq_refl eq_refl F).
  reflexivity.
Defined.

Lemma alert_or_retry_witness :
  let w := answering 500 5 (scoreboard [game_at_half]) in
  let s := state_on 5 [] true in
  delivered (post_answers w (post_calls s)) = false /\
  fst (fst (halftime_step bound_namespace w game_at_half s))
    = Raise (HTTPError 500) /\
  posts (snd (halftime_step bound_namespace w game_at_half (tick_post s)))
    = [(Halftime (KStr "401"), PostStatus 500)].
Proof.
  intros w s.
  destruct (alert_or_retry bound_namespace w game_at_half s (PStr "401")
              (KStr "401") (PStr "428747562686611457")
              "Boston Celtics 55 – Miami Heat 48 (Halftime)"
              (PStr "https://discord.com/api/webhooks/1/abc")
              eq_refl eq_refl eq_refl eq_refl eq_refl eq_refl eq_refl eq_refl)
    as (_ & R).
  destruct (R eq_refl) as (R1 & R2).
  split; [reflexivity|]. split.
  - rewrite R1. reflexivity.
  - rewrite R2. reflexivity.
Defined.

Lemma filter_none {A} (p : A -> bool) l :
  Forall (fun e => p e = false) l -> filter p l = [].
Proof.
  induction 1 as [|e l He _ IH]; simpl; [reflexivity|]. now rewrite He.
Qed.

Lemma count_sites_none p Q l :
  (forall e, from_sites Q e -> p e = false) ->
  Forall (from_sites Q) l -> count p l = 0%nat.
Proof.
  intros H F. apply count_none. revert F. apply Forall_impl. exact H.
Qed.

Lemma prefix_app p s :
  String.prefix p s = true <-> exists rest, s = p ++ rest.
Proof.
  revert s. induction p as [|a p IH]; intros s.
  - split; [intros _; now exists s|destruct s; reflexivity].
  - destruct s as [|b s]; simpl.
    + split; [discriminate|]. intros (rest & H). discriminate.
    + destruct (ascii_dec a b) as [->|N].
      * rewrite IH. split; intros (rest & H); exists rest; congruence.
      * split; [discriminate|]. intros (rest & H). congruence.
Qed.

Section Places.

Variable g : Namespace.
Variable w : World.

Lemma tick_body_no_sleep s :
  Forall (fun e => is_sleep e = false) (snd (tick_body g w s)).
Proof.
  apply (tick_body_every g w (fun e => is_sleep e = false));
    intros; reflexivity.
Qed.

Lemma tick_sleeps_once s :
  filter is_sleep (snd (tick g w s)) = [Sleep POLL_SECONDS].
Proof.
  rewrite tick_run. pose proof (tick_body_no_sleep s) as N.
  destruct (tick_body g w s) as [[[u|e] s1] l1]; cbn [snd] in *;
    rewrite !filter_app, (filter_none _ _ N); reflexivity.
Qed.

(** X16.  The loop sleeps once per turn, for [POLL_SECONDS] = 60 seconds
    each time, whatever happens in the turn: the sleeps of [n] turns are
    [n] sleeps of 60 seconds, with no backoff after a failure. *)
Theorem loop_sleeps n :
  forall s,
    filter is_sleep (snd (poll_loop g w n s)) = repeat (Sleep 60) n.
Proof.
  induction n as [|n IH]; intros s; [reflexivity|].
  rewrite poll_loop_next. cbn [snd].
  rewrite filter_app, tick_sleeps_once, IH. reflexivity.
Qed.

Lemma check_games_places s :
  count is_from_startup (snd (check_games g w s)) = 0%nat /\
  count is_from_reset (snd (check_games g w s)) = 0%nat.
Proof.
  pose proof (check_games_sites g w
                (fun x => x <> Startup /\ x <> DayReset) s) as C.
  unfold holds, every in C.
  assert (F : Forall (from_sites (fun x => x <> Startup /\ x <> DayReset))
                (snd (check_games g w s))).
  { apply C; [split; discriminate|intros k; split; discriminate]. }
  split; (eapply count_sites_none; [|exact F]);
    intros [[| | |k] u m a| | |]; simpl; try reflexivity;
    intros [H1 H2]; congruence.
Qed.

Lemma send_discord_at_most_one p from msg s :
  (count p (snd (send_discord g w from msg s)) <= 1)%nat.
Proof.
  rewrite send_discord_run. destruct (DISCORD_WEBHOOK g); cbn [snd].
  - rewrite count_single. destruct (p _); lia.
  - unfold count. simpl. lia.
Qed.

Lemma poll_loop_no_startup n s :
  count is_from_startup (snd (poll_loop g w n s)) = 0%nat.
Proof.
  pose proof (poll_loop_sites g w (fun x => x <> Startup) n) as C.
  unfold holds, every in C.
  eapply count_sites_none; [|apply C; try discriminate; intros k; discriminate].
  intros [[| | |k] u m a| | |]; simpl; try reflexivity. congruence.
Qed.

Lemma tick_no_reset s :
  today w (today_calls s) = last_day s ->
  count is_from_reset (snd (tick g w s)) = 0%nat.
Proof.
  intros H. rewrite tick_run, (tick_body_same_day g w s H).
  destruct (check_games_places (tick_today s)) as [_ C].
  destruct (check_games g w (tick_today s)) as [[[u|e] s1] l1];
    cbn [snd] in *; rewrite !count_app, !count_single, C; reflexivity.
Qed.

Lemma poll_loop_no_reset n :
  forall s, same_day w s ->
            count is_from_reset (snd (poll_loop g w n s)) = 0%nat.
Proof.
  induction n as [|n IH]; intros s D; [reflexivity|].
  rewrite poll_loop_next. cbn [snd].
  rewrite count_app, tick_no_reset by (apply D; lia).
  rewrite IH; [reflexivity|].
  eapply same_day_step; [exact D|].
  apply (tick_same_day g w s). apply D. lia.
Qed.

(** X17.  Each message has its place.  The loop never posts the startup
    announcement, and [main] posts it at most once; the day-reset
    message is posted at most once in a turn, and never in a check cycle
    nor in the turns of the day of [last_day], with or without the
    startup before them. *)
Theorem each_message_in_its_place n s :
  count is_from_startup (snd (poll_loop g w n s)) = 0%nat /\
  (count is_from_startup (snd (main g w n s)) <= 1)%nat /\
  (count is_from_reset (snd (tick g w s)) <= 1)%nat /\
  count is_from_reset (snd (check_games g w s)) = 0%nat /\
  (same_day w s ->
   count is_from_reset (snd (poll_loop g w n s)) = 0%nat /\
   count is_from_reset (snd (main g w n s)) = 0%nat).
Proof.
  split; [apply poll_loop_no_startup|]. split; [|split; [|split]].
  - unfold main. rewrite bind_run.
    pose proof (validate_webhook_untouched g s) as U. unfold holds in U.
    destruct (validate_webhook g s) as [[[u|e] s1] l1]; cbn [fst snd] in *;
      destruct U as (_ & _ & _ & _ & _ & ->); [|unfold count; simpl; lia].
    cbn [app]. rewrite bind_run.
    assert (A : (count is_from_startup (snd (announce_start g w s1)) <= 1)%nat).
    { unfold announce_start. rewrite bind_global.
      destruct (PING_USER_ID g); [apply send_discord_at_most_one|].
      unfold count. simpl. lia. }
    destruct (announce_start g w s1) as [[[u1|e] s2] l2]; cbn [fst snd] in *;
      [|exact A].
    rewrite count_app, bind_run.
    destruct (check_games_places s2) as [C _].
    destruct (check_games g w s2) as [[[u2|e] s3] l3]; cbn [fst snd] in *.
    + rewrite count_app, C, poll_loop_no_startup. lia.
    + rewrite C. lia.
  - rewrite tick_run.
    assert (B : (count is_from_reset (snd (tick_body g w s)) <= 1)%nat).
    { destruct (Z.eq_dec (today w (today_calls s)) (last_day s)) as [E|E].
      - rewrite (tick_body_same_day g w s E).
        destruct (check_games_places (tick_today s)) as [_ C]. rewrite C. lia.
      - rewrite (tick_body_rollover g w s E), bind_run.
        pose proof (send_discord_at_most_one is_from_reset DayReset
                      reset_message (rollover_state w s)) as S0.
        destruct (send_discord g w DayReset reset_message (rollover_state w s))
          as [[[u|e] s1] l1]; cbn [fst snd] in *; [|exact S0].
        rewrite count_app, bind_run.
        destruct (check_games_places s1) as [_ C1].
        destruct (check_games g w s1) as [[[u1|e] s2] l2]; cbn [fst snd] in *.
        + destruct (check_games_places s2) as [_ C2].
          rewrite count_app, C1, C2. lia.
        + rewrite C1. lia. }
    destruct (tick_body g w s) as [[[u|e] s1] l1]; cbn [snd] in *;
      rewrite !count_app, !count_single; simpl; lia.
  - apply check_games_places.
  - intros D. split; [now apply poll_loop_no_reset|].
    unfold main. rewrite bind_run.
    pose proof (validate_webhook_untouched g s) as U. unfold holds in U.
    destruct (validate_webhook g s) as [[[u|e] s1] l1] eqn:V; cbn [fst snd] in *;
      [|destruct U as (_ & _ & _ & _ & _ & ->); reflexivity].
    assert (D1 : same_day w s1).
    { eapply same_day_step; [exact D|]. apply untouched_within_day, U. }
    destruct U as (_ & _ & _ & _ & _ & ->). cbn [app]. rewrite bind_run.
    pose proof (announce_start_within_day g w s1) as A. unfold holds in A.
    assert (A0 : count is_from_reset (snd (announce_start g w s1)) = 0%nat).
    { unfold announce_start. rewrite bind_global.
      destruct (PING_USER_ID g); [|reflexivity].
      rewrite send_discord_run. destruct (DISCORD_WEBHOOK g); reflexivity. }
    destruct (announce_start g w s1) as [[[u1|e] s2] l2]; cbn [fst snd] in *;
      [|exact A0].
    assert (D2 : same_day w s2) by (eapply same_day_step; eassumption).
    rewrite count_app, A0, bind_run.
    pose proof (check_games_within_day g w s2) as C. unfold holds in C.
    destruct (check_games_places s2) as [_ C0].
    destruct (check_games g w s2) as [[[u2|e] s3] l3]; cbn [fst snd] in *;
      [|rewrite C0; reflexivity].
    rewrite count_app, C0, poll_loop_no_reset; [reflexivity|].
    eapply same_day_step; eassumption.
Qed.

(** X18.  The validation of [main] accepts exactly a [DISCORD_WEBHOOK]
    bound to a string that is the prefix
    "https://discord.com/api/webhooks/" followed by anything, and has no
    effect.  A string without the prefix, the empty one included, raises
    [ValueError]; and with any value that is not accepted, unbound or
    not a string included, [main] ends before its first effect. *)
Theorem webhook_accepted_iff s :
  (validate_webhook g s = (Ok tt, s, []) <->
   exists rest, DISCORD_WEBHOOK g = Some (PStr (webhook_prefix ++ rest))) /\
  (forall u,
     DISCORD_WEBHOOK g = Some (PStr u) ->
     (forall rest, u <> webhook_prefix ++ rest) ->
     validate_webhook g s =
       (Raise (ValueError
                 "DISCORD_WEBHOOK is not set to a valid Discord webhook URL."),
        s, [])) /\
  ((forall rest, DISCORD_WEBHOOK g <> Some (PStr (webhook_prefix ++ rest))) ->
   forall n, exists e, main g w n s = (Raise e, s, [])).
Proof.
  split; [|split].
  - rewrite validate_webhook_run. split.
    + destruct (DISCORD_WEBHOOK g) as [[| | |u| |]|]; try discriminate.
      destruct (startswith u webhook_prefix) eqn:E; [|discriminate].
      intros _. apply prefix_app in E. destruct E as (rest & ->).
      now exists rest.
    + intros (rest & ->).
      assert (E : startswith (webhook_prefix ++ rest) webhook_prefix = true)
        by (apply prefix_app; now exists rest).
      now rewrite E.
  - intros u Hu Hn. rewrite validate_webhook_run, Hu.
    destruct (startswith u webhook_prefix) eqn:E; [|reflexivity].
    apply prefix_app in E. destruct E as (rest & ->).
    destruct (Hn rest eq_refl).
  - intros Hn n. apply main_rejects. intros u Hu.
    destruct (startswith u webhook_prefix) eqn:E; [|reflexivity].
    apply prefix_app in E. destruct E as (rest & ->).
    destruct (Hn rest Hu).
Qed.

End Places.

Lemma each_message_in_its_place_witness :
  let w := calm_world 5 (scoreboard [game_at_half]) in
  let s := state_on 5 [] false in
  same_day w s /\
  count is_from_reset (snd (main bound_namespace w 3 s)) = 0%nat.
Proof.
  intros w s.
  assert (D : same_day w s) by (intros i _; reflexivity).
  split; [exact D|].
  destruct (each_message_in_its_place bound_namespace w 3 s)
    as (_ & _ & _ & _ & H).
  destruct (H D) as [_ M]. exact M.
Defined.

Lemma webhook_accepted_iff_witness :
  let g := {| WEBHOOK := PNone; DISCORD_WEBHOOK := Some (PStr "");
              PING_USER_ID := Some (PStr "1") |} in
  let w := calm_world 5 (scoreboard []) in
  let s := state_on 5 [] false in
  (forall rest, "" <> webhook_prefix ++ rest) /\
  validate_webhook g s =
    (Raise (ValueError
              "DISCORD_WEBHOOK is not set to a valid Discord webhook URL."),
     s, []).
Proof.
  intros g w s.
  assert (N : forall rest, "" <> webhook_prefix ++ rest)
    by (intros rest; discriminate).
  split; [exact N|].
  destruct (webhook_accepted_iff g w s) as (_ & H & _).
  apply (H "" eq_refl N).
Defined.

Section Order.

Variable g : Namespace.
Variable w : World.

(** X19.  The order of the startup, with [DISCORD_WEBHOOK] accepted and
    [PING_USER_ID] bound: the first effect of [main] is the POST of the
    announcement; when it does not go through, [main] ends there, without
    a fetch; when it does, the fetch of the first check cycle comes
    next. *)
Theorem startup_order n s rest ping :
  DISCORD_WEBHOOK g = Some (PStr (webhook_prefix ++ rest)) ->
  PING_USER_ID g = Some ping ->
  let a := post_answers w (post_calls s) in
  let post := Post Startup (PStr (webhook_prefix ++ rest)) (start_text w ping) a in
  (delivered a = false ->
   main g w n s = (Raise (refusal a), tick_post s, [post])) /\
  (delivered a = true ->
   exists tail,
     snd (main g w n s) =
       post :: Get (scoreboard_url w (now w (now_calls s)))
                   (get_answers w (get_calls s)) :: tail).
Proof.
  intros Hu Hp a post.
  assert (V : validate_webhook g s = (Ok tt, s, [])).
  { rewrite validate_webhook_run, Hu.
    assert (E : startswith (webhook_prefix ++ rest) webhook_prefix = true)
      by (apply prefix_app; now exists rest).
    now rewrite E. }
  assert (A : announce_start g w s =
              (if delivered a then Ok tt else Raise (refusal a),
               tick_post s, [post])).
  { unfold announce_start. rewrite bind_global, Hp, send_discord_run, Hu.
    reflexivity. }
  split.
  - intros D. unfold main. rewrite (bind_silent _ _ s tt s V).
    rewrite bind_run, A, D. reflexivity.
  - intros D. unfold main. rewrite (bind_silent _ _ s tt s V).
    rewrite bind_run, A, D. cbn [fst snd]. rewrite bind_run.
    destruct (check_games_first_get g w (tick_post s)) as (r & E & _).
    destruct (check_games g w (tick_post s)) as [[[u|e] s1] l1];
      cbn [fst snd] in *; rewrite E; eexists; reflexivity.
Qed.

(** X20.  What an unbound name silences.  With [DISCORD_WEBHOOK] unbound
    nothing is ever posted, by the loop or by [main], and [main] ends on
    [NameError] before any effect.  With [PING_USER_ID] unbound no
    startup announcement and no halftime alert is ever posted, by the
    loop or by [main]. *)
Theorem unbound_names_silence n s :
  (DISCORD_WEBHOOK g = None ->
   messages (snd (poll_loop g w n s)) = [] /\
   main g w n s = (Raise (NameError "DISCORD_WEBHOOK"), s, [])) /\
  (PING_USER_ID g = None ->
   count is_alert_or_start (snd (poll_loop g w n s)) = 0%nat /\
   count is_alert_or_start (snd (main g w n s)) = 0%nat).
Proof.
  split.
  - intros H. split.
    + apply no_post_no_message.
      apply (poll_loop_every g w not_a_post); simpl; auto;
        intros; congruence.
    + unfold main. apply bind_raises.
      now rewrite validate_webhook_run, H.
  - intros H. split; apply count_none.
    + apply (poll_loop_every g w (fun x => is_alert_or_start x = false));
        intros; try reflexivity; congruence.
    + apply (main_every g w (fun x => is_alert_or_start x = false));
        intros; try reflexivity; congruence.
Qed.

End Order.

Lemma startup_order_witness :
  let w := answering 500 5 (scoreboard []) in
  let s := state_on 5 [] false in
  DISCORD_WEBHOOK bound_namespace
    = Some (PStr (webhook_prefix ++ "1/abc")) /\
  delivered (post_answers w (post_calls s)) = false /\
  fst (fst (main bound_namespace w 2 s)) = Raise (HTTPError 500) /\
  count is_get (snd (main bound_namespace w 2 s)) = 0%nat.
Proof.
  intros w s.
  destruct (startup_order bound_namespace w 2 s "1/abc"
              (PStr "428747562686611457") eq_refl eq_refl) as (F & _).
  split; [reflexivity|]. split; [reflexivity|].
  rewrite (F eq_refl). split; reflexivity.
Defined.

Lemma unbound_names_silence_witness :
  let g := module_namespace (Some "https://discord.com/api/webhooks/1/abc") in
  let w := calm_world 5 (scoreboard [game_at_half]) in
  let s := state_on 4 [] false in
  DISCORD_WEBHOOK g = None /\
  messages (snd (poll_loop g w 3 s)) = [].
Proof.
  intros g w s. split; [reflexivity|].
  destruct (unbound_names_silence g w 3 s) as (H & _).
  destruct (H eq_refl) as [M _]. exact M.
Defined.

Lemma no_date_iff_witness :
  let w := calm_world 5 (scoreboard []) in
  (exists iso, py_get (PDict [("date", PStr "")]) "date" PNone = Ok iso /\
               truthy iso = false) /\
  parse_event_datetime_local w (PDict [("date", PStr "")]) = Ok None.
Proof.
  intros w.
  assert (H : exists iso, py_get (PDict [("date", PStr "")]) "date" PNone = Ok iso
                          /\ truthy iso = false)
    by (exists (PStr ""); split; reflexivity).
  split; [exact H|]. apply (no_date_iff w). exact H.
Defined.

Lemma one_fetch_per_cycle_witness :
  let w := flaky_world 5 (scoreboard [game_at_half]) in
  let s := state_on 5 [] false in
  same_day w s /\
  count is_get (snd (poll_loop bound_namespace w 4 s)) = 4%nat.
Proof.
  intros w s.
  assert (D : same_day w s) by (intros i _; reflexivity).
  split; [exact D|].
  destruct (one_fetch_per_cycle bound_namespace w 4 s) as (_ & _ & _ & H).
  exact (H D).
Defined.
